(** * FounderHubAI pitch-deck builder: slide model, change tracking, suggestions

    A shallow embedding of the state-handling code of
    [apps/frontend/app/pitch-deck/page.tsx],
    [apps/frontend/app/pitch-deck/components/ManualEditModal.tsx] and
    [apps/frontend/types/slide.ts], and the properties of the design
    document that can be settled on it.

    Conventions.
    - A JavaScript string is a [string]; every character stands for one code
      unit below 256.  A number is an integer.
    - A React state hook is a field of [State]; a [setX] call is a [SetState]
      step of a [Task]; [await fetch(..)] is a [Spawn] followed by an [Await].
      A handler is a function of the state its render closed over.
    - An exception is a [Throw] step carrying the message of the error.
    - Console output is left out; a random id is an argument. *)

From Stdlib Require Import ZArith Ascii String DecimalString Lia.
From stdpp Require Import base option list strings gmap.

(** ** JavaScript string primitives used by the handlers *)

Module Js.

Local Open Scope Z_scope.

Definition chars : string -> list ascii := String.list_ascii_of_string.
Definition str : list ascii -> string := String.string_of_list_ascii.

(** [Array.prototype.join] on an array of strings. *)
Fixpoint join (sep : string) (xs : list string) : string :=
  match xs with
  | [] => ""
  | x :: rest =>
      match rest with
      | [] => x
      | _ :: _ => x +:+ sep +:+ join sep rest
      end
  end.

(** [s.startsWith(p)] *)
Definition startsWith (p s : string) : bool := String.prefix p s.

(** [s.endsWith(p)] *)
Definition endsWith (p s : string) : bool :=
  String.prefix (str (rev (chars p))) (str (rev (chars s))).

(** [s.includes(p)] *)
Fixpoint includes (p s : string) : bool :=
  String.prefix p s ||
  match s with
  | EmptyString => false
  | String _ s' => includes p s'
  end.

(** Relative index resolution of [slice]: negative counts from the end,
    the result is clamped to [0, len]. *)
Definition clamp (len k : Z) : Z :=
  if k <? 0 then Z.max (len + k) 0 else Z.min k len.

(** [s.slice(start, end)] *)
Definition slice (s : string) (start stop : Z) : string :=
  let len := Z.of_nat (String.length s) in
  let from := clamp len start in
  let to := clamp len stop in
  String.substring (Z.to_nat from) (Z.to_nat (Z.max (to - from) 0)) s.

(** White space and line terminators below code 256: TAB, LF, VT, FF, CR,
    SP and NBSP. *)
Definition isWhiteSpace (c : ascii) : bool :=
  match nat_of_ascii c with
  | 9%nat | 10%nat | 11%nat | 12%nat | 13%nat | 32%nat | 160%nat => true
  | _ => false
  end.

Fixpoint dropSpaces (l : list ascii) : list ascii :=
  match l with
  | [] => []
  | c :: l' => if isWhiteSpace c then dropSpaces l' else l
  end.

Definition trimEnd (l : list ascii) : list ascii := rev (dropSpaces (rev l)).

(** [s.trim()] *)
Definition trim (s : string) : string := str (dropSpaces (trimEnd (chars s))).

(** Case folding of the [i] flag, for patterns made of ASCII characters:
    only the letters A-Z and a-z are identified. *)
Definition lower (c : ascii) : ascii :=
  let n := nat_of_ascii c in
  if (65 <=? n)%nat && (n <=? 90)%nat then ascii_of_nat (n + 32) else c.

Definition lowerAll (s : string) : string := str (map lower (chars s)).

(** [/p/i.test(s)] for a pattern [p] without metacharacters. *)
Definition testCI (p s : string) : bool := includes (lowerAll p) (lowerAll s).

(** [x || d] on an optional string: [undefined] and [''] are falsy. *)
Definition orStr (x : option string) (d : string) : string :=
  match x with
  | Some s => if String.eqb s "" then d else s
  | None => d
  end.

(** Truthiness of a string. *)
Definition truthy (s : string) : bool := negb (String.eqb s "").

(** String conversion of a possibly undefined string, as done by [+] and
    by regular-expression [test]. *)
Definition toStr (x : option string) : string :=
  match x with
  | Some s => s
  | None => "undefined"
  end.

(** What [join] puts before and after one element of the array. *)
Definition before (sep : string) (xs : list string) : string :=
  foldr (fun x acc => x +:+ sep +:+ acc) "" xs.
Definition after (sep : string) (xs : list string) : string :=
  foldr (fun x acc => sep +:+ x +:+ acc) "" xs.

End Js.


(** ** Data model ([types/slide.ts]) *)

(** A value of type [any] (chart data, rendering hints).  Numbers are
    integers here. *)
#[local] Unset Elimination Schemes.
Inductive JsVal : Type :=
| JsUndefined
| JsNull
| JsBool (b : bool)
| JsNum (z : Z)
| JsStr (s : string)
| JsArr (items : list JsVal)
| JsObj (fields : list (string * JsVal)).
#[local] Set Elimination Schemes.

Record Position := { pos_x : Z; pos_y : Z }.
Record Size := { width : Z; height : Z }.

Record BaseBlock := {
  id : string;
  position : Position;
  size : Size
}.

Inductive VisualType := pie | bar | line | scatter | table.

Record VisualBlock := {
  vtype : VisualType;
  vdata : JsVal;
  vconfig : option JsVal
}.

(** [SlideBlock = TextBlock | VisualBlockContainer], discriminated by the
    [type] field. *)
Inductive SlideBlock :=
| TextBlock (base : BaseBlock) (text : string) (isEditable : bool)
| VisualBlockContainer (base : BaseBlock) (visual : VisualBlock).

Definition blockId (b : SlideBlock) : string :=
  match b with
  | TextBlock base _ _ => id base
  | VisualBlockContainer base _ => id base
  end.

(** [Slide].  The interface declares [blocks] as an array, but the save
    handler tests at run time whether the field holds one (a slide parsed
    from the store or sent by the backend may lack it): [None] is a slide
    without an array in [blocks].  Optional fields are [option]s, [None]
    being [undefined]. *)
Record Slide := {
  title : string;
  content : string;
  design : string;
  blocks : option (list SlideBlock);
  visuals : option (list VisualBlock);
  imageUrl : option string;
  videoUrl : option string;
  theme : option string
}.

(** Object spread with one field replaced: [{ ...slide, field: v }]. *)
Definition withTitle (v : string) (s : Slide) : Slide :=
  {| title := v; content := content s; design := design s; blocks := blocks s;
     visuals := visuals s; imageUrl := imageUrl s; videoUrl := videoUrl s;
     theme := theme s |}.
Definition withContent (v : string) (s : Slide) : Slide :=
  {| title := title s; content := v; design := design s; blocks := blocks s;
     visuals := visuals s; imageUrl := imageUrl s; videoUrl := videoUrl s;
     theme := theme s |}.
Definition withDesign (v : string) (s : Slide) : Slide :=
  {| title := title s; content := content s; design := v; blocks := blocks s;
     visuals := visuals s; imageUrl := imageUrl s; videoUrl := videoUrl s;
     theme := theme s |}.
Definition withBlocks (v : option (list SlideBlock)) (s : Slide) : Slide :=
  {| title := title s; content := content s; design := design s; blocks := v;
     visuals := visuals s; imageUrl := imageUrl s; videoUrl := videoUrl s;
     theme := theme s |}.
Definition withVisuals (v : option (list VisualBlock)) (s : Slide) : Slide :=
  {| title := title s; content := content s; design := design s; blocks := blocks s;
     visuals := v; imageUrl := imageUrl s; videoUrl := videoUrl s;
     theme := theme s |}.
Definition withImageUrl (v : option string) (s : Slide) : Slide :=
  {| title := title s; content := content s; design := design s; blocks := blocks s;
     visuals := visuals s; imageUrl := v; videoUrl := videoUrl s;
     theme := theme s |}.
Definition withVideoUrl (v : option string) (s : Slide) : Slide :=
  {| title := title s; content := content s; design := design s; blocks := blocks s;
     visuals := visuals s; imageUrl := imageUrl s; videoUrl := v;
     theme := theme s |}.
Definition withTheme (v : option string) (s : Slide) : Slide :=
  {| title := title s; content := content s; design := design s; blocks := blocks s;
     visuals := visuals s; imageUrl := imageUrl s; videoUrl := videoUrl s;
     theme := v |}.

(** ** Change tracking ([page.tsx], lines 238-246) *)

(** The template literal [`${slide.title}:${slide.content}:${slide.design}`]. *)
Definition slideKey (slide : Slide) : string :=
  title slide +:+ ":" +:+ content slide +:+ ":" +:+ design slide.

(** [slidesToHash.map(slide => ...).join('|')] *)
Definition generateSlidesHash (slidesToHash : list Slide) : string :=
  Js.join "|" (map slideKey slidesToHash).


(** ** Component state ([PitchDeckBuilder], the [useState] hooks) *)

Record Metrics := {
  score : Z;
  narrative_flow : string;
  visual_design : string;
  data_credibility : string
}.

Inductive SuggestionType := Content | Design.

(** An entry of [aiSuggestions].  [stext] is [data.suggestion] of the
    response, which a response may lack. *)
Record Suggestion := {
  stype : SuggestionType;
  stext : option string
}.

Record State := {
  deckTitle : string;
  deckDescription : string;
  loading : bool;
  error : option string;
  showAIModal : bool;
  slides : list Slide;
  selectedSlide : option nat;
  showEditModal : bool;
  metrics : Metrics;
  aiFeedback : string;
  showFeedbackModal : bool;
  slidesModified : bool;
  analysisLoading : bool;
  lastFeedbackSlidesHash : string;
  aiSuggestions : list Suggestion
}.

(** The initial values of the hooks. *)
Definition notAnalyzed : Metrics :=
  {| score := 0; narrative_flow := "Not analyzed";
     visual_design := "Not analyzed"; data_credibility := "Not analyzed" |}.

Definition initialState : State :=
  {| deckTitle := ""; deckDescription := ""; loading := false; error := None;
     showAIModal := false; slides := []; selectedSlide := None;
     showEditModal := false; metrics := notAnalyzed; aiFeedback := "";
     showFeedbackModal := false; slidesModified := false;
     analysisLoading := false; lastFeedbackSlidesHash := "";
     aiSuggestions := [] |}.

(** The state setters. *)
Definition setDeckTitle (v : string) (st : State) : State :=
  {| deckTitle := v; deckDescription := deckDescription st; loading := loading st;
     error := error st; showAIModal := showAIModal st; slides := slides st;
     selectedSlide := selectedSlide st; showEditModal := showEditModal st;
     metrics := metrics st; aiFeedback := aiFeedback st;
     showFeedbackModal := showFeedbackModal st; slidesModified := slidesModified st;
     analysisLoading := analysisLoading st;
     lastFeedbackSlidesHash := lastFeedbackSlidesHash st;
     aiSuggestions := aiSuggestions st |}.
Definition setDeckDescription (v : string) (st : State) : State :=
  {| deckTitle := deckTitle st; deckDescription := v; loading := loading st;
     error := error st; showAIModal := showAIModal st; slides := slides st;
     selectedSlide := selectedSlide st; showEditModal := showEditModal st;
     metrics := metrics st; aiFeedback := aiFeedback st;
     showFeedbackModal := showFeedbackModal st; slidesModified := slidesModified st;
     analysisLoading := analysisLoading st;
     lastFeedbackSlidesHash := lastFeedbackSlidesHash st;
     aiSuggestions := aiSuggestions st |}.
Definition setLoading (v : bool) (st : State) : State :=
  {| deckTitle := deckTitle st; deckDescription := deckDescription st; loading := v;
     error := error st; showAIModal := showAIModal st; slides := slides st;
     selectedSlide := selectedSlide st; showEditModal := showEditModal st;
     metrics := metrics st; aiFeedback := aiFeedback st;
     showFeedbackModal := showFeedbackModal st; slidesModified := slidesModified st;
     analysisLoading := analysisLoading st;
     lastFeedbackSlidesHash := lastFeedbackSlidesHash st;
     aiSuggestions := aiSuggestions st |}.
Definition setError (v : option string) (st : State) : State :=
  {| deckTitle := deckTitle st; deckDescription := deckDescription st;
     loading := loading st; error := v; showAIModal := showAIModal st;
     slides := slides st;
     selectedSlide := selectedSlide st; showEditModal := showEditModal st;
     metrics := metrics st; aiFeedback := aiFeedback st;
     showFeedbackModal := showFeedbackModal st; slidesModified := slidesModified st;
     analysisLoading := analysisLoading st;
     lastFeedbackSlidesHash := lastFeedbackSlidesHash st;
     aiSuggestions := aiSuggestions st |}.
Definition setShowAIModal (v : bool) (st : State) : State :=
  {| deckTitle := deckTitle st; deckDescription := deckDescription st;
     loading := loading st; error := error st; showAIModal := v;
     slides := slides st;
     selectedSlide := selectedSlide st; showEditModal := showEditModal st;
     metrics := metrics st; aiFeedback := aiFeedback st;
     showFeedbackModal := showFeedbackModal st; slidesModified := slidesModified st;
     analysisLoading := analysisLoading st;
     lastFeedbackSlidesHash := lastFeedbackSlidesHash st;
     aiSuggestions := aiSuggestions st |}.
Definition setSlides (v : list Slide) (st : State) : State :=
  {| deckTitle := deckTitle st; deckDescription := deckDescription st;
     loading := loading st; error := error st; showAIModal := showAIModal st;
     slides := v;
     selectedSlide := selectedSlide st; showEditModal := showEditModal st;
     metrics := metrics st; aiFeedback := aiFeedback st;
     showFeedbackModal := showFeedbackModal st; slidesModified := slidesModified st;
     analysisLoading := analysisLoading st;
     lastFeedbackSlidesHash := lastFeedbackSlidesHash st;
     aiSuggestions := aiSuggestions st |}.
Definition setSelectedSlide (v : option nat) (st : State) : State :=
  {| deckTitle := deckTitle st; deckDescription := deckDescription st;
     loading := loading st; error := error st; showAIModal := showAIModal st;
     slides := slides st;
     selectedSlide := v; showEditModal := showEditModal st;
     metrics := metrics st; aiFeedback := aiFeedback st;
     showFeedbackModal := showFeedbackModal st; slidesModified := slidesModified st;
     analysisLoading := analysisLoading st;
     lastFeedbackSlidesHash := lastFeedbackSlidesHash st;
     aiSuggestions := aiSuggestions st |}.
Definition setShowEditModal (v : bool) (st : State) : State :=
  {| deckTitle := deckTitle st; deckDescription := deckDescription st;
     loading := loading st; error := error st; showAIModal := showAIModal st;
     slides := slides st;
     selectedSlide := selectedSlide st; showEditModal := v;
     metrics := metrics st; aiFeedback := aiFeedback st;
     showFeedbackModal := showFeedbackModal st; slidesModified := slidesModified st;
     analysisLoading := analysisLoading st;
     lastFeedbackSlidesHash := lastFeedbackSlidesHash st;
     aiSuggestions := aiSuggestions st |}.
Definition setMetrics (v : Metrics) (st : State) : State :=
  {| deckTitle := deckTitle st; deckDescription := deckDescription st;
     loading := loading st; error := error st; showAIModal := showAIModal st;
     slides := slides st;
     selectedSlide := selectedSlide st; showEditModal := showEditModal st;
     metrics := v; aiFeedback := aiFeedback st;
     showFeedbackModal := showFeedbackModal st; slidesModified := slidesModified st;
     analysisLoading := analysisLoading st;
     lastFeedbackSlidesHash := lastFeedbackSlidesHash st;
     aiSuggestions := aiSuggestions st |}.
Definition setAiFeedback (v : string) (st : State) : State :=
  {| deckTitle := deckTitle st; deckDescription := deckDescription st;
     loading := loading st; error := error st; showAIModal := showAIModal st;
     slides := slides st;
     selectedSlide := selectedSlide st; showEditModal := showEditModal st;
     metrics := metrics st; aiFeedback := v;
     showFeedbackModal := showFeedbackModal st; slidesModified := slidesModified st;
     analysisLoading := analysisLoading st;
     lastFeedbackSlidesHash := lastFeedbackSlidesHash st;
     aiSuggestions := aiSuggestions st |}.
Definition setShowFeedbackModal (v : bool) (st : State) : State :=
  {| deckTitle := deckTitle st; deckDescription := deckDescription st;
     loading := loading st; error := error st; showAIModal := showAIModal st;
     slides := slides st;
     selectedSlide := selectedSlide st; showEditModal := showEditModal st;
     metrics := metrics st; aiFeedback := aiFeedback st;
     showFeedbackModal := v; slidesModified := slidesModified st;
     analysisLoading := analysisLoading st;
     lastFeedbackSlidesHash := lastFeedbackSlidesHash st;
     aiSuggestions := aiSuggestions st |}.
Definition setSlidesModified (v : bool) (st : State) : State :=
  {| deckTitle := deckTitle st; deckDescription := deckDescription st;
     loading := loading st; error := error st; showAIModal := showAIModal st;
     slides := slides st;
     selectedSlide := selectedSlide st; showEditModal := showEditModal st;
     metrics := metrics st; aiFeedback := aiFeedback st;
     showFeedbackModal := showFeedbackModal st; slidesModified := v;
     analysisLoading := analysisLoading st;
     lastFeedbackSlidesHash := lastFeedbackSlidesHash st;
     aiSuggestions := aiSuggestions st |}.
Definition setAnalysisLoading (v : bool) (st : State) : State :=
  {| deckTitle := deckTitle st; deckDescription := deckDescription st;
     loading := loading st; error := error st; showAIModal := showAIModal st;
     slides := slides st;
     selectedSlide := selectedSlide st; showEditModal := showEditModal st;
     metrics := metrics st; aiFeedback := aiFeedback st;
     showFeedbackModal := showFeedbackModal st; slidesModified := slidesModified st;
     analysisLoading := v;
     lastFeedbackSlidesHash := lastFeedbackSlidesHash st;
     aiSuggestions := aiSuggestions st |}.
Definition setLastFeedbackSlidesHash (v : string) (st : State) : State :=
  {| deckTitle := deckTitle st; deckDescription := deckDescription st;
     loading := loading st; error := error st; showAIModal := showAIModal st;
     slides := slides st;
     selectedSlide := selectedSlide st; showEditModal := showEditModal st;
     metrics := metrics st; aiFeedback := aiFeedback st;
     showFeedbackModal := showFeedbackModal st; slidesModified := slidesModified st;
     analysisLoading := analysisLoading st;
     lastFeedbackSlidesHash := v;
     aiSuggestions := aiSuggestions st |}.
Definition setAiSuggestions (v : list Suggestion) (st : State) : State :=
  {| deckTitle := deckTitle st; deckDescription := deckDescription st;
     loading := loading st; error := error st; showAIModal := showAIModal st;
     slides := slides st;
     selectedSlide := selectedSlide st; showEditModal := showEditModal st;
     metrics := metrics st; aiFeedback := aiFeedback st;
     showFeedbackModal := showFeedbackModal st; slidesModified := slidesModified st;
     analysisLoading := analysisLoading st;
     lastFeedbackSlidesHash := lastFeedbackSlidesHash st;
     aiSuggestions := v |}.

(** ** The backend, as seen through [fetch] *)

(** The bodies sent to the endpoints the modelled handlers call.  The
    constant [metricScales] of the analysis request is left out. *)
Inductive Request :=
| AnalyzePitchDeck (deck : list (string * string)) (getFeedback : bool)
| GenerateSuggestion (slide_title slide_content slide_design : string)
    (kind : SuggestionType)
| GenerateSlides (problem solution : string)
| SaveSlides (userId : string) (deck : list Slide).

(** The fields the handlers read from a JSON response; [None] is an absent
    field. *)
Record Body := {
  detail : option string;
  r_score : option Z;
  r_narrative_flow : option string;
  r_visual_design : option string;
  r_data_credibility : option string;
  r_feedback : option string;
  r_suggestion : option string;
  r_slides : option (list string)
}.

(** The object [{}]. *)
Definition emptyBody : Body :=
  {| detail := None; r_score := None; r_narrative_flow := None;
     r_visual_design := None; r_data_credibility := None; r_feedback := None;
     r_suggestion := None; r_slides := None |}.

(** What [response.json()] settles to. *)
Inductive Parsed :=
| Json (data : Body)
| BadJson (msg : string).

(** What the promise of [fetch] settles to: rejection (network failure), or
    a response with its [ok] flag and body. *)
Inductive Response :=
| Rejected (msg : string)
| Resolved (ok : bool) (body : Parsed).

(** ** Asynchronous handlers *)

Record Promise := { handle : nat; request : Request }.

(** The steps of an [async] function: return, [throw], a state setter call,
    the call of [fetch] (which issues the request and yields a promise), and
    [await] on a promise (which suspends the function until it settles). *)
Inductive Task (A : Type) : Type :=
| Ret (a : A)
| Throw (msg : string)
| SetState (u : State -> State) (k : Task A)
| Spawn (rq : Request) (k : Promise -> Task A)
| Await (p : Promise) (k : Response -> Task A).

Arguments Ret {A} a.
Arguments Throw {A} msg.
Arguments SetState {A} u k.
Arguments Spawn {A} rq k.
Arguments Await {A} p k.

Fixpoint bind {A B : Type} (t : Task A) (f : A -> Task B) : Task B :=
  match t with
  | Ret a => f a
  | Throw msg => Throw msg
  | SetState u k => SetState u (bind k f)
  | Spawn rq k => Spawn rq (fun p => bind (k p) f)
  | Await p k => Await p (fun r => bind (k r) f)
  end.

(** [try { t } catch (e) { h e }] *)
Fixpoint catch {A : Type} (t : Task A) (h : string -> Task A) : Task A :=
  match t with
  | Ret a => Ret a
  | Throw msg => h msg
  | SetState u k => SetState u (catch k h)
  | Spawn rq k => Spawn rq (fun p => catch (k p) h)
  | Await p k => Await p (fun r => catch (k r) h)
  end.

(** [try { t } finally { setter }], for a [finally] block that is one state
    setter call. *)
Fixpoint finally {A : Type} (t : Task A) (u : State -> State) : Task A :=
  match t with
  | Ret a => SetState u (Ret a)
  | Throw msg => SetState u (Throw msg)
  | SetState v k => SetState v (finally k u)
  | Spawn rq k => Spawn rq (fun p => finally (k p) u)
  | Await p k => Await p (fun r => finally (k r) u)
  end.

Declare Scope task_scope.
Delimit Scope task_scope with task.
Notation "x <<- t ;; k" := (bind t (fun x => k))
  (at level 20, t at level 99, k at level 200, only parsing) : task_scope.
Notation "' pat <<- t ;; k" := (bind t (fun pat => k))
  (at level 20, pat pattern, t at level 99, k at level 200, only parsing)
  : task_scope.
Notation "t ;;; k" := (bind t (fun _ => k))
  (at level 100, k at level 200, right associativity, only parsing) : task_scope.

(** A state setter call as a task. *)
Definition set (u : State -> State) : Task unit := SetState u (Ret tt).

(** [await fetch(url, ..)]: the request is issued and the function suspends
    until the response arrives; a rejected promise throws. *)
Definition awaitFetch (rq : Request) : Task (bool * Parsed) :=
  Spawn rq (fun p => Await p (fun r =>
    match r with
    | Rejected msg => Throw msg
    | Resolved ok body => Ret (ok, body)
    end)).

(** [await response.json()] *)
Definition awaitJson (body : Parsed) : Task Body :=
  match body with
  | Json data => Ret data
  | BadJson msg => Throw msg
  end.

(** [await response.json().catch(() => ({}))] *)
Definition jsonOrEmpty (body : Parsed) : Body :=
  match body with
  | Json data => data
  | BadJson _ => emptyBody
  end.

(** *** Running a handler *)

Inductive Event :=
| Issued (h : nat) (rq : Request)
| Settled (h : nat) (r : Response).

Inductive Outcome (A : Type) :=
| Returned (a : A)
| Thrown (msg : string).
Arguments Returned {A} a.
Arguments Thrown {A} msg.

(** The live state of the component, the number of requests issued so far
    and the log of network events. *)
Record World := {
  ui : State;
  issued : nat;
  log : list Event
}.

Definition onUi (u : State -> State) (w : World) : World :=
  {| ui := u (ui w); issued := issued w; log := log w |}.

Definition startWorld (st : State) : World :=
  {| ui := st; issued := 0; log := [] |}.

(** [net h rq] is what the request with handle [h] settles to, and [env h]
    is what other handlers did to the state while the function was
    suspended on it. *)
Fixpoint run {A : Type} (net : nat -> Request -> Response)
    (env : nat -> State -> State) (t : Task A) (w : World) : World * Outcome A :=
  match t with
  | Ret a => (w, Returned a)
  | Throw msg => (w, Thrown msg)
  | SetState u k => run net env k (onUi u w)
  | Spawn rq k =>
      let p := {| handle := issued w; request := rq |} in
      run net env (k p)
        {| ui := ui w; issued := S (issued w);
           log := log w ++ [Issued (handle p) rq] |}
  | Await p k =>
      let r := net (handle p) (request p) in
      run net env (k r)
        {| ui := env (handle p) (ui w); issued := issued w;
           log := log w ++ [Settled (handle p) r] |}
  end.

(** No other handler runs during the suspensions. *)
Definition quiet : nat -> State -> State := fun _ st => st.

(** The requests that are in flight after a log: issued and not settled. *)
Fixpoint inFlight (evs : list Event) (pending : list nat) : list nat :=
  match evs with
  | [] => pending
  | Issued h _ :: rest => inFlight rest (pending ++ [h])
  | Settled h _ :: rest => inFlight rest (filter (fun h' => h' <> h) pending)
  end.

(** The largest number of requests in flight at any point of a log. *)
Fixpoint maxInFlight (evs : list Event) (pending : list nat) : nat :=
  match evs with
  | [] => length pending
  | Issued h _ :: rest =>
      Nat.max (length pending) (maxInFlight rest (pending ++ [h]))
  | Settled h _ :: rest =>
      Nat.max (length pending)
        (maxInFlight rest (filter (fun h' => h' <> h) pending))
  end.

Definition requestsOf (evs : list Event) : list Request :=
  omap (fun e => match e with Issued _ rq => Some rq | Settled _ _ => None end) evs.

(** ** The handlers of [page.tsx] *)

Local Open Scope task_scope.

(** The line feed ['\n']. *)
Definition nl : string := String "010"%char "".

(** [hasSlidesChanged] (lines 243-246), on the state a render closed over. *)
Definition hasSlidesChanged (st : State) : bool :=
  let currentHash := generateSlidesHash (slides st) in
  negb (String.eqb currentHash (lastFeedbackSlidesHash st)).

(** [updateAIAnalysis] (lines 257-334). *)
Definition updateAIAnalysis (slidesToAnalyze : list Slide) (getFeedback : bool)
  : Task Body :=
  set (setAnalysisLoading true) ;;;
  finally
    (catch
       ('(ok, body) <<- awaitFetch
           (AnalyzePitchDeck
              (map (fun s => (title s, Js.orStr (Some (content s)) "")) slidesToAnalyze)
              getFeedback) ;;
        (if negb ok
         then
           let errorData := jsonOrEmpty body in
           Throw (Js.orStr (detail errorData) "Failed to analyze pitch deck")
         else Ret tt) ;;;
        data <<- awaitJson body ;;
        set (setMetrics
               {| score := default 0%Z (r_score data);
                  narrative_flow := Js.orStr (r_narrative_flow data) "Not analyzed";
                  visual_design := Js.orStr (r_visual_design data) "Not analyzed";
                  data_credibility := Js.orStr (r_data_credibility data) "Not analyzed" |}) ;;;
        (if getFeedback && Js.truthy (default "" (r_feedback data))
         then
           set (setAiFeedback (default "" (r_feedback data))) ;;;
           set (setLastFeedbackSlidesHash (generateSlidesHash slidesToAnalyze))
         else Ret tt) ;;;
        Ret data)
       (fun msg =>
          set (setMetrics
                 {| score := 0; narrative_flow := "Not analyzed";
                    visual_design := "Not analyzed";
                    data_credibility := "Not analyzed" |}) ;;;
          (if getFeedback
           then set (setAiFeedback "Failed to generate feedback. Please try again.")
           else Ret tt) ;;;
          Throw msg))
    (setAnalysisLoading false).

(** [handleShowAIFeedback] (lines 938-953). *)
Definition handleShowAIFeedback (st : State) : Task unit :=
  if negb (hasSlidesChanged st) && Js.truthy (aiFeedback st)
  then set (setShowFeedbackModal true)
  else
    catch
      (updateAIAnalysis (slides st) true ;;;
       set (setSlidesModified false) ;;;
       set (setShowFeedbackModal true))
      (fun msg => set (setError (Some msg))).

(** [fetchAISuggestion] (lines 397-420). *)
Definition fetchAISuggestion (type : SuggestionType) (slide : Slide)
  : Task Suggestion :=
  '(ok, body) <<- awaitFetch
     (GenerateSuggestion (title slide) (content slide) (design slide) type) ;;
  (if negb ok
   then
     let errorData := jsonOrEmpty body in
     Throw (Js.orStr (detail errorData) "Failed to fetch suggestion")
   else Ret tt) ;;;
  data <<- awaitJson body ;;
  Ret {| stype := type; stext := r_suggestion data |}.

(** [fetchAISuggestions] (lines 431-448). *)
Definition fetchAISuggestions (st : State) (slideIdx : Z) : Task unit :=
  if (0 <=? slideIdx)%Z && (slideIdx <? Z.of_nat (length (slides st)))%Z
  then
    match slides st !! Z.to_nat slideIdx with
    | Some slide =>
        let suggestions := [] in
        contentSuggestion <<- fetchAISuggestion Content slide ;;
        let suggestions := suggestions ++ [contentSuggestion] in
        designSuggestion <<- fetchAISuggestion Design slide ;;
        let suggestions := suggestions ++ [designSuggestion] in
        set (setAiSuggestions suggestions)
    | None => Throw "TypeError: slide is undefined"
    end
  else Ret tt.

(** [getVisualTypeFromSuggestion] (lines 958-965); [/scatter ?plot/] is
    written out as its two matches. *)
Definition getVisualTypeFromSuggestion (suggestion : string) : option VisualType :=
  if Js.testCI "pie chart" suggestion then Some pie
  else if Js.testCI "bar graph" suggestion || Js.testCI "bar chart" suggestion
  then Some bar
  else if Js.testCI "line graph" suggestion || Js.testCI "line chart" suggestion
  then Some line
  else if Js.testCI "scatterplot" suggestion || Js.testCI "scatter plot" suggestion
          || Js.testCI "scatterchart" suggestion || Js.testCI "scatter chart" suggestion
  then Some scatter
  else if Js.testCI "table" suggestion then Some table
  else None.

(** The slide as [handleSuggestionClick] leaves it (lines 466-476). *)
Definition applySuggestion (suggestion : Suggestion) (slide : Slide) : Slide :=
  let text := Js.toStr (stext suggestion) in
  match getVisualTypeFromSuggestion text with
  | Some _ =>
      withContent (Js.orStr (Some (content slide)) "" +:+ nl +:+ text) slide
  | None =>
      match stype suggestion with
      | Content =>
          withContent (Js.orStr (Some (content slide)) "" +:+ nl +:+ text) slide
      | Design =>
          withDesign (Js.orStr (Some (design slide)) "" +:+ nl +:+ text) slide
      end
  end.

(** [handleSuggestionClick] (lines 459-488).  The assignment to
    [slide.content] writes the object held by the state array, and the copy
    stored at [selectedSlide] has the same fields; both are the value
    [applySuggestion suggestion slide] here. *)
Definition handleSuggestionClick (st : State) (suggestion : Suggestion) (idx : nat)
  : Task unit :=
  let updatedSlides := slides st in
  match selectedSlide st with
  | None => Ret tt
  | Some sel =>
      match updatedSlides !! sel with
      | None => Throw "TypeError: slide is undefined"
      | Some slide =>
          let slide := applySuggestion suggestion slide in
          let updatedSlides := <[sel := slide]> updatedSlides in
          set (setSlides updatedSlides) ;;;
          set (setSlidesModified true) ;;;
          newSuggestion <<- fetchAISuggestion (stype suggestion) slide ;;
          set (fun cur =>
                 setAiSuggestions
                   (imap (fun i s => if Nat.eqb i idx then newSuggestion else s)
                      (aiSuggestions cur)) cur)
      end
  end.

(** The wrapper test of the save handler (lines 1373-1378). *)
Definition stripParagraph (html : string) : string :=
  if Js.startsWith "<p>" html && Js.endsWith "</p>" html
  then
    let inner := Js.slice html 3 (-4) in
    if negb (Js.includes "<p>" inner) && negb (Js.includes "</p>" inner)
    then inner
    else html
  else html.

(** One turn of [blocks.forEach] in the save handler (lines 1370-1383), on
    the two accumulators [content] and [visuals]. *)
Definition saveBlock (acc : string * list VisualBlock) (block : SlideBlock)
  : string * list VisualBlock :=
  let '(content, visuals) := acc in
  match block with
  | TextBlock _ text _ =>
      let html := Js.orStr (Some text) "" in
      let html := stripParagraph html in
      (content +:+ (html +:+ nl), visuals)
  | VisualBlockContainer _ visual => (content, visuals ++ [visual])
  end.

(** The slide the save handler stores (lines 1364-1390). *)
Definition materializeOnSave (slide : Slide) : Slide :=
  let content0 := Js.orStr (Some (content slide)) "" in
  let visuals0 := default [] (visuals slide) in
  let '(content1, visuals1) :=
    match blocks slide with
    | Some bs =>
        let '(c, v) := fold_left saveBlock bs ("", []) in
        (Js.trim c, v)
    | None => (content0, visuals0)
    end in
  withVisuals (Some visuals1) (withContent content1 slide).

(** The [onClick] of "Save Changes" in the slide edit modal
    (lines 1360-1403). *)
Definition handleSaveChanges (st : State) : Task unit :=
  match selectedSlide st with
  | None => Ret tt
  | Some sel =>
      match slides st !! sel with
      | None => Throw "TypeError: slide is undefined"
      | Some slide =>
          let updatedSlides := <[sel := materializeOnSave slide]> (slides st) in
          set (setSlides updatedSlides) ;;;
          set (setSlidesModified true) ;;;
          set (setShowEditModal false) ;;;
          awaitFetch (SaveSlides "demo" updatedSlides) ;;;
          Ret tt
      end
  end.

Definition textOf (b : SlideBlock) : option string :=
  match b with
  | TextBlock _ text _ => Some text
  | VisualBlockContainer _ _ => None
  end.

Definition visualOf (b : SlideBlock) : option VisualBlock :=
  match b with
  | TextBlock _ _ _ => None
  | VisualBlockContainer _ visual => Some visual
  end.

(** The updater [handleEditBlock] passes to [setSlides] (lines 685-707);
    [None] is a [TypeError]: no slide at [slideIndex], no array in [blocks],
    or no block at [blockIndex]. *)
Definition handleEditBlock (slideIndex blockIndex : nat) (newContent : string)
    (prevSlides : list Slide) : option (list Slide) :=
  slide ← prevSlides !! slideIndex;
  bs ← blocks slide;
  block ← bs !! blockIndex;
  let bs' :=
    match block with
    | TextBlock base _ editable =>
        <[blockIndex := TextBlock base newContent editable]> bs
    | VisualBlockContainer _ _ => bs
    end in
  let slide := withBlocks (Some bs') slide in
  let slide := withContent (Js.join (nl +:+ nl) (omap textOf bs')) slide in
  Some (<[slideIndex := slide]> prevSlides).

(** [STANDARD_SLIDES] (lines 66-80). *)
Definition STANDARD_SLIDES : list string :=
  [ "The Problem"; "Our Solution"; "Product Demo"; "Market Opportunity";
    "Traction"; "Customer Love"; "Competitive Landscape"; "Business Model";
    "Financial Projections"; "Go-to-Market Strategy"; "Team"; "Funding Ask";
    "Thank You" ].

(** Decimal notation of an array index. *)
Definition showNat (n : nat) : string :=
  DecimalString.NilEmpty.string_of_uint (Nat.to_uint n).

(** The slides [handleAIGenerate] builds from the response
    (lines 801-810); the field [comments] is not part of [Slide]. *)
Definition generatedSlides (contents : list string) : list Slide :=
  imap (fun index slideContent =>
          {| title := Js.orStr (STANDARD_SLIDES !! index)
                        ("Slide " +:+ showNat (index + 1));
             content := slideContent;
             design := "";
             blocks := Some [];
             visuals := Some [];
             imageUrl := Some "";
             videoUrl := Some "";
             theme := None |}) contents.

(** [handleAIGenerate] (lines 785-822). *)
Definition handleAIGenerate (problem solution : string) : Task unit :=
  set (setLoading true) ;;;
  set (setError None) ;;;
  finally
    (catch
       ('(ok, body) <<- awaitFetch (GenerateSlides problem solution) ;;
        (if negb ok
         then
           errorData <<- awaitJson body ;;
           Throw (Js.orStr (detail errorData) "Failed to generate slides")
         else Ret tt) ;;;
        data <<- awaitJson body ;;
        match r_slides data with
        | None => Throw "TypeError: data.slides is undefined"
        | Some contents =>
            let newSlides := generatedSlides contents in
            set (setSlides newSlides) ;;;
            set (setDeckTitle problem) ;;;
            set (setDeckDescription solution) ;;;
            set (setSlidesModified true) ;;;
            set (setShowAIModal false)
        end)
       (fun msg => set (setError (Some msg))))
    (setLoading false).

(** [handleEditSlide] (lines 825-828). *)
Definition handleEditSlide (index : nat) (st : State) : State :=
  setShowEditModal true (setSelectedSlide (Some index) st).

(** A file picked in the upload input: its MIME type, and the URL
    [URL.createObjectURL] mints for it. *)
Record File := { ftype : string; objectUrl : string }.

(** [handleFileChange] (lines 832-851) on [e.target.files].  The result is
    [None] when [selectedSlide] is past the end of [slides]: the assignment
    then grows the array and leaves holes, which a [list Slide] cannot
    hold. *)
Definition handleFileChange (files : option (list File)) (st : State)
  : option State :=
  match files, selectedSlide st with
  | None, _ | Some [], _ | _, None => Some st
  | Some (file :: _), Some sel =>
      let url := objectUrl file in
      match slides st !! sel with
      | None => None
      | Some slide =>
          let updatedSlides :=
            if Js.startsWith "image/" (ftype file)
            then <[sel := withVideoUrl None (withImageUrl (Some url) slide)]> (slides st)
            else if Js.startsWith "video/" (ftype file)
            then <[sel := withImageUrl None (withVideoUrl (Some url) slide)]> (slides st)
            else slides st in
          Some (setSlides updatedSlides st)
      end
  end.

(** ** The block editor ([ManualEditModal.tsx]) *)

(** A row coordinate of the grid; [Bottom] is [Infinity]. *)
Inductive GridY := Row (n : Z) | Bottom.

Record LayoutItem := {
  li : string;
  lx : Z;
  ly : GridY;
  lw : Z;
  lh : Z;
  minW : Z;
  minH : Z
}.

(** The [blocks] and [layout] hooks of the modal. *)
Record Editor := {
  eBlocks : list SlideBlock;
  eLayout : list LayoutItem
}.

(** [getDefaultLayout] (lines 30-40). *)
Definition getDefaultLayout (bs : list SlideBlock) : list LayoutItem :=
  imap (fun i block =>
          {| li := blockId block;
             lx := (Z.of_nat i mod 2) * 6;
             ly := Row ((Z.of_nat i / 2) * 4);
             lw := 6; lh := 4; minW := 3; minH := 2 |}) bs.

(** The initial hooks of the modal for a slide (lines 296-297). *)
Definition openEditor (bs : option (list SlideBlock)) : Editor :=
  let blocks := default [] bs in
  {| eBlocks := blocks; eLayout := getDefaultLayout blocks |}.

(** [handleAddText] (lines 302-313); [fresh] is the random suffix of the
    new id. *)
Definition handleAddText (fresh : string) (ed : Editor) : Editor :=
  let newId := "text-" +:+ fresh in
  let newBlock :=
    TextBlock {| id := newId;
                 position := {| pos_x := 50; pos_y := 50 |};
                 size := {| width := 500; height := 80 |} |}
      "New text block" true in
  {| eBlocks := eBlocks ed ++ [newBlock];
     eLayout := eLayout ed ++
       [{| li := newId; lx := 0; ly := Bottom; lw := 6; lh := 4;
           minW := 3; minH := 2 |}] |}.

(** [handleRemoveBlock] (lines 334-337). *)
Definition handleRemoveBlock (rid : string) (ed : Editor) : Editor :=
  {| eBlocks := filter (fun b => blockId b <> rid) (eBlocks ed);
     eLayout := filter (fun l => li l <> rid) (eLayout ed) |}.

(** ** Auxiliary definitions and sample data *)

(** The line-terminated pieces the save loop concatenates. *)
Definition terminated (hs : list string) : string :=
  foldr (fun h acc => (h +:+ nl) +:+ acc) "" hs.

Definition demoSlide (t c d : string) : Slide :=
  {| title := t; content := c; design := d; blocks := Some [];
     visuals := Some []; imageUrl := None; videoUrl := None; theme := None |}.

Definition demoDeck : list Slide :=
  [ demoSlide "The Problem" "Restaurants waste 30% of food" "";
    demoSlide "Our Solution" "Smart inventory" "blue background" ].

Definition box (i : string) : BaseBlock :=
  {| id := i; position := {| pos_x := 50; pos_y := 50 |};
     size := {| width := 500; height := 80 |} |}.

Definition samplePie : VisualBlock :=
  {| vtype := pie; vdata := JsArr [JsNum 60; JsNum 20; JsNum 20]; vconfig := None |}.

(** Two text blocks around a chart. *)
Definition twoTexts : list SlideBlock :=
  [ TextBlock (box "text-a") "a" true;
    VisualBlockContainer (box "visual-0") samplePie;
    TextBlock (box "text-b") "<p>b</p>" true ].

(** A deck of one slide with these blocks, open in the edit modal. *)
Definition twoTextState : State :=
  handleEditSlide 0
    (setSlides [withBlocks (Some twoTexts) (demoSlide "The Problem" "" "")]
       initialState).

(** A backend that answers every request with [200] and the object [{}]. *)
Definition okNet : nat -> Request -> Response :=
  fun _ _ => Resolved true (Json emptyBody).

(** A backend that answers [/generate-slides] with one slide text. *)
Definition genNet : nat -> Request -> Response :=
  fun _ _ =>
    Resolved true
      (Json {| detail := None; r_score := None; r_narrative_flow := None;
               r_visual_design := None; r_data_credibility := None;
               r_feedback := None; r_suggestion := None;
               r_slides := Some ["Restaurants waste 30% of food"] |}).

(** The state after "AI Generate" answered by [genNet], with the first
    slide opened in the edit modal. *)
Definition generatedState : State :=
  handleEditSlide 0
    (ui (run genNet quiet (handleAIGenerate "food waste" "smart inventory")
           (startWorld initialState)).1).

(** The world after [await fetch]: one request issued and settled. *)
Definition fetched (net : nat -> Request -> Response) (env : nat -> State -> State)
    (rq : Request) (w : World) : World :=
  {| ui := env (issued w) (ui w);
     issued := S (issued w);
     log := log w ++ [Issued (issued w) rq; Settled (issued w) (net (issued w) rq)] |}.

(** The request [updateAIAnalysis] sends. *)
Definition analysisRequest (deck : list Slide) (getFeedback : bool) : Request :=
  AnalyzePitchDeck
    (map (fun s => (title s, Js.orStr (Some (content s)) "")) deck) getFeedback.

(** The message of the error an analysis response makes [updateAIAnalysis]
    throw, if any. *)
Definition analysisFailure (r : Response) : option string :=
  match r with
  | Rejected msg => Some msg
  | Resolved false body =>
      Some (Js.orStr (detail (jsonOrEmpty body)) "Failed to analyze pitch deck")
  | Resolved true (BadJson msg) => Some msg
  | Resolved true (Json _) => None
  end.

(** The state updates of [updateAIAnalysis] on a successful response, and
    on a failure. *)
Definition recordAnalysis (deck : list Slide) (getFeedback : bool) (data : Body)
    (st : State) : State :=
  let st :=
    setMetrics
      {| score := default 0%Z (r_score data);
         narrative_flow := Js.orStr (r_narrative_flow data) "Not analyzed";
         visual_design := Js.orStr (r_visual_design data) "Not analyzed";
         data_credibility := Js.orStr (r_data_credibility data) "Not analyzed" |}
      st in
  if getFeedback && Js.truthy (default "" (r_feedback data))
  then setLastFeedbackSlidesHash (generateSlidesHash deck)
         (setAiFeedback (default "" (r_feedback data)) st)
  else st.

Definition recordFailure (getFeedback : bool) (st : State) : State :=
  let st := setMetrics notAnalyzed st in
  if getFeedback
  then setAiFeedback "Failed to generate feedback. Please try again." st
  else st.

(** A backend that is down. *)
Definition failNet : nat -> Request -> Response :=
  fun _ _ => Rejected "Failed to fetch".

(** A backend whose analysis comes with feedback. *)
Definition feedbackNet : nat -> Request -> Response :=
  fun _ _ =>
    Resolved true
      (Json {| detail := None; r_score := Some 72%Z;
               r_narrative_flow := Some "Strong";
               r_visual_design := Some "Decent";
               r_data_credibility := Some "Average";
               r_feedback := Some "Add traction numbers";
               r_suggestion := None; r_slides := None |}).

(** A deck that was analysed before: metrics and feedback are on display. *)
Definition analysedState : State :=
  setMetrics {| score := 80; narrative_flow := "Strong"; visual_design := "Polished";
                data_credibility := "High" |}
    (setAiFeedback "Looks good"
       (setLastFeedbackSlidesHash (generateSlidesHash demoDeck)
          (setSlides demoDeck initialState))).

(** The request [fetchAISuggestion] sends for a slide. *)
Definition suggestionRequest (type : SuggestionType) (slide : Slide) : Request :=
  GenerateSuggestion (title slide) (content slide) (design slide) type.

(** What [fetchAISuggestion] makes of a response. *)
Definition suggestionReply (type : SuggestionType) (r : Response)
  : Outcome Suggestion :=
  match r with
  | Rejected msg => Thrown msg
  | Resolved false body =>
      Thrown (Js.orStr (detail (jsonOrEmpty body)) "Failed to fetch suggestion")
  | Resolved true (BadJson msg) => Thrown msg
  | Resolved true (Json data) =>
      Returned {| stype := type; stext := r_suggestion data |}
  end.

(** The refresh as section 4.3 of the design document words it
    ("concurrently requests one Content suggestion and one Design
    suggestion", then joins): both requests are issued before either is
    awaited.  It is not taken from the source; it stands next to
    [fetchAISuggestions] so that the two logs can be compared. *)
Definition refreshAll_spec (st : State) (slideIdx : Z) : Task unit :=
  if (0 <=? slideIdx)%Z && (slideIdx <? Z.of_nat (length (slides st)))%Z
  then
    match slides st !! Z.to_nat slideIdx with
    | Some slide =>
        Spawn (suggestionRequest Content slide) (fun pc =>
        Spawn (suggestionRequest Design slide) (fun pd =>
        Await pc (fun rc =>
        Await pd (fun rd =>
          match suggestionReply Content rc, suggestionReply Design rd with
          | Returned c, Returned d => set (setAiSuggestions [c; d])
          | Thrown msg, _ => Throw msg
          | _, Thrown msg => Throw msg
          end))))
    | None => Throw "TypeError: slide is undefined"
    end
  else Ret tt.

(** A media field holds an attachment when it is a non-empty string. *)
Definition mediaSet (url : option string) : bool := Js.truthy (default "" url).

(** At most one of [imageUrl] and [videoUrl] holds an attachment. *)
Definition exclusiveMedia (s : Slide) : Prop :=
  mediaSet (imageUrl s) && mediaSet (videoUrl s) = false.

(** The states reached by a run of uploads through [handleFileChange]. *)
Inductive attachSteps : State -> State -> Prop :=
| attach_none (st : State) : attachSteps st st
| attach_more (st st' st'' : State) (files : option (list File)) :
    handleFileChange files st = Some st' ->
    attachSteps st' st'' ->
    attachSteps st st''.

(** A backend that answers the first request and fails the second. *)
Definition secondFails : nat -> Request -> Response :=
  fun h _ =>
    match h with
    | O => Resolved true
             (Json {| detail := None; r_score := None; r_narrative_flow := None;
                      r_visual_design := None; r_data_credibility := None;
                      r_feedback := None; r_suggestion := Some "Add a metric";
                      r_slides := None |})
    | S _ => Resolved false (Json emptyBody)
    end.

(** A deck with old suggestions on display and its second slide selected. *)
Definition suggestingState : State :=
  setAiSuggestions
    [ {| stype := Content; stext := Some "Quote a customer" |};
      {| stype := Design; stext := Some "Use two columns" |} ]
    (handleEditSlide 1 (setSlides demoDeck initialState)).

(** An editor with the three sample blocks. *)
Definition sampleEditor : Editor := openEditor (Some twoTexts).

Definition pngFile : File := {| ftype := "image/png"; objectUrl := "blob:1" |}.

(** ** Further code of the block editor ([ManualEditModal.tsx]) *)

(** The sample chart of [handleAddVisual] (lines 319-326). *)
Definition pieDatum (name : string) (value : Z) (color : string) : JsVal :=
  JsObj [("name", JsStr name); ("value", JsNum value); ("color", JsStr color)].

Definition starterPie : VisualBlock :=
  {| vtype := pie;
     vdata := JsArr [ pieDatum "A" 40 "#8884d8"; pieDatum "B" 30 "#82ca9d";
                      pieDatum "C" 30 "#ffc658" ];
     vconfig := None |}.

(** [handleAddVisual] (lines 315-332); [fresh] is the random suffix of the
    new id. *)
Definition handleAddVisual (fresh : string) (ed : Editor) : Editor :=
  let newId := "visual-" +:+ fresh in
  let newBlock :=
    VisualBlockContainer
      {| id := newId;
         position := {| pos_x := 50; pos_y := 50 |};
         size := {| width := 500; height := 300 |} |}
      starterPie in
  {| eBlocks := eBlocks ed ++ [newBlock];
     eLayout := eLayout ed ++
       [{| li := newId; lx := 0; ly := Bottom; lw := 6; lh := 4;
           minW := 3; minH := 2 |}] |}.

(** [{ ...block.visual, data: newData }] and [{ ...block.visual, type }]. *)
Definition withData (d : JsVal) (v : VisualBlock) : VisualBlock :=
  {| vtype := vtype v; vdata := d; vconfig := vconfig v |}.
Definition withType (t : VisualType) (v : VisualBlock) : VisualBlock :=
  {| vtype := t; vdata := vdata v; vconfig := vconfig v |}.

(** [handleVisualDataChange] (lines 339-349). *)
Definition handleVisualDataChange (idx : nat) (newData : JsVal) (ed : Editor)
  : Editor :=
  {| eBlocks :=
       imap (fun i block =>
               match block with
               | VisualBlockContainer base visual =>
                   if Nat.eqb i idx
                   then VisualBlockContainer base (withData newData visual)
                   else block
               | TextBlock _ _ _ => block
               end) (eBlocks ed);
     eLayout := eLayout ed |}.

(** [handleVisualTypeChange] (lines 351-361); the new type comes from the
    five options of the select box. *)
Definition handleVisualTypeChange (idx : nat) (newType : VisualType) (ed : Editor)
  : Editor :=
  {| eBlocks :=
       imap (fun i block =>
               match block with
               | VisualBlockContainer base visual =>
                   if Nat.eqb i idx
                   then VisualBlockContainer base (withType newType visual)
                   else block
               | TextBlock _ _ _ => block
               end) (eBlocks ed);
     eLayout := eLayout ed |}.

(** [handleTextChange] (lines 363-373). *)
Definition handleTextChange (idx : nat) (newContent : string) (ed : Editor)
  : Editor :=
  {| eBlocks :=
       imap (fun i block =>
               match block with
               | TextBlock base _ editable =>
                   if Nat.eqb i idx
                   then TextBlock base newContent editable
                   else block
               | VisualBlockContainer _ _ => block
               end) (eBlocks ed);
     eLayout := eLayout ed |}.

(** The updater the three AI text actions pass to [setBlocks] on success
    (lines 392, 417 and 442): every text block receives the generated
    text. *)
Definition applyGeneratedText (generated : string) (ed : Editor) : Editor :=
  {| eBlocks :=
       map (fun b =>
              match b with
              | TextBlock base _ editable => TextBlock base generated editable
              | VisualBlockContainer _ _ => b
              end) (eBlocks ed);
     eLayout := eLayout ed |}.

(** The updater [handleAddDataVisualization] passes to [setBlocks] on
    success (lines 465-471); [stamp] is [Date.now()].  The layout hook is
    not written. *)
Definition appendGeneratedVisual (stamp : nat) (data : JsVal) (ed : Editor) : Editor :=
  {| eBlocks := eBlocks ed ++
       [VisualBlockContainer
          {| id := "visual-" +:+ showNat stamp;
             position := {| pos_x := 50; pos_y := 50 |};
             size := {| width := 500; height := 300 |} |}
          {| vtype := pie; vdata := data; vconfig := None |}];
     eLayout := eLayout ed |}.

(** The user actions of the editor that write both hooks or the blocks. *)
Inductive EditorOp :=
| OpAddText (fresh : string)
| OpAddVisual (fresh : string)
| OpRemove (rid : string)
| OpText (idx : nat) (newContent : string)
| OpVisualData (idx : nat) (newData : JsVal)
| OpVisualType (idx : nat) (newType : VisualType)
| OpGeneratedText (generated : string).

Definition applyOp (ed : Editor) (op : EditorOp) : Editor :=
  match op with
  | OpAddText fresh => handleAddText fresh ed
  | OpAddVisual fresh => handleAddVisual fresh ed
  | OpRemove rid => handleRemoveBlock rid ed
  | OpText idx c => handleTextChange idx c ed
  | OpVisualData idx d => handleVisualDataChange idx d ed
  | OpVisualType idx t => handleVisualTypeChange idx t ed
  | OpGeneratedText c => applyGeneratedText c ed
  end.

(** Every block has its layout item, in the same order. *)
Definition inSync (ed : Editor) : Prop :=
  li <$> eLayout ed = blockId <$> eBlocks ed.

(** Two layout items cover no common grid cell. *)
Definition cellsDisjoint (a b : LayoutItem) : Prop :=
  match ly a, ly b with
  | Row ya, Row yb =>
      (lx a + lw a <= lx b \/ lx b + lw b <= lx a
       \/ ya + lh a <= yb \/ yb + lh b <= ya)%Z
  | _, _ => False
  end.

(** The theme hook's initial value (line 298) and the slide the editor
    hands to [onSave] (lines 545-549). *)
Definition initialTheme (slide : Slide) : string := Js.orStr (theme slide) "Classic".

Definition editorSave (slide : Slide) (ed : Editor) (chosenTheme : string) : Slide :=
  withTheme (Some chosenTheme) (withBlocks (Some (eBlocks ed)) slide).

(** ** Further code of [page.tsx] *)

(** The slide handed to the block editor (lines 1418-1445): a text block
    for the title, one for the content if there is any, and a block per
    visual.  [r1] and [r2] are the random suffixes of the two text ids. *)
Definition editorSlide (r1 r2 : string) (slide : Slide) : Slide :=
  withBlocks
    (Some
       ([TextBlock {| id := "text-" +:+ r1;
                      position := {| pos_x := 50; pos_y := 50 |};
                      size := {| width := 500; height := 80 |} |}
           (title slide) true]
        ++ (if Js.truthy (content slide)
            then [TextBlock {| id := "text-" +:+ r2;
                               position := {| pos_x := 50; pos_y := 150 |};
                               size := {| width := 500; height := 80 |} |}
                    (content slide) true]
            else [])
        ++ imap (fun i v =>
                   VisualBlockContainer
                     {| id := "visual-" +:+ showNat i;
                        position := {| pos_x := 50; pos_y := 250 + Z.of_nat i * 100 |};
                        size := {| width := 500; height := 80 |} |} v)
             (default [] (visuals slide))))
    slide.

(** The slide [onSave] stores for the slide the editor returns
    (lines 1449-1462); [old] is [slides[selectedSlide]]. *)
Definition storeEditedSlide (old updatedSlide : Slide) : Slide :=
  let texts := omap textOf (default [] (blocks updatedSlide)) in
  {| title := Js.orStr (head texts) (title old);
     content := Js.orStr (Some (Js.join (nl +:+ nl) (drop 1 texts))) "";
     design := Js.orStr (Some (design updatedSlide)) "";
     blocks := Some (default [] (blocks updatedSlide));
     visuals := Some (omap visualOf (default [] (blocks updatedSlide)));
     imageUrl := imageUrl updatedSlide;
     videoUrl := videoUrl updatedSlide;
     theme := theme updatedSlide |}.

(** The [onSave] of the block editor (lines 1447-1479), for the render in
    which [selectedSlide] is [sel] and holds [old]; the flag of the modal is
    not part of [State]. *)
Definition handleManualSave (st : State) (sel : nat) (old updatedSlide : Slide)
  : Task unit :=
  let updatedSlides := <[sel := storeEditedSlide old updatedSlide]> (slides st) in
  set (setSlides updatedSlides) ;;;
  set (setSlidesModified true) ;;;
  awaitFetch (SaveSlides "demo" updatedSlides) ;;;
  updateAIAnalysis updatedSlides true ;;;
  Ret tt.


(** The [onChange] of the content and the design text areas of the edit
    modal (lines 1051-1058 and 1069-1076), rendered when a slide is
    selected.  The result is [None] when the selection is past the end of
    [slides], where the assignment grows the array (and without a selected
    slide, where the text areas are not rendered). *)
Definition handleContentInput (value : string) (st : State) : option State :=
  sel ← selectedSlide st;
  slide ← slides st !! sel;
  Some (setSlides (<[sel := withContent value slide]> (slides st)) st).

Definition handleDesignInput (value : string) (st : State) : option State :=
  sel ← selectedSlide st;
  slide ← slides st !! sel;
  Some (setSlides (<[sel := withDesign value slide]> (slides st)) st).

(** *** Deck generation: the slides [handleGenerateSlides] builds *)

(** [toLowerCase] on code units below 256: the letters A-Z and the
    capital letters of Latin-1 (all of 192-222 but the multiplication
    sign). *)
Definition lowerChar (c : ascii) : ascii :=
  let n := nat_of_ascii c in
  if ((65 <=? n) && (n <=? 90) || (192 <=? n) && (n <=? 222) && negb (n =? 215))%nat
  then ascii_of_nat (n + 32)
  else c.

Definition toLowerCase (s : string) : string := Js.str (map lowerChar (Js.chars s)).

(** [item.replace(new RegExp(`^${slideTitle}:?\\s*`, 'i'), '')] (line 588),
    for a title without metacharacters. *)
Definition stripTitle (slideTitle item : string) : string :=
  if String.prefix (Js.lowerAll slideTitle) (Js.lowerAll item)
  then
    let rest := drop (String.length slideTitle) (Js.chars item) in
    let rest := match rest with
                | ":"%char :: after => after
                | _ => rest
                end in
    Js.str (Js.dropSpaces rest)
  else item.

(** The title the [for] loop of lines 585-594 stops at: the first standard
    title the item mentions. *)
Fixpoint classifyItem (titles : list string) (item : string) : option string :=
  match titles with
  | [] => None
  | slideTitle :: rest =>
      if Js.includes (toLowerCase slideTitle) (toLowerCase item)
      then Some slideTitle
      else classifyItem rest item
  end.

(** [contentMap] after [reduce] (lines 577-580). *)
Definition emptyContentMap : gmap string (list string) :=
  fold_left (fun acc slideTitle => <[slideTitle := []]> acc) STANDARD_SLIDES ∅.

(** One turn of [data.slides.forEach] (lines 584-595).  [push] is on the
    entry of a standard title, which [reduce] has created. *)
Definition organizeItem (contentMap : gmap string (list string)) (item : string)
  : gmap string (list string) :=
  match classifyItem STANDARD_SLIDES item with
  | Some slideTitle =>
      let content := Js.trim (stripTitle slideTitle item) in
      if Js.truthy content
      then alter (fun contents => contents ++ [content]) slideTitle contentMap
      else contentMap
  | None => contentMap
  end.

(** The slide built for a title from its contents (lines 600-628); [rnd k]
    is the random suffix of the id of block [k], and the one of the
    placeholder block. *)
Definition buildSlide (rnd : nat -> string) (slideTitle : string)
    (contents : list string) : Slide :=
  let combinedContent := Js.join (nl +:+ nl) contents in
  let blocks :=
    imap (fun index content =>
            TextBlock
              {| id := "text-" +:+ rnd index;
                 position := {| pos_x := 50; pos_y := 50 + Z.of_nat index * 100 |};
                 size := {| width := 500; height := 80 |} |}
              content true) contents in
  {| title := slideTitle;
     content := combinedContent;
     design := "";
     blocks :=
       Some (if (0 <? length blocks)%nat
             then blocks
             else [TextBlock
                     {| id := "text-" +:+ rnd 0;
                        position := {| pos_x := 50; pos_y := 50 |};
                        size := {| width := 500; height := 80 |} |}
                     "" true]);
     visuals := None; imageUrl := None; videoUrl := None; theme := None |}.

(** [newSlides] of [handleGenerateSlides] (lines 577-628) for the texts the
    backend sent; [None] is the [TypeError] of a title without entry in
    [contentMap]. *)
Definition buildSlides (rnd : string -> nat -> string) (items : list string)
  : option (list Slide) :=
  let contentMap := fold_left organizeItem items emptyContentMap in
  mapM (fun slideTitle =>
          contents ← contentMap !! slideTitle;
          Some (buildSlide (rnd slideTitle) slideTitle contents))
    STANDARD_SLIDES.

(** What an item of the response adds to the slide of a title: its text
    without the title, when this title is the first standard title the item
    mentions and the text is not blank. *)
Definition entryFor (slideTitle item : string) : option string :=
  match classifyItem STANDARD_SLIDES item with
  | Some found =>
      if String.eqb found slideTitle
      then
        let content := Js.trim (stripTitle found item) in
        if Js.truthy content then Some content else None
      else None
  | None => None
  end.

(** *** [parseDesign] (lines 339-355) *)

Record DesignCues := {
  bgColor : string;
  textColor : string;
  layoutCue : string;
  visualCues : list VisualType;
  headline : string
}.

(** A line terminator below code 256 ([.] matches every other character). *)
Definition isLineTerminator (c : ascii) : bool :=
  match nat_of_ascii c with
  | 10%nat | 13%nat => true
  | _ => false
  end.

(** [headline] further on the same line. *)
Fixpoint headlineAhead (s : string) : bool :=
  String.prefix "headline" s ||
  match s with
  | EmptyString => false
  | String c s' => if isLineTerminator c then false else headlineAhead s'
  end.

(** [/bold.*headline/] on a text in lower case. *)
Fixpoint boldHeadline (s : string) : bool :=
  (String.prefix "bold" s && headlineAhead (Js.str (drop 4 (Js.chars s)))) ||
  match s with
  | EmptyString => false
  | String _ s' => boldHeadline s'
  end.

Definition parseDesign (design : string) : DesignCues :=
  if negb (Js.truthy design)
  then {| bgColor := ""; textColor := ""; layoutCue := ""; visualCues := [];
          headline := "" |}
  else
    {| bgColor := if Js.testCI "blue background" design then "bg-blue-600" else "";
       textColor := if Js.testCI "white text" design then "text-white" else "";
       layoutCue :=
         if Js.testCI "two columns" design || Js.testCI "2 columns" design
         then "grid grid-cols-2 gap-4" else "";
       visualCues :=
         (if Js.testCI "pie chart" design then [pie] else [])
         ++ (if Js.testCI "bar chart" design then [bar] else []);
       headline :=
         if boldHeadline (Js.lowerAll design) || Js.testCI "large font" design
         then "font-bold text-2xl" else "" |}.

(** What [handleAIGenerate] makes of the response to [/generate-slides]:
    the message it shows, or the slide texts it builds the deck from. *)
Definition generateOutcome (r : Response) : string + list string :=
  match r with
  | Rejected msg => inl msg
  | Resolved false (BadJson msg) => inl msg
  | Resolved false (Json errorData) =>
      inl (Js.orStr (detail errorData) "Failed to generate slides")
  | Resolved true (BadJson msg) => inl msg
  | Resolved true (Json data) =>
      match r_slides data with
      | None => inl "TypeError: data.slides is undefined"
      | Some contents => inr contents
      end
  end.

(** *** The session effects *)

(** The items of [sessionStorage] the restore effect reads (lines 165-169);
    [None] is an absent item.  The items [slides] and [metrics] hold JSON
    text; they are kept here as the values [JSON.parse] reads from them. *)
Record Session := {
  savedSlides : option (list Slide);
  savedMetrics : option Metrics;
  savedAiFeedback : option string;
  savedDeckTitle : option string;
  savedDeckDescription : option string
}.

(** The restore effect (lines 164-189); it runs once, on the state of the
    first render. *)
Definition restoreSession (s : Session) (st : State) : State :=
  let st :=
    match savedSlides s with
    | Some parsedSlides =>
        setLastFeedbackSlidesHash (generateSlidesHash parsedSlides)
          (setSlides parsedSlides st)
    | None => st
    end in
  let st :=
    match savedMetrics s with
    | Some m => setMetrics m st
    | None => st
    end in
  let st :=
    match savedAiFeedback s with
    | Some f => if Js.truthy f then setAiFeedback f st else st
    | None => st
    end in
  let st :=
    match savedDeckTitle s with
    | Some t => if Js.truthy t then setDeckTitle t st else st
    | None => st
    end in
  match savedDeckDescription s with
  | Some d => if Js.truthy d then setDeckDescription d st else st
  | None => st
  end.

(** *** The array an upload leaves in [slides] *)





(** *** The "Generate Content" button of the edit modal *)


(** ** Further sample data *)

(** A slide whose content is the blank-line join of its text blocks, as a
    deck of one slide. *)
Definition blockDeck : list Slide :=
  [ withContent ("a" +:+ nl +:+ nl +:+ "<p>b</p>")
      (withBlocks (Some twoTexts) (demoSlide "The Problem" "" "")) ].

(** A suggestion of type design that asks for a chart. *)
Definition chartSuggestion : Suggestion :=
  {| stype := Design; stext := Some "Use a pie chart for the market split" |}.

(** A session that holds a deck and the feedback of an earlier analysis. *)
Definition staleSession : Session :=
  {| savedSlides := Some demoDeck;
     savedMetrics := None;
     savedAiFeedback := Some "Looks good";
     savedDeckTitle := Some "food waste";
     savedDeckDescription := None |}.




(** Two plain text blocks, and a deck of one slide that holds them. *)
Definition plainTexts : list SlideBlock :=
  [ TextBlock (box "text-a") "a" true; TextBlock (box "text-b") "old" true ].

Definition plainDeck : list Slide :=
  [ withBlocks (Some plainTexts) (demoSlide "The Problem" "" "") ].


(** * Properties *)

(** ** Facts about the string primitives *)

Section StringFacts.

Lemma cat_cons (x : ascii) (a b : string) : String x a +:+ b = String x (a +:+ b).
Proof. reflexivity. Qed.

Lemma cat_empty_l (a : string) : "" +:+ a = a.
Proof. reflexivity. Qed.

Lemma cat_empty_r (a : string) : a +:+ "" = a.
Proof. induction a as [|x a IH]; [reflexivity | now rewrite cat_cons, IH]. Qed.

Lemma cat_assoc (a b c : string) : (a +:+ b) +:+ c = a +:+ (b +:+ c).
Proof.
  induction a as [|x a IH]; [reflexivity | now rewrite !cat_cons, IH].
Qed.

Lemma chars_app (a b : string) : Js.chars (a +:+ b) = Js.chars a ++ Js.chars b.
Proof.
  induction a as [|x a IH]; [reflexivity|].
  rewrite cat_cons. unfold Js.chars in *. simpl. now rewrite IH.
Qed.

Lemma str_chars (s : string) : Js.str (Js.chars s) = s.
Proof. apply String.string_of_list_ascii_of_string. Qed.

Lemma chars_str (l : list ascii) : Js.chars (Js.str l) = l.
Proof. apply String.list_ascii_of_string_of_list_ascii. Qed.

Lemma chars_inj (a b : string) : Js.chars a = Js.chars b -> a = b.
Proof. intros H. rewrite <- (str_chars a), <- (str_chars b). now rewrite H. Qed.

Lemma cat_cancel_l (p a b : string) : p +:+ a = p +:+ b -> a = b.
Proof.
  induction p as [|x p IH]; [easy|].
  rewrite !cat_cons. intros H. injection H. exact IH.
Qed.

Lemma cat_cancel_r (q a b : string) : a +:+ q = b +:+ q -> a = b.
Proof.
  intros H. apply chars_inj.
  apply (f_equal Js.chars) in H. rewrite !chars_app in H.
  now apply app_inv_tail in H.
Qed.

(** A part in the middle of a string can be recovered from the whole. *)
Lemma cat_cancel_mid (p q a b : string) :
  p +:+ a +:+ q = p +:+ b +:+ q -> a = b.
Proof. intros H. apply cat_cancel_l in H. now apply cat_cancel_r in H. Qed.

Lemma join_cons (sep x : string) (xs : list string) :
  Js.join sep (x :: xs) = x +:+ Js.after sep xs.
Proof.
  revert x. induction xs as [|y ys IH]; intros x.
  - simpl. now rewrite cat_empty_r.
  - change (Js.join sep (x :: y :: ys)) with (x +:+ sep +:+ Js.join sep (y :: ys)).
    rewrite IH. reflexivity.
Qed.

Lemma after_app (sep : string) (xs ys : list string) :
  Js.after sep (xs ++ ys) = Js.after sep xs +:+ Js.after sep ys.
Proof.
  induction xs as [|x xs IH]; [reflexivity|].
  simpl. now rewrite IH, !cat_assoc.
Qed.

Lemma before_after (sep x : string) (xs : list string) :
  x +:+ Js.after sep xs +:+ sep = Js.before sep (x :: xs).
Proof.
  revert x. induction xs as [|y ys IH]; intros x; simpl.
  - now rewrite cat_empty_r.
  - rewrite !cat_assoc. rewrite IH. reflexivity.
Qed.

Lemma join_split (sep x : string) (pre post : list string) :
  Js.join sep (pre ++ x :: post) = Js.before sep pre +:+ x +:+ Js.after sep post.
Proof.
  destruct pre as [|y ys].
  - simpl. apply join_cons.
  - change ((y :: ys) ++ x :: post) with (y :: (ys ++ x :: post)).
    rewrite join_cons, after_app, <- before_after.
    simpl. now rewrite !cat_assoc.
Qed.

End StringFacts.

(** ** The fingerprint separates single-field changes *)

Section Fingerprint.

Lemma hash_split (pre post : list Slide) (s : Slide) :
  generateSlidesHash (pre ++ s :: post) =
  Js.before "|" (map slideKey pre) +:+ slideKey s +:+ Js.after "|" (map slideKey post).
Proof. unfold generateSlidesHash. rewrite map_app. simpl. apply join_split. Qed.

(** Two decks that differ in one slide have the same fingerprint only if
    that slide has the same key in both. *)
Lemma hash_insert_inj (deck : list Slide) (i : nat) (s s' : Slide) :
  deck !! i = Some s ->
  generateSlidesHash (<[i := s']> deck) = generateSlidesHash deck ->
  slideKey s' = slideKey s.
Proof.
  intros Hi H.
  pose proof (take_drop_middle deck i s Hi) as Hd.
  assert (Hlen : (i < length deck)%nat) by (eapply lookup_lt_Some; eauto).
  rewrite <- Hd in H at 2.
  rewrite <- Hd in H at 1.
  rewrite insert_app_r_alt in H by (rewrite length_take; lia).
  rewrite length_take in H.
  replace (i - i `min` length deck)%nat with 0%nat in H by lia.
  simpl in H. rewrite !hash_split in H.
  now apply cat_cancel_mid in H.
Qed.

Lemma hash_insert_same_key (deck : list Slide) (i : nat) (s s' : Slide) :
  deck !! i = Some s ->
  slideKey s' = slideKey s ->
  generateSlidesHash (<[i := s']> deck) = generateSlidesHash deck.
Proof.
  intros Hi Hk. unfold generateSlidesHash. f_equal.
  rewrite list_fmap_insert. rewrite Hk.
  apply list_insert_id. rewrite list_lookup_fmap, Hi. reflexivity.
Qed.

End Fingerprint.

Section FingerprintClaim.

Implicit Types (deck : list Slide) (s : Slide).

Lemma slideKey_title s v : slideKey (withTitle v s) = slideKey s -> v = title s.
Proof. unfold slideKey. simpl. apply cat_cancel_r. Qed.

Lemma slideKey_content s v : slideKey (withContent v s) = slideKey s -> v = content s.
Proof.
  unfold slideKey. simpl. intros H.
  do 2 apply cat_cancel_l in H. now apply cat_cancel_r in H.
Qed.

Lemma slideKey_design s v : slideKey (withDesign v s) = slideKey s -> v = design s.
Proof. unfold slideKey. simpl. intros H. now do 4 apply cat_cancel_l in H. Qed.

(** C3.  The fingerprint of a deck is the ["|"]-join, in slide order, of
    [title + ":" + content + ":" + design]; it is a function of the deck
    (equal decks have equal fingerprints); replacing the title, the content
    or the design of one slide by a different string, everything else
    fixed, changes it; replacing blocks (hence their layout), visuals,
    media or theme of a slide leaves it unchanged. *)
Theorem generateSlidesHash_fingerprint deck (i : nat) s :
  deck !! i = Some s ->
  generateSlidesHash [] = ""
  /\ (forall x, generateSlidesHash [x]
                = title x +:+ ":" +:+ content x +:+ ":" +:+ design x)
  /\ (forall x y rest,
        generateSlidesHash (x :: y :: rest)
        = (title x +:+ ":" +:+ content x +:+ ":" +:+ design x)
            +:+ "|" +:+ generateSlidesHash (y :: rest))
  /\ (forall deck', deck' = deck ->
        generateSlidesHash deck' = generateSlidesHash deck)
  /\ (forall v, v <> title s ->
        generateSlidesHash (<[i := withTitle v s]> deck) <> generateSlidesHash deck)
  /\ (forall v, v <> content s ->
        generateSlidesHash (<[i := withContent v s]> deck) <> generateSlidesHash deck)
  /\ (forall v, v <> design s ->
        generateSlidesHash (<[i := withDesign v s]> deck) <> generateSlidesHash deck)
  /\ (forall bs vs img vid th,
        generateSlidesHash
          (<[i := withTheme th (withVideoUrl vid (withImageUrl img
                    (withVisuals vs (withBlocks bs s))))]> deck)
        = generateSlidesHash deck).
Proof.
  intros Hi. repeat split.
  - intros deck' ->. reflexivity.
  - intros v Hv H. apply Hv, slideKey_title. eapply hash_insert_inj; eauto.
  - intros v Hv H. apply Hv, slideKey_content. eapply hash_insert_inj; eauto.
  - intros v Hv H. apply Hv, slideKey_design. eapply hash_insert_inj; eauto.
  - intros bs vs img vid th. now apply (hash_insert_same_key deck i s).
Qed.

End FingerprintClaim.

Lemma generateSlidesHash_fingerprint_witness :
  generateSlidesHash (<[1%nat := withDesign "white text" (demoSlide "Our Solution" "Smart inventory" "blue background")]> demoDeck)
  <> generateSlidesHash demoDeck.
Proof.
  pose proof (generateSlidesHash_fingerprint demoDeck 1
                (demoSlide "Our Solution" "Smart inventory" "blue background")
                eq_refl) as (_ & _ & _ & _ & _ & _ & Hd & _).
  apply Hd. simpl. discriminate.
Defined.

(** ** Materialization of [content] and [visuals] on save *)

Section Materialize.

Lemma orStr_some_empty (t : string) : Js.orStr (Some t) "" = t.
Proof.
  unfold Js.orStr. destruct (String.eqb_spec t ""); congruence.
Qed.

Lemma chars_nl : Js.chars nl = ["010"%char].
Proof. reflexivity. Qed.

(** A trailing line feed does not survive [trim]. *)
Lemma trim_drop_nl (x : string) : Js.trim (x +:+ nl) = Js.trim x.
Proof.
  unfold Js.trim, Js.trimEnd. rewrite chars_app, chars_nl, rev_app_distr.
  reflexivity.
Qed.

Lemma terminated_join (h : string) (hs : list string) :
  terminated (h :: hs) = Js.join nl (h :: hs) +:+ nl.
Proof.
  revert h. induction hs as [|h' hs IH]; intros h.
  - simpl. now rewrite cat_empty_r.
  - change (terminated (h :: h' :: hs)) with ((h +:+ nl) +:+ terminated (h' :: hs)).
    change (Js.join nl (h :: h' :: hs)) with (h +:+ nl +:+ Js.join nl (h' :: hs)).
    rewrite IH, !cat_assoc. reflexivity.
Qed.

Lemma trim_terminated (hs : list string) :
  Js.trim (terminated hs) = Js.trim (Js.join nl hs).
Proof.
  destruct hs as [|h hs]; [reflexivity|].
  rewrite terminated_join. apply trim_drop_nl.
Qed.

(** The loop of the save handler, from any value of its accumulators. *)
Lemma fold_saveBlock (bs : list SlideBlock) (c : string) (v : list VisualBlock) :
  fold_left saveBlock bs (c, v)
  = (c +:+ terminated (map stripParagraph (omap textOf bs)), v ++ omap visualOf bs).
Proof.
  revert c v. induction bs as [|b bs IH]; intros c v.
  - simpl. now rewrite cat_empty_r, app_nil_r.
  - destruct b as [base text editable | base visual];
      cbn [fold_left saveBlock]; rewrite IH.
    + rewrite orStr_some_empty. simpl. rewrite !cat_assoc. reflexivity.
    + simpl. now rewrite <- app_assoc.
Qed.

(** What the save handler stores for a slide that has a [blocks] array. *)
Lemma materializeOnSave_blocks (slide : Slide) (bs : list SlideBlock) :
  blocks slide = Some bs ->
  materializeOnSave slide
  = withVisuals (Some (omap visualOf bs))
      (withContent (Js.trim (Js.join nl (map stripParagraph (omap textOf bs)))) slide).
Proof.
  intros Hb. unfold materializeOnSave. rewrite Hb, fold_saveBlock.
  rewrite cat_empty_l, trim_terminated. reflexivity.
Qed.

(** What it stores for a slide without one. *)
Lemma materializeOnSave_no_blocks (slide : Slide) :
  blocks slide = None ->
  materializeOnSave slide
  = withVisuals (Some (default [] (visuals slide))) (withContent (content slide) slide).
Proof.
  intros Hb. unfold materializeOnSave. rewrite Hb, orStr_some_empty. reflexivity.
Qed.

(** The state the handler leaves, whatever the save request settles to. *)
Lemma handleSaveChanges_state net (st : State) (w : World) (sel : nat) (slide : Slide) :
  selectedSlide st = Some sel ->
  slides st !! sel = Some slide ->
  let w' := (run net quiet (handleSaveChanges st) w).1 in
  slides (ui w') = <[sel := materializeOnSave slide]> (slides st)
  /\ slidesModified (ui w') = true
  /\ showEditModal (ui w') = false
  /\ log w' = log w ++
       [Issued (issued w) (SaveSlides "demo" (<[sel := materializeOnSave slide]> (slides st)));
        Settled (issued w)
          (net (issued w) (SaveSlides "demo" (<[sel := materializeOnSave slide]> (slides st))))].
Proof.
  intros Hsel Hslide. unfold handleSaveChanges. rewrite Hsel, Hslide.
  cbn [run bind set awaitFetch onUi ui issued log handle request fst].
  destruct (net _ _) as [msg | ok body];
    cbn [run bind fst ui log slides slidesModified showEditModal
           setSlides setSlidesModified setShowEditModal];
    rewrite <- app_assoc; auto.
Qed.

End Materialize.

Section SaveClaims.

Lemma substring_prefix (x y : string) :
  String.substring 0 (String.length x) (x +:+ y) = x.
Proof.
  induction x as [|c x IH].
  - rewrite cat_empty_l. destruct y; reflexivity.
  - rewrite cat_cons. simpl. now rewrite IH.
Qed.

Lemma length_cat (x y : string) :
  String.length (x +:+ y) = (String.length x + String.length y)%nat.
Proof. induction x as [|c x IH]; [reflexivity|]. rewrite cat_cons. simpl. lia. Qed.

Lemma slice_wrapper (inner : string) :
  Js.slice ("<p>" +:+ inner +:+ "</p>") 3 (-4) = inner.
Proof.
  unfold Js.slice, Js.clamp. rewrite !length_cat. simpl String.length.
  replace (3 <? 0)%Z with false by reflexivity.
  replace (-4 <? 0)%Z with true by reflexivity.
  rewrite Z.min_l by lia.
  rewrite (Z.max_l _ 0) by lia.
  replace (Z.to_nat 3) with 3%nat by reflexivity.
  match goal with
  | |- String.substring 3 (Z.to_nat ?k) _ = _ =>
      replace (Z.to_nat k) with (String.length inner) by lia
  end.
  change ("<p>" +:+ inner +:+ "</p>")
    with (String "<" (String "p" (String ">" (inner +:+ "</p>")))).
  cbn [String.substring]. apply substring_prefix.
Qed.

Lemma prefix_empty (s : string) : String.prefix "" s = true.
Proof. destruct s; reflexivity. Qed.

Lemma endsWith_wrapper (x : string) : Js.endsWith "</p>" (x +:+ "</p>") = true.
Proof.
  unfold Js.endsWith. rewrite chars_app, rev_app_distr. simpl.
  apply prefix_empty.
Qed.

Lemma startsWith_wrapper (x : string) : Js.startsWith "<p>" ("<p>" +:+ x) = true.
Proof.
  unfold Js.startsWith.
  change ("<p>" +:+ x) with (String "<" (String "p" (String ">" x))).
  simpl. apply prefix_empty.
Qed.

(** The wrapper test: a paragraph that wraps the whole text and has no
    paragraph tag inside is replaced by its inside. *)
Lemma stripParagraph_wrapper (inner : string) :
  stripParagraph ("<p>" +:+ inner +:+ "</p>")
  = if Js.includes "<p>" inner || Js.includes "</p>" inner
    then "<p>" +:+ inner +:+ "</p>"
    else inner.
Proof.
  unfold stripParagraph.
  rewrite startsWith_wrapper.
  replace (Js.endsWith "</p>" ("<p>" +:+ inner +:+ "</p>")) with true
    by (symmetry; apply (endsWith_wrapper ("<p>" +:+ inner))).
  cbn [andb]. rewrite slice_wrapper.
  destruct (Js.includes "<p>" inner), (Js.includes "</p>" inner); reflexivity.
Qed.

Lemma prefix_split (a b : string) :
  String.prefix a b = true -> exists c, b = a +:+ c.
Proof.
  revert b. induction a as [|x a IH]; intros b H.
  - exists b. reflexivity.
  - destruct b as [|y b]; [discriminate|]. simpl in H.
    destruct (ascii_dec x y) as [->|]; [|discriminate].
    destruct (IH b H) as [c ->]. exists c. now rewrite cat_cons.
Qed.

Lemma endsWith_split (p s : string) :
  Js.endsWith p s = true -> exists pre, s = pre +:+ p.
Proof.
  unfold Js.endsWith. intros H. apply prefix_split in H as [c Hc].
  exists (Js.str (rev (Js.chars c))). apply chars_inj.
  apply (f_equal Js.chars) in Hc. rewrite chars_app, !chars_str in Hc.
  rewrite chars_app, chars_str.
  apply (f_equal (@rev ascii)) in Hc.
  rewrite rev_involutive, rev_app_distr, rev_involutive in Hc. exact Hc.
Qed.

(** A text that starts with the opening tag and ends with the closing tag
    is the two tags around some text: the tags cannot overlap. *)
Lemma wrapper_shape (html : string) :
  Js.startsWith "<p>" html = true ->
  Js.endsWith "</p>" html = true ->
  exists inner, html = "<p>" +:+ inner +:+ "</p>".
Proof.
  intros Hs He. apply prefix_split in Hs as [rest Hrest].
  apply endsWith_split in He as [pre Hpre]. subst html.
  destruct pre as [|a [|b [|c inner]]];
    try (apply (f_equal Js.chars) in Hpre; simpl in Hpre; discriminate Hpre).
  exists inner.
  assert (H3 : String a (String b (String c "")) = "<p>").
  { apply (f_equal Js.chars) in Hpre. rewrite !chars_app in Hpre.
    simpl in Hpre. injection Hpre as <- <- <- _. reflexivity. }
  injection H3 as -> -> ->. rewrite Hpre. reflexivity.
Qed.

(** Every other text is left as it is. *)
Lemma stripParagraph_other (html : string) :
  (forall inner, html = "<p>" +:+ inner +:+ "</p>" ->
     Js.includes "<p>" inner || Js.includes "</p>" inner = true) ->
  stripParagraph html = html.
Proof.
  intros H.
  destruct (Js.startsWith "<p>" html && Js.endsWith "</p>" html) eqn:Hw.
  - apply andb_prop in Hw as [Hs He].
    destruct (wrapper_shape html Hs He) as [inner ->].
    rewrite stripParagraph_wrapper, (H inner eq_refl). reflexivity.
  - unfold stripParagraph. now rewrite Hw.
Qed.

(** C1, as the code has it.  For a slide with a non-empty array of blocks,
    the save handler stores as [content] the text obtained by joining the
    text blocks, in block order and each with a redundant paragraph
    wrapper stripped, with ONE line feed, and removing white space at both
    ends; and as [visuals] the payloads of the visual blocks in block
    order. *)
Theorem save_materializes_blocks net (st : State) (w : World)
    (sel : nat) (slide : Slide) (bs : list SlideBlock) :
  selectedSlide st = Some sel ->
  slides st !! sel = Some slide ->
  blocks slide = Some bs ->
  bs <> [] ->
  exists saved,
    slides (ui (run net quiet (handleSaveChanges st) w).1) !! sel = Some saved
    /\ content saved
       = Js.trim (Js.join nl (map stripParagraph (omap textOf bs)))
    /\ visuals saved = Some (omap visualOf bs)
    /\ (forall inner,
          Js.includes "<p>" inner = false ->
          Js.includes "</p>" inner = false ->
          stripParagraph ("<p>" +:+ inner +:+ "</p>") = inner)
    /\ (forall html,
          (forall inner, html = "<p>" +:+ inner +:+ "</p>" ->
             Js.includes "<p>" inner || Js.includes "</p>" inner = true) ->
          stripParagraph html = html).
Proof.
  intros Hsel Hslide Hbs _.
  destruct (handleSaveChanges_state net st w sel slide Hsel Hslide) as (Hs & _).
  exists (materializeOnSave slide). split.
  - rewrite Hs. apply list_lookup_insert_eq. eapply lookup_lt_Some; eauto.
  - rewrite (materializeOnSave_blocks slide bs Hbs).
    split; [reflexivity|]. split; [reflexivity|]. split.
    + intros inner H1 H2. now rewrite stripParagraph_wrapper, H1, H2.
    + apply stripParagraph_other.
Qed.

(** The claim as written asks for a blank line between text blocks. *)
Lemma save_blank_line_join_counterexample :
  let st := twoTextState in
  selectedSlide st = Some 0%nat
  /\ blocks <$> slides st !! 0%nat = Some (Some twoTexts)
  /\ content <$> slides (ui (run okNet quiet (handleSaveChanges st) (startWorld st)).1) !! 0%nat
     = Some ("a" +:+ nl +:+ "b")
  /\ content <$> slides (ui (run okNet quiet (handleSaveChanges st) (startWorld st)).1) !! 0%nat
     <> Some (Js.join (nl +:+ nl) (map stripParagraph (omap textOf twoTexts))).
Proof. vm_compute. repeat split; discriminate. Qed.

(** The blank line of the claim is what the other writers of [content]
    join with: after [handleEditBlock] the content of the sample slide is
    its two texts joined by a blank line, and Save Changes, run on that
    very slide, replaces it by the join with one line feed, so that the
    fingerprint of the deck changes although no block did. *)
Lemma save_undoes_the_blank_line_join :
  let edited := default [] (handleEditBlock 0 1 "b" plainDeck) in
  let st := handleEditSlide 0 (setSlides edited initialState) in
  let saved := slides (ui (run okNet quiet (handleSaveChanges st) (startWorld st)).1) in
  content <$> edited !! 0%nat = Some ("a" +:+ nl +:+ nl +:+ "b")
  /\ content <$> saved !! 0%nat = Some ("a" +:+ nl +:+ "b")
  /\ blocks <$> saved !! 0%nat = blocks <$> edited !! 0%nat
  /\ generateSlidesHash saved <> generateSlidesHash edited.
Proof. vm_compute. repeat split; discriminate. Qed.

(** C2 at the slide "AI Generate" has just built: its [blocks] is the
    empty array, the guard of the save handler lets it through, and the
    generated text is replaced by the empty string. *)
Theorem save_erases_generated_content :
  let st := generatedState in
  selectedSlide st = Some 0%nat
  /\ blocks <$> slides st !! 0%nat = Some (Some [])
  /\ content <$> slides st !! 0%nat = Some "Restaurants waste 30% of food"
  /\ content <$> slides (ui (run okNet quiet (handleSaveChanges st) (startWorld st)).1) !! 0%nat
     = Some "".
Proof. vm_compute. repeat split. Qed.

(** The same for every slide whose [blocks] is the empty array. *)
Lemma materializeOnSave_empty_blocks (slide : Slide) :
  blocks slide = Some [] ->
  materializeOnSave slide = withVisuals (Some []) (withContent "" slide).
Proof. intros H. now rewrite (materializeOnSave_blocks slide [] H). Qed.

(** [handleEditBlock] joins the text blocks with a blank line. *)
Lemma handleEditBlock_content (i j : nat) (v : string) (deck deck' : list Slide) :
  handleEditBlock i j v deck = Some deck' ->
  exists slide bs,
    deck' !! i = Some slide
    /\ blocks slide = Some bs
    /\ content slide = Js.join (nl +:+ nl) (omap textOf bs).
Proof.
  unfold handleEditBlock. intros H.
  destruct (deck !! i) as [slide|] eqn:Hi; [|discriminate].
  simpl in H. destruct (blocks slide) as [bs|] eqn:Hb; [|discriminate].
  simpl in H. destruct (bs !! j) as [block|] eqn:Hj; [|discriminate].
  simpl in H. injection H as <-.
  eexists _, _. split; [|split].
  - apply list_lookup_insert_eq. eapply lookup_lt_Some; eauto.
  - reflexivity.
  - reflexivity.
Qed.

End SaveClaims.

Lemma save_materializes_blocks_witness :
  exists saved,
    slides (ui (run okNet quiet (handleSaveChanges twoTextState)
                  (startWorld twoTextState)).1) !! 0%nat = Some saved
    /\ content saved = Js.trim (Js.join nl (map stripParagraph (omap textOf twoTexts)))
    /\ visuals saved = Some (omap visualOf twoTexts)
    /\ (forall inner,
          Js.includes "<p>" inner = false ->
          Js.includes "</p>" inner = false ->
          stripParagraph ("<p>" +:+ inner +:+ "</p>") = inner)
    /\ (forall html,
          (forall inner, html = "<p>" +:+ inner +:+ "</p>" ->
             Js.includes "<p>" inner || Js.includes "</p>" inner = true) ->
          stripParagraph html = html).
Proof.
  apply (save_materializes_blocks okNet twoTextState (startWorld twoTextState)
           0 (withBlocks (Some twoTexts) (demoSlide "The Problem" "" "")) twoTexts);
    [reflexivity | reflexivity | reflexivity | discriminate].
Defined.

(** ** Running composed handlers *)

Section RunLaws.

Context {A B : Type}.
Variable net : nat -> Request -> Response.
Variable env : nat -> State -> State.

Lemma run_bind (t : Task A) (f : A -> Task B) (w : World) :
  run net env (bind t f) w
  = match run net env t w with
    | (w', Returned a) => run net env (f a) w'
    | (w', Thrown msg) => (w', Thrown msg)
    end.
Proof.
  revert w. induction t as [a | msg | u k IH | rq k IH | p k IH]; intros w; simpl; auto.
Qed.

Lemma run_catch (t : Task A) (h : string -> Task A) (w : World) :
  run net env (catch t h) w
  = match run net env t w with
    | (w', Returned a) => (w', Returned a)
    | (w', Thrown msg) => run net env (h msg) w'
    end.
Proof.
  revert w. induction t as [a | msg | u k IH | rq k IH | p k IH]; intros w; simpl; auto.
Qed.

Lemma run_finally (t : Task A) (u : State -> State) (w : World) :
  run net env (finally t u) w
  = match run net env t w with
    | (w', out) => (onUi u w', out)
    end.
Proof.
  revert w. induction t as [a | msg | v k IH | rq k IH | p k IH]; intros w; simpl; auto.
Qed.

End RunLaws.

Section RunFetch.

Variable net : nat -> Request -> Response.
Variable env : nat -> State -> State.

Lemma run_awaitFetch (rq : Request) (w : World) :
  run net env (awaitFetch rq) w
  = (fetched net env rq w,
     match net (issued w) rq with
     | Rejected msg => Thrown msg
     | Resolved ok body => Returned (ok, body)
     end).
Proof.
  unfold awaitFetch, fetched. simpl.
  destruct (net (issued w) rq); simpl; rewrite <- app_assoc; reflexivity.
Qed.

Lemma run_set (u : State -> State) (w : World) :
  run net env (set u) w = (onUi u w, Returned tt).
Proof. reflexivity. Qed.

End RunFetch.

(** ** The analysis call and the feedback cache *)

Section Analysis.

Variable net : nat -> Request -> Response.
Variable env : nat -> State -> State.

(** [updateAIAnalysis] issues one request; the state it leaves depends on
    what the request settles to. *)
Lemma run_updateAIAnalysis (deck : list Slide) (gf : bool) (w : World) :
  run net env (updateAIAnalysis deck gf) w
  = let w1 := fetched net env (analysisRequest deck gf)
                (onUi (setAnalysisLoading true) w) in
    match net (issued w) (analysisRequest deck gf) with
    | Resolved true (Json data) =>
        (onUi (fun st => setAnalysisLoading false (recordAnalysis deck gf data st)) w1,
         Returned data)
    | r =>
        (onUi (fun st => setAnalysisLoading false (recordFailure gf st)) w1,
         Thrown (default "" (analysisFailure r)))
    end.
Proof.
  unfold updateAIAnalysis.
  rewrite run_bind, run_set, run_finally, run_catch, run_bind, run_awaitFetch.
  fold (analysisRequest deck gf).
  change (issued (onUi (setAnalysisLoading true) w)) with (issued w).
  destruct (net (issued w) (analysisRequest deck gf)) as [msg | [|] [data | msg]];
    cbn [analysisFailure default from_option id negb run bind awaitJson
           jsonOrEmpty set];
    unfold recordAnalysis, recordFailure;
    destruct gf; cbn [andb];
    try destruct (Js.truthy (default "" (r_feedback data)));
    reflexivity.
Qed.

Lemma truthy_nonempty (x : string) : x <> "" -> Js.truthy x = true.
Proof. unfold Js.truthy. intros H. now destruct (String.eqb_spec x ""). Qed.

(** C10.  Whatever the analysis request settles to, the loading flag is
    cleared when [updateAIAnalysis] ends.  When the call fails (the
    request is rejected, the status is not ok, or the body is not JSON),
    the metrics are reset to score 0 and three times 'Not analyzed', the
    feedback text is replaced by the failure message if feedback was
    requested, and the error is thrown again to the caller. *)
Theorem analysis_failure_resets (deck : list Slide) (gf : bool) (w : World) :
  let res := run net env (updateAIAnalysis deck gf) w in
  let r := net (issued w) (analysisRequest deck gf) in
  analysisLoading (ui res.1) = false
  /\ (forall msg, analysisFailure r = Some msg ->
        score (metrics (ui res.1)) = 0%Z
        /\ narrative_flow (metrics (ui res.1)) = "Not analyzed"
        /\ visual_design (metrics (ui res.1)) = "Not analyzed"
        /\ data_credibility (metrics (ui res.1)) = "Not analyzed"
        /\ (gf = true ->
             aiFeedback (ui res.1) = "Failed to generate feedback. Please try again.")
        /\ res.2 = Thrown msg)
  /\ (analysisFailure r = None -> exists data, res.2 = Returned data).
Proof.
  cbv zeta. rewrite run_updateAIAnalysis. cbv zeta.
  destruct (net (issued w) (analysisRequest deck gf)) as [m | [|] [data | m]];
    (split; [reflexivity|]); split;
    try discriminate; eauto;
    intros msg [= <-]; unfold recordFailure; destruct gf;
    repeat split; try reflexivity; discriminate.
Qed.


Lemma hasSlidesChanged_false (st : State) :
  generateSlidesHash (slides st) = lastFeedbackSlidesHash st ->
  hasSlidesChanged st = false.
Proof. unfold hasSlidesChanged. intros ->. now rewrite String.eqb_refl. Qed.


End Analysis.


(** ** Suggestions *)

Section Suggestions.

Variable net : nat -> Request -> Response.

Lemma run_fetchAISuggestion env (type : SuggestionType) (slide : Slide) (w : World) :
  run net env (fetchAISuggestion type slide) w
  = (fetched net env (suggestionRequest type slide) w,
     suggestionReply type (net (issued w) (suggestionRequest type slide))).
Proof.
  unfold fetchAISuggestion. rewrite run_bind, run_awaitFetch.
  fold (suggestionRequest type slide).
  destruct (net (issued w) (suggestionRequest type slide)) as [m | [|] [d | m]];
    reflexivity.
Qed.

(** [fetchAISuggestions] for a slide of the deck, by the two replies. *)
Lemma run_fetchAISuggestions env (st : State) (w : World) (idx : Z) (slide : Slide) :
  (0 <= idx < Z.of_nat (length (slides st)))%Z ->
  slides st !! Z.to_nat idx = Some slide ->
  run net env (fetchAISuggestions st idx) w
  = let w1 := fetched net env (suggestionRequest Content slide) w in
    match suggestionReply Content (net (issued w) (suggestionRequest Content slide)) with
    | Thrown msg => (w1, Thrown msg)
    | Returned c =>
        let w2 := fetched net env (suggestionRequest Design slide) w1 in
        match suggestionReply Design
                (net (S (issued w)) (suggestionRequest Design slide)) with
        | Thrown msg => (w2, Thrown msg)
        | Returned d => (onUi (setAiSuggestions [c; d]) w2, Returned tt)
        end
    end.
Proof.
  intros Hr Hs. unfold fetchAISuggestions.
  replace ((0 <=? idx)%Z && (idx <? Z.of_nat (length (slides st)))%Z) with true
    by (symmetry; apply andb_true_intro; split; [apply Z.leb_le | apply Z.ltb_lt]; lia).
  rewrite Hs, run_bind, run_fetchAISuggestion. cbv zeta.
  destruct (suggestionReply Content _) as [c | msg]; [|reflexivity].
  rewrite run_bind, run_fetchAISuggestion.
  change (issued (fetched net env (suggestionRequest Content slide) w))
    with (S (issued w)).
  destruct (suggestionReply Design _) as [d | msg]; reflexivity.
Qed.

(** C6.  In a refresh for a slide of the deck, when the Content call
    succeeds and the Design call fails, the suggestion list is the one
    from before and the error of the Design call is thrown to the caller;
    when the Content call fails, the same holds with its error and the
    Design request is not sent; the list is replaced only when both calls
    succeeded, by the two new suggestions. *)
Theorem refresh_is_all_or_nothing (st : State) (w : World) (idx : Z) (slide : Slide) :
  (0 <= idx < Z.of_nat (length (slides st)))%Z ->
  slides st !! Z.to_nat idx = Some slide ->
  let res := run net quiet (fetchAISuggestions st idx) w in
  let rc := suggestionReply Content (net (issued w) (suggestionRequest Content slide)) in
  let rd := suggestionReply Design (net (S (issued w)) (suggestionRequest Design slide)) in
  (forall c msg, rc = Returned c -> rd = Thrown msg ->
     aiSuggestions (ui res.1) = aiSuggestions (ui w) /\ res.2 = Thrown msg)
  /\ (forall msg, rc = Thrown msg ->
        aiSuggestions (ui res.1) = aiSuggestions (ui w)
        /\ res.2 = Thrown msg
        /\ requestsOf (log res.1) = requestsOf (log w) ++ [suggestionRequest Content slide])
  /\ (forall c d, rc = Returned c -> rd = Returned d ->
        aiSuggestions (ui res.1) = [c; d] /\ res.2 = Returned tt)
  /\ (aiSuggestions (ui res.1) <> aiSuggestions (ui w) ->
        exists c d, rc = Returned c /\ rd = Returned d).
Proof.
  intros Hr Hs. cbv zeta. rewrite (run_fetchAISuggestions _ st w idx slide Hr Hs).
  cbv zeta.
  destruct (suggestionReply Content _) as [c | mc];
    [destruct (suggestionReply Design _) as [d | md]|];
    (split; [|split; [|split]]); intros; simplify_eq/=;
    try done; try congruence; eauto.
  repeat split. unfold requestsOf. rewrite omap_app. reflexivity.
Qed.

(** C7 on the code.  Whatever the backend answers, [fetchAISuggestions]
    never has two requests in flight: the Design request is issued after
    the Content response has arrived.  When both calls succeed the log is
    request, response, request, response, and the list becomes
    [[contentSuggestion; designSuggestion]]. *)
Theorem refresh_requests_are_sequential env (st : State) (idx : Z) :
  let res := run net env (fetchAISuggestions st idx) (startWorld st) in
  (maxInFlight (log res.1) [] <= 1)%nat
  /\ (forall slide c d,
        (0 <= idx < Z.of_nat (length (slides st)))%Z ->
        slides st !! Z.to_nat idx = Some slide ->
        suggestionReply Content (net 0%nat (suggestionRequest Content slide)) = Returned c ->
        suggestionReply Design (net 1%nat (suggestionRequest Design slide)) = Returned d ->
        log res.1
        = [ Issued 0 (suggestionRequest Content slide);
            Settled 0 (net 0%nat (suggestionRequest Content slide));
            Issued 1 (suggestionRequest Design slide);
            Settled 1 (net 1%nat (suggestionRequest Design slide)) ]
        /\ aiSuggestions (ui res.1) = [c; d]).
Proof.
  cbv zeta. split.
  - destruct ((0 <=? idx)%Z && (idx <? Z.of_nat (length (slides st)))%Z) eqn:Hg.
    + apply andb_prop in Hg as [H0 H1]. apply Z.leb_le in H0. apply Z.ltb_lt in H1.
      assert (Hr : (0 <= idx < Z.of_nat (length (slides st)))%Z) by lia.
      destruct (slides st !! Z.to_nat idx) as [slide|] eqn:Hs.
      * rewrite (run_fetchAISuggestions env st _ idx slide Hr Hs). cbv zeta.
        destruct (suggestionReply Content _) as [c | mc];
          [destruct (suggestionReply Design _) as [d | md]|]; simpl;
          repeat (case_decide; simpl); lia.
      * apply lookup_ge_None in Hs. lia.
    + unfold fetchAISuggestions. rewrite Hg. simpl. lia.
  - intros slide c d Hr Hs Hc Hd.
    rewrite (run_fetchAISuggestions env st _ idx slide Hr Hs). cbv zeta.
    change (issued (startWorld st)) with 0%nat.
    rewrite Hc, Hd. split; reflexivity.
Qed.

(** The refresh in the words of the design document has both requests in
    flight at once. *)
Lemma refreshAll_spec_overlaps env (st : State) (idx : Z) (slide : Slide) :
  (0 <= idx < Z.of_nat (length (slides st)))%Z ->
  slides st !! Z.to_nat idx = Some slide ->
  maxInFlight (log (run net env (refreshAll_spec st idx) (startWorld st)).1) []
  = 2%nat.
Proof.
  intros Hr Hs. unfold refreshAll_spec.
  replace ((0 <=? idx)%Z && (idx <? Z.of_nat (length (slides st)))%Z) with true
    by (symmetry; apply andb_true_intro; split; [apply Z.leb_le | apply Z.ltb_lt]; lia).
  rewrite Hs. cbn [run handle request issued log ui startWorld app].
  destruct (suggestionReply Content _) as [c | mc];
    [destruct (suggestionReply Design _) as [d | md]|];
    simpl; repeat (case_decide; simpl); try lia; congruence.
Qed.

End Suggestions.

(** ** Applying a suggestion *)

Section ApplySuggestion.

Variable net : nat -> Request -> Response.

Lemma applySuggestion_content (slide : Slide) (B : string) :
  applySuggestion {| stype := Content; stext := Some B |} slide
  = withContent (content slide +:+ nl +:+ B) slide.
Proof.
  unfold applySuggestion. cbn [stype stext Js.toStr].
  rewrite orStr_some_empty. now destruct (getVisualTypeFromSuggestion B).
Qed.

Lemma applySuggestion_design (slide : Slide) (B : string) :
  getVisualTypeFromSuggestion B = None ->
  applySuggestion {| stype := Design; stext := Some B |} slide
  = withDesign (design slide +:+ nl +:+ B) slide.
Proof.
  intros H. unfold applySuggestion. cbn [stype stext Js.toStr].
  now rewrite H, orStr_some_empty.
Qed.

Lemma applySuggestion_visual (slide : Slide) (type : SuggestionType) (B : string) :
  getVisualTypeFromSuggestion B <> None ->
  applySuggestion {| stype := type; stext := Some B |} slide
  = withContent (content slide +:+ nl +:+ B) slide.
Proof.
  intros H. unfold applySuggestion. cbn [stype stext Js.toStr].
  rewrite orStr_some_empty.
  destruct (getVisualTypeFromSuggestion B); [reflexivity | contradiction].
Qed.

(** The vocabulary of [getVisualTypeFromSuggestion], in any letter case and
    anywhere in the text. *)
Example visual_vocabulary :
  getVisualTypeFromSuggestion "Add a Pie Chart of the cap table" = Some pie
  /\ getVisualTypeFromSuggestion "Show revenue as a bar graph" = Some bar
  /\ getVisualTypeFromSuggestion "A LINE CHART of monthly users" = Some line
  /\ getVisualTypeFromSuggestion "Try a scatterplot of price and churn" = Some scatter
  /\ getVisualTypeFromSuggestion "Put the competitors in a table" = Some table
  /\ getVisualTypeFromSuggestion "Add a compelling statistic" = None.
Proof. vm_compute. repeat split. Qed.

(** The state [handleSuggestionClick] leaves for a selected slide of the
    deck, when no other handler runs meanwhile. *)
Lemma handleSuggestionClick_state (w : World) (sel idx : nat) (slide : Slide)
    (sugg : Suggestion) :
  selectedSlide (ui w) = Some sel ->
  slides (ui w) !! sel = Some slide ->
  let w' := (run net quiet (handleSuggestionClick (ui w) sugg idx) w).1 in
  slides (ui w') = <[sel := applySuggestion sugg slide]> (slides (ui w))
  /\ selectedSlide (ui w') = Some sel
  /\ slidesModified (ui w') = true.
Proof.
  intros Hsel Hs. cbv zeta. unfold handleSuggestionClick. rewrite Hsel, Hs.
  rewrite run_bind, run_set, run_bind, run_set, run_bind, run_fetchAISuggestion.
  destruct (suggestionReply _ _) as [n | msg]; simpl; auto.
Qed.

(** The slot of the clicked suggestion: it holds the replacement once the
    request for it has succeeded, and still holds the clicked suggestion
    while that request is in flight or after it has failed; the other slots
    are as before. *)
Lemma handleSuggestionClick_slot (w : World) (sel idx : nat) (slide : Slide)
    (sugg : Suggestion) :
  selectedSlide (ui w) = Some sel ->
  slides (ui w) !! sel = Some slide ->
  let res := run net quiet (handleSuggestionClick (ui w) sugg idx) w in
  match suggestionReply (stype sugg)
          (net (issued w)
             (suggestionRequest (stype sugg) (applySuggestion sugg slide))) with
  | Returned n =>
      aiSuggestions (ui res.1)
      = imap (fun i s => if Nat.eqb i idx then n else s) (aiSuggestions (ui w))
      /\ res.2 = Returned tt
  | Thrown msg =>
      aiSuggestions (ui res.1) = aiSuggestions (ui w) /\ res.2 = Thrown msg
  end.
Proof.
  intros Hsel Hs. cbv zeta. unfold handleSuggestionClick. rewrite Hsel, Hs.
  rewrite run_bind, run_set, run_bind, run_set, run_bind, run_fetchAISuggestion.
  cbn [issued onUi].
  destruct (suggestionReply _ _) as [n | msg]; simpl; auto.
Qed.

(** C5.  Clicking a Content suggestion with text [B] on the selected
    slide with content [A] leaves content [A + "\n" + B]; clicking the
    same suggestion once more (the slot shows it until its replacement has
    arrived) leaves [A + "\n" + B + "\n" + B]; a Design suggestion whose
    text names no chart or table is appended to the design in the same way,
    and one whose text does is appended to the content. *)
Theorem suggestion_appended_each_time (w : World) (sel idx : nat)
    (slide : Slide) (B : string) :
  selectedSlide (ui w) = Some sel ->
  slides (ui w) !! sel = Some slide ->
  let click := fun sugg w => (run net quiet (handleSuggestionClick (ui w) sugg idx) w).1 in
  let c := {| stype := Content; stext := Some B |} in
  let d := {| stype := Design; stext := Some B |} in
  let A := content slide in
  slides (ui (click c w)) !! sel = Some (withContent (A +:+ nl +:+ B) slide)
  /\ slides (ui (click c (click c w))) !! sel
     = Some (withContent (A +:+ nl +:+ B +:+ nl +:+ B) slide)
  /\ (getVisualTypeFromSuggestion B = None ->
      slides (ui (click d w)) !! sel
      = Some (withDesign (design slide +:+ nl +:+ B) slide))
  /\ (getVisualTypeFromSuggestion B <> None ->
      slides (ui (click d w)) !! sel = Some (withContent (A +:+ nl +:+ B) slide)).
Proof.
  intros Hsel Hs. cbv zeta.
  assert (Hlt : (sel < length (slides (ui w)))%nat) by (eapply lookup_lt_Some; eauto).
  destruct (handleSuggestionClick_state w sel idx slide
              {| stype := Content; stext := Some B |} Hsel Hs) as (H1 & H1s & _).
  assert (Hfirst :
    slides (ui (run net quiet
                  (handleSuggestionClick (ui w) {| stype := Content; stext := Some B |} idx)
                  w).1) !! sel
    = Some (withContent (content slide +:+ nl +:+ B) slide)).
  { rewrite H1, applySuggestion_content. now apply list_lookup_insert_eq. }
  split; [exact Hfirst|]. split; [|split].
  - destruct (handleSuggestionClick_state _ sel idx _
                {| stype := Content; stext := Some B |} H1s Hfirst) as (H2 & _).
    rewrite H2, applySuggestion_content.
    rewrite list_lookup_insert_eq by (rewrite H1, length_insert; exact Hlt).
    cbn [content withContent]. rewrite !cat_assoc. reflexivity.
  - intros Hv.
    destruct (handleSuggestionClick_state w sel idx slide
                {| stype := Design; stext := Some B |} Hsel Hs) as (H3 & _).
    rewrite H3, (applySuggestion_design _ _ Hv). now apply list_lookup_insert_eq.
  - intros Hv.
    destruct (handleSuggestionClick_state w sel idx slide
                {| stype := Design; stext := Some B |} Hsel Hs) as (H3 & _).
    rewrite H3, (applySuggestion_visual _ _ _ Hv). now apply list_lookup_insert_eq.
Qed.

End ApplySuggestion.

(** ** Removing a block in the editor *)

Section RemoveBlock.

Lemma filter_absent {X : Type} (key : X -> string) (rid : string) (l : list X) :
  rid ∉ key <$> l -> filter (fun x => key x <> rid) l = l.
Proof.
  induction l as [|x l IH]; [reflexivity|].
  rewrite fmap_cons, not_elem_of_cons. intros [Hx Hl].
  rewrite filter_cons_True by congruence. now rewrite IH.
Qed.

Lemma filter_twice {X : Type} (key : X -> string) (rid : string) (l : list X) :
  filter (fun x => key x <> rid) (filter (fun x => key x <> rid) l)
  = filter (fun x => key x <> rid) l.
Proof.
  apply filter_absent. intros Hin.
  apply list_elem_of_fmap in Hin as (x & -> & Hx).
  apply list_elem_of_filter in Hx as [Hne _]. now apply Hne.
Qed.

(** C8.  [handleRemoveBlock] is a total function of the editor state (it
    has no error outcome).  With an id that no block has, it leaves the
    block list as it is; the layout list is left as it is when no layout
    item has the id, in particular when every layout item belongs to a
    block; and removing an id twice is removing it once. *)
Theorem remove_absent_block_is_noop (rid : string) (ed : Editor) :
  (rid ∉ blockId <$> eBlocks ed ->
     eBlocks (handleRemoveBlock rid ed) = eBlocks ed)
  /\ (rid ∉ li <$> eLayout ed ->
      eLayout (handleRemoveBlock rid ed) = eLayout ed)
  /\ (rid ∉ blockId <$> eBlocks ed ->
      (forall l, l ∈ eLayout ed -> li l ∈ blockId <$> eBlocks ed) ->
      handleRemoveBlock rid ed = ed)
  /\ handleRemoveBlock rid (handleRemoveBlock rid ed) = handleRemoveBlock rid ed.
Proof.
  split; [|split; [|split]].
  - intros H. now apply filter_absent.
  - intros H. now apply filter_absent.
  - intros Hb Hsync. destruct ed as [bs ls]. unfold handleRemoveBlock. simpl in *.
    f_equal; apply filter_absent; [exact Hb|].
    intros Hin. apply list_elem_of_fmap in Hin as (l & -> & Hl).
    apply Hb. now apply Hsync.
  - unfold handleRemoveBlock. simpl. f_equal; apply filter_twice.
Qed.

End RemoveBlock.

(** ** Media attachment *)

Section Media.

Lemma exclusive_image (url : option string) (s : Slide) :
  exclusiveMedia (withVideoUrl None (withImageUrl url s)).
Proof. unfold exclusiveMedia. simpl. apply andb_false_r. Qed.

Lemma exclusive_video (url : option string) (s : Slide) :
  exclusiveMedia (withImageUrl None (withVideoUrl url s)).
Proof. unfold exclusiveMedia. reflexivity. Qed.

Lemma Forall_insert_in {X : Type} (P : X -> Prop) (l : list X) (i : nat) (x : X) :
  Forall P l -> P x -> Forall P (<[i := x]> l).
Proof.
  intros Hl Hx. apply Forall_forall. intros y Hy.
  apply list_elem_of_lookup in Hy as [j Hj].
  destruct (decide (i = j)) as [->|Hne].
  - destruct (decide (j < length l)%nat) as [Hlt|Hge].
    + rewrite list_lookup_insert_eq in Hj by exact Hlt. now injection Hj as <-.
    + rewrite list_insert_ge in Hj by lia.
      eapply Forall_lookup_1 in Hl; eauto.
  - rewrite list_lookup_insert_ne in Hj by exact Hne.
    eapply Forall_lookup_1 in Hl; eauto.
Qed.

(** One upload keeps a deck of slides with at most one attachment so. *)
Lemma handleFileChange_preserves (files : option (list File)) (st st' : State) :
  handleFileChange files st = Some st' ->
  Forall exclusiveMedia (slides st) ->
  Forall exclusiveMedia (slides st').
Proof.
  unfold handleFileChange. intros H Hex.
  destruct files as [[|file rest]|]; try (injection H as <-; exact Hex).
  destruct (selectedSlide st) as [sel|]; [|injection H as <-; exact Hex].
  destruct (slides st !! sel) as [slide|]; [|discriminate].
  injection H as <-. cbn [slides setSlides].
  destruct (Js.startsWith "image/" (ftype file));
    [|destruct (Js.startsWith "video/" (ftype file))].
  - apply Forall_insert_in; [exact Hex | apply exclusive_image].
  - apply Forall_insert_in; [exact Hex | apply exclusive_video].
  - exact Hex.
Qed.

(** So does every run of uploads. *)
Lemma attachSteps_preserve (st st' : State) :
  attachSteps st st' ->
  Forall exclusiveMedia (slides st) ->
  Forall exclusiveMedia (slides st').
Proof.
  induction 1 as [st | st st1 st2 files Hstep _ IH]; intros Hex.
  - exact Hex.
  - apply IH. eapply handleFileChange_preserves; eauto.
Qed.

(** The slides "AI Generate" builds carry no attachment. *)
Lemma generatedSlides_exclusive (contents : list string) :
  Forall exclusiveMedia (generatedSlides contents).
Proof.
  unfold generatedSlides. apply Forall_forall. intros s Hs.
  apply list_elem_of_lookup in Hs as [i Hi].
  rewrite list_lookup_imap in Hi.
  destruct (contents !! i); [|discriminate].
  injection Hi as <-. reflexivity.
Qed.

(** C9.  For a selected slide of the deck, attaching an image file stores
    its URL in [imageUrl] and clears [videoUrl]; attaching a video file
    stores its URL in [videoUrl] and clears [imageUrl]; either way the
    slide has at most one attachment afterwards, and from a deck in which
    every slide has at most one attachment, every deck reached by further
    uploads, whatever the files, is such a deck. *)
Theorem media_attachments_exclusive (file : File) (rest : list File) (st : State)
    (sel : nat) (slide : Slide) :
  selectedSlide st = Some sel ->
  slides st !! sel = Some slide ->
  exists st',
    handleFileChange (Some (file :: rest)) st = Some st'
    /\ (Js.startsWith "image/" (ftype file) = true ->
        exists s', slides st' !! sel = Some s'
          /\ imageUrl s' = Some (objectUrl file) /\ videoUrl s' = None
          /\ exclusiveMedia s')
    /\ (Js.startsWith "image/" (ftype file) = false ->
        Js.startsWith "video/" (ftype file) = true ->
        exists s', slides st' !! sel = Some s'
          /\ videoUrl s' = Some (objectUrl file) /\ imageUrl s' = None
          /\ exclusiveMedia s')
    /\ (Forall exclusiveMedia (slides st) ->
        forall st'', attachSteps st' st'' -> Forall exclusiveMedia (slides st'')).
Proof.
  intros Hsel Hs.
  assert (Hlt : (sel < length (slides st))%nat) by (eapply lookup_lt_Some; eauto).
  destruct (handleFileChange (Some (file :: rest)) st) as [st'|] eqn:Hrun;
    [|unfold handleFileChange in Hrun; rewrite Hsel, Hs in Hrun; discriminate].
  exists st'. split; [reflexivity|].
  split; [|split].
  - intros Hi. unfold handleFileChange in Hrun. rewrite Hsel, Hs, Hi in Hrun.
    injection Hrun as <-. cbn [slides setSlides].
    eexists. split; [now apply list_lookup_insert_eq|].
    split; [reflexivity|]. split; [reflexivity|]. apply exclusive_image.
  - intros Hi Hv. unfold handleFileChange in Hrun. rewrite Hsel, Hs, Hi, Hv in Hrun.
    injection Hrun as <-. cbn [slides setSlides].
    eexists. split; [now apply list_lookup_insert_eq|].
    split; [reflexivity|]. split; [reflexivity|]. apply exclusive_video.
  - intros Hex st'' Hsteps. eapply attachSteps_preserve; [exact Hsteps|].
    eapply handleFileChange_preserves; eauto.
Qed.

(** Without a file or without a selected slide nothing changes. *)
Lemma handleFileChange_idle (files : option (list File)) (st : State) :
  files = None \/ files = Some [] \/ selectedSlide st = None ->
  handleFileChange files st = Some st.
Proof.
  unfold handleFileChange.
  intros [-> | [-> | H]]; [reflexivity | reflexivity |].
  rewrite H. destruct files as [[|f fs]|]; reflexivity.
Qed.

End Media.

(** ** The statements at sample inputs *)


Lemma analysis_failure_resets_witness :
  let res := run failNet quiet (updateAIAnalysis demoDeck true)
               (startWorld analysedState) in
  analysisLoading (ui res.1) = false
  /\ score (metrics (ui res.1)) = 0%Z
  /\ aiFeedback (ui res.1) = "Failed to generate feedback. Please try again."
  /\ res.2 = Thrown "Failed to fetch".
Proof.
  cbv zeta.
  destruct (analysis_failure_resets failNet quiet demoDeck true
              (startWorld analysedState)) as (Hl & Hf & _).
  destruct (Hf "Failed to fetch" eq_refl) as (H1 & _ & _ & _ & H5 & H6).
  split; [exact Hl | split; [exact H1 | split; [exact (H5 eq_refl) | exact H6]]].
Defined.

Lemma suggestion_appended_each_time_witness :
  let click := fun sugg w =>
    (run okNet quiet (handleSuggestionClick (ui w) sugg 0) w).1 in
  let c := {| stype := Content; stext := Some "Add a metric" |} in
  slides (ui (click c (click c (startWorld suggestingState)))) !! 1%nat
  = Some (withContent
            ("Smart inventory" +:+ nl +:+ "Add a metric" +:+ nl +:+ "Add a metric")
            (demoSlide "Our Solution" "Smart inventory" "blue background")).
Proof.
  exact (proj1 (proj2 (suggestion_appended_each_time okNet
                         (startWorld suggestingState) 1 0
                         (demoSlide "Our Solution" "Smart inventory" "blue background")
                         "Add a metric" eq_refl eq_refl))).
Defined.

Lemma refresh_is_all_or_nothing_witness :
  let res := run secondFails quiet (fetchAISuggestions suggestingState 1)
               (startWorld suggestingState) in
  aiSuggestions (ui res.1) = aiSuggestions suggestingState
  /\ res.2 = Thrown "Failed to fetch suggestion".
Proof.
  cbv zeta.
  assert (Hr : (0 <= 1 < Z.of_nat (length (slides suggestingState)))%Z)
    by (simpl; lia).
  destruct (refresh_is_all_or_nothing secondFails suggestingState
              (startWorld suggestingState) 1
              (demoSlide "Our Solution" "Smart inventory" "blue background")
              Hr eq_refl) as (H & _).
  exact (H _ _ eq_refl eq_refl).
Defined.

Lemma remove_absent_block_is_noop_witness :
  handleRemoveBlock "text-gone" sampleEditor = sampleEditor.
Proof.
  destruct (remove_absent_block_is_noop "text-gone" sampleEditor) as (_ & _ & H & _).
  apply H.
  - change (blockId <$> eBlocks sampleEditor)
      with ["text-a"; "visual-0"; "text-b"].
    rewrite !not_elem_of_cons. repeat split; try discriminate.
    apply not_elem_of_nil.
  - apply Forall_forall.
    change (blockId <$> eBlocks sampleEditor)
      with ["text-a"; "visual-0"; "text-b"].
    unfold sampleEditor, openEditor, getDefaultLayout, twoTexts. simpl.
    repeat constructor.
Defined.

Lemma media_attachments_exclusive_witness :
  exists st',
    handleFileChange (Some [pngFile]) suggestingState = Some st'
    /\ (imageUrl <$> slides st' !! 1%nat) = Some (Some "blob:1")
    /\ (videoUrl <$> slides st' !! 1%nat) = Some None
    /\ Forall exclusiveMedia (slides st').
Proof.
  destruct (media_attachments_exclusive pngFile [] suggestingState 1
              (demoSlide "Our Solution" "Smart inventory" "blue background")
              eq_refl eq_refl) as (st' & H0 & H1 & _ & H3).
  exists st'. destruct (H1 eq_refl) as (s' & Hs & Hi & Hv & _).
  split; [exact H0|]. split; [|split].
  - rewrite Hs. simpl. now rewrite Hi.
  - rewrite Hs. simpl. now rewrite Hv.
  - apply H3; [repeat constructor | apply attach_none].
Defined.

(** * Further properties of the code *)

(** ** The block editor *)

Section EditorFacts.

Lemma fmap_imap_keep {X Y : Type} (key : X -> Y) (g : nat -> X -> X) (l : list X) :
  (forall i x, key (g i x) = key x) ->
  key <$> imap g l = key <$> l.
Proof.
  intros Hg. apply list_eq. intros i.
  rewrite !list_lookup_fmap, list_lookup_imap.
  destruct (l !! i) as [x|]; simpl; [now rewrite Hg | reflexivity].
Qed.

Lemma omap_imap_keep {X Y : Type} (key : X -> option Y) (g : nat -> X -> X)
    (l : list X) :
  (forall i x, key (g i x) = key x) ->
  omap key (imap g l) = omap key l.
Proof.
  intros Hg. revert g Hg. induction l as [|x l IH]; intros g Hg; [reflexivity|].
  simpl. rewrite Hg.
  destruct (key x); [f_equal|]; apply IH; intros; apply Hg.
Qed.

Lemma fmap_filter_key {X : Type} (key : X -> string) (rid : string) (l : list X) :
  key <$> filter (fun x => key x <> rid) l = filter (fun k => k <> rid) (key <$> l).
Proof.
  induction l as [|x l IH]; [reflexivity|].
  rewrite fmap_cons. destruct (decide (key x = rid)) as [E|E].
  - rewrite !filter_cons_False by (intros H; now apply H). exact IH.
  - rewrite !filter_cons_True by exact E. rewrite fmap_cons. now rewrite IH.
Qed.

Lemma defaultLayout_lookup (bs : list SlideBlock) (i : nat) (a : LayoutItem) :
  getDefaultLayout bs !! i = Some a ->
  exists b, bs !! i = Some b
    /\ a = {| li := blockId b;
              lx := (Z.of_nat i mod 2) * 6;
              ly := Row ((Z.of_nat i / 2) * 4);
              lw := 6; lh := 4; minW := 3; minH := 2 |}.
Proof.
  unfold getDefaultLayout. rewrite list_lookup_imap.
  destruct (bs !! i) as [b|]; [|discriminate].
  simpl. intros [= <-]. eauto.
Qed.

(** X1.  The default layout has one item per block, in block order and
    under the block's id; every item lies within the twelve columns of the
    grid, in one of two columns; and the items of two different blocks
    cover no common cell. *)
Theorem default_layout_is_a_grid (bs : list SlideBlock) :
  li <$> getDefaultLayout bs = blockId <$> bs
  /\ (forall i a, getDefaultLayout bs !! i = Some a ->
        (lx a = 0 \/ lx a = 6)%Z /\ (lx a + lw a <= 12)%Z
        /\ exists r, ly a = Row r /\ (0 <= r)%Z)
  /\ (forall i j a b,
        i <> j ->
        getDefaultLayout bs !! i = Some a ->
        getDefaultLayout bs !! j = Some b ->
        cellsDisjoint a b).
Proof.
  split; [|split].
  - unfold getDefaultLayout. apply list_eq. intros i.
    rewrite !list_lookup_fmap, list_lookup_imap.
    now destruct (bs !! i).
  - intros i a Ha. apply defaultLayout_lookup in Ha as (b & _ & ->). simpl.
    pose proof (Z.mod_pos_bound (Z.of_nat i) 2 ltac:(lia)).
    pose proof (Z.div_pos (Z.of_nat i) 2 ltac:(lia) ltac:(lia)).
    repeat split; [lia | lia | eexists; split; [reflexivity | lia]].
  - intros i j a b Hij Ha Hb.
    apply defaultLayout_lookup in Ha as (x & _ & ->).
    apply defaultLayout_lookup in Hb as (y & _ & ->).
    unfold cellsDisjoint. simpl.
    assert (Z.of_nat i <> Z.of_nat j) by lia.
    pose proof (Z.div_mod (Z.of_nat i) 2 ltac:(lia)).
    pose proof (Z.div_mod (Z.of_nat j) 2 ltac:(lia)).
    pose proof (Z.mod_pos_bound (Z.of_nat i) 2 ltac:(lia)).
    pose proof (Z.mod_pos_bound (Z.of_nat j) 2 ltac:(lia)).
    lia.
Qed.

Lemma inSync_open (bs : option (list SlideBlock)) : inSync (openEditor bs).
Proof.
  unfold inSync, openEditor. simpl.
  unfold getDefaultLayout. apply list_eq. intros i.
  rewrite !list_lookup_fmap, list_lookup_imap.
  now destruct (default [] bs !! i).
Qed.

Lemma inSync_step (ed : Editor) (op : EditorOp) :
  inSync ed -> inSync (applyOp ed op).
Proof.
  unfold inSync. intros H.
  destruct op as [fresh | fresh | rid | idx c | idx d | idx t | c]; simpl.
  - rewrite !fmap_app, H. reflexivity.
  - rewrite !fmap_app, H. reflexivity.
  - rewrite (fmap_filter_key li), (fmap_filter_key blockId), H. reflexivity.
  - rewrite H. symmetry. apply fmap_imap_keep.
    intros i [base t e | base v]; simpl; [destruct (Nat.eqb i idx)|]; reflexivity.
  - rewrite H. symmetry. apply fmap_imap_keep.
    intros i [base t e | base v]; simpl; [|destruct (Nat.eqb i idx)]; reflexivity.
  - rewrite H. symmetry. apply fmap_imap_keep.
    intros i [base t0 e | base v]; simpl; [|destruct (Nat.eqb i idx)]; reflexivity.
  - rewrite H, <- list_fmap_compose. apply list_fmap_ext.
    intros i [base t e | base v] _; reflexivity.
Qed.

(** X2.  Whatever sequence of manual actions (add text, add visual, remove,
    edit text, edit chart data, change chart type) and generated-text
    updates is applied to a freshly opened editor, every block keeps its
    layout item: the ids of the layout list are the ids of the block list,
    in the same order.  The generated visual of "Add Data Visualization"
    breaks this: it comes without a layout item.  (The layout the grid
    library reports through [onLayoutChange] is not among these writes.) *)
Theorem editor_layout_follows_blocks (bs : option (list SlideBlock))
    (ops : list EditorOp) (stamp : nat) (data : JsVal) :
  let ed := fold_left applyOp ops (openEditor bs) in
  inSync ed
  /\ length (eLayout (appendGeneratedVisual stamp data ed))
     = length (eBlocks ed)
  /\ length (eBlocks (appendGeneratedVisual stamp data ed))
     = S (length (eBlocks ed))
  /\ ~ inSync (appendGeneratedVisual stamp data ed).
Proof.
  cbv zeta.
  assert (Hs : inSync (fold_left applyOp ops (openEditor bs))).
  { generalize (inSync_open bs). generalize (openEditor bs).
    induction ops as [|op ops IH]; intros ed H; [exact H|].
    simpl. apply IH. now apply inSync_step. }
  split; [exact Hs|].
  assert (Hl : length (eLayout (fold_left applyOp ops (openEditor bs)))
               = length (eBlocks (fold_left applyOp ops (openEditor bs)))).
  { unfold inSync in Hs. apply (f_equal length) in Hs.
    now rewrite !length_fmap in Hs. }
  split; [exact Hl|]. split.
  - simpl. rewrite length_app. simpl. lia.
  - unfold inSync. intros H. apply (f_equal length) in H.
    rewrite !length_fmap in H. simpl in H. rewrite length_app in H. simpl in H.
    lia.
Qed.

(** X3.  Adding a block and removing it again gives back the editor state,
    when the new id is not already the id of a block (and the layout
    follows the blocks): this holds for a text block and for a visual
    block. *)
Theorem add_then_remove_restores (fresh : string) (ed : Editor) :
  inSync ed ->
  ("text-" +:+ fresh) ∉ blockId <$> eBlocks ed ->
  ("visual-" +:+ fresh) ∉ blockId <$> eBlocks ed ->
  handleRemoveBlock ("text-" +:+ fresh) (handleAddText fresh ed) = ed
  /\ handleRemoveBlock ("visual-" +:+ fresh) (handleAddVisual fresh ed) = ed.
Proof.
  intros Hs Ht Hv. destruct ed as [bs ls]. unfold inSync in Hs. simpl in *.
  unfold handleRemoveBlock, handleAddText, handleAddVisual. simpl.
  split; f_equal; rewrite filter_app, filter_cons_False, filter_nil, app_nil_r
    by (simpl; intros H; now apply H);
    apply filter_absent; rewrite ?Hs; assumption.
Qed.

(** X4.  [handleTextChange] touches the text of one block only: ids, order,
    layout and chart payloads are as before; on the index of a visual block
    or past the end it changes nothing; a later edit of the same block
    overrides an earlier one, and typing the old text back restores the
    editor state. *)
Theorem text_change_is_local (idx : nat) (c c' : string) (ed : Editor) :
  blockId <$> eBlocks (handleTextChange idx c ed) = blockId <$> eBlocks ed
  /\ omap visualOf (eBlocks (handleTextChange idx c ed)) = omap visualOf (eBlocks ed)
  /\ eLayout (handleTextChange idx c ed) = eLayout ed
  /\ ((forall base t e, eBlocks ed !! idx <> Some (TextBlock base t e)) ->
      handleTextChange idx c ed = ed)
  /\ handleTextChange idx c' (handleTextChange idx c ed) = handleTextChange idx c' ed
  /\ (forall base t e, eBlocks ed !! idx = Some (TextBlock base t e) ->
        eBlocks (handleTextChange idx c ed) !! idx = Some (TextBlock base c e)
        /\ handleTextChange idx t (handleTextChange idx c ed) = ed).
Proof.
  destruct ed as [bs ls]. unfold handleTextChange. simpl.
  assert (Hlk : forall (v : string) (l : list SlideBlock) j,
             imap (fun i block =>
                     match block with
                     | TextBlock base _ editable =>
                         if Nat.eqb i idx then TextBlock base v editable else block
                     | VisualBlockContainer _ _ => block
                     end) l !! j
             = (fun block =>
                  match block with
                  | TextBlock base _ editable =>
                      if Nat.eqb j idx then TextBlock base v editable else block
                  | VisualBlockContainer _ _ => block
                  end) <$> l !! j).
  { intros v l j. now rewrite list_lookup_imap. }
  split; [|split; [|split; [|split; [|split]]]].
  - apply fmap_imap_keep.
    intros i [base t e | base v]; simpl; [destruct (Nat.eqb i idx)|]; reflexivity.
  - apply omap_imap_keep.
    intros i [base t e | base v]; simpl; [destruct (Nat.eqb i idx)|]; reflexivity.
  - reflexivity.
  - intros Hno. f_equal. apply list_eq. intros j. rewrite Hlk.
    destruct (bs !! j) as [[base t e | base v]|] eqn:Hj; simpl; try reflexivity.
    destruct (Nat.eqb_spec j idx) as [->|]; [|reflexivity].
    exfalso. eapply Hno. exact Hj.
  - f_equal. apply list_eq. intros j. rewrite !Hlk.
    destruct (bs !! j) as [[base t e | base v]|]; simpl; try reflexivity.
    destruct (Nat.eqb j idx); reflexivity.
  - intros base t e Hi. split.
    + rewrite Hlk, Hi. simpl. now rewrite Nat.eqb_refl.
    + f_equal. apply list_eq. intros j. rewrite !Hlk.
      destruct (bs !! j) as [[base' t' e' | base' v]|] eqn:Hj; simpl; try reflexivity.
      destruct (Nat.eqb_spec j idx) as [->|]; [|reflexivity].
      rewrite Hi in Hj. now injection Hj as <- <- <-.
Qed.

Lemma imap_chart_lookup (g : VisualBlock -> VisualBlock) (idx j : nat)
    (l : list SlideBlock) :
  imap (fun i block =>
          match block with
          | VisualBlockContainer base visual =>
              if Nat.eqb i idx then VisualBlockContainer base (g visual) else block
          | TextBlock _ _ _ => block
          end) l !! j
  = (fun block =>
       match block with
       | VisualBlockContainer base visual =>
           if Nat.eqb j idx then VisualBlockContainer base (g visual) else block
       | TextBlock _ _ _ => block
       end) <$> l !! j.
Proof. now rewrite list_lookup_imap. Qed.

(** X5.  Changing the type of a chart keeps its data and its rendering
    hints, changing its data keeps its type; neither changes a text, an id
    or the layout; and the two edits can be made in either order, on the
    same block or on different ones, with the same result. *)
Theorem chart_edits_commute (i j : nat) (t : VisualType) (d : JsVal) (ed : Editor) :
  handleVisualTypeChange i t (handleVisualDataChange j d ed)
  = handleVisualDataChange j d (handleVisualTypeChange i t ed)
  /\ omap textOf (eBlocks (handleVisualTypeChange i t ed)) = omap textOf (eBlocks ed)
  /\ omap textOf (eBlocks (handleVisualDataChange j d ed)) = omap textOf (eBlocks ed)
  /\ blockId <$> eBlocks (handleVisualTypeChange i t ed) = blockId <$> eBlocks ed
  /\ blockId <$> eBlocks (handleVisualDataChange j d ed) = blockId <$> eBlocks ed
  /\ (forall base v, eBlocks ed !! i = Some (VisualBlockContainer base v) ->
        eBlocks (handleVisualTypeChange i t ed) !! i
        = Some (VisualBlockContainer base
                  {| vtype := t; vdata := vdata v; vconfig := vconfig v |}))
  /\ (forall base v, eBlocks ed !! j = Some (VisualBlockContainer base v) ->
        eBlocks (handleVisualDataChange j d ed) !! j
        = Some (VisualBlockContainer base
                  {| vtype := vtype v; vdata := d; vconfig := vconfig v |})).
Proof.
  destruct ed as [bs ls]. unfold handleVisualTypeChange, handleVisualDataChange.
  simpl. split; [|split; [|split; [|split; [|split; [|split]]]]].
  - f_equal. apply list_eq. intros k.
    rewrite !(imap_chart_lookup (withType t)), !(imap_chart_lookup (withData d)),
      !(imap_chart_lookup (withType t)).
    destruct (bs !! k) as [[base x e | base v]|]; simpl; try reflexivity.
    destruct (Nat.eqb k i), (Nat.eqb k j); reflexivity.
  - apply omap_imap_keep.
    intros k [base x e | base v]; simpl; [|destruct (Nat.eqb k i)]; reflexivity.
  - apply omap_imap_keep.
    intros k [base x e | base v]; simpl; [|destruct (Nat.eqb k j)]; reflexivity.
  - apply fmap_imap_keep.
    intros k [base x e | base v]; simpl; [|destruct (Nat.eqb k i)]; reflexivity.
  - apply fmap_imap_keep.
    intros k [base x e | base v]; simpl; [|destruct (Nat.eqb k j)]; reflexivity.
  - intros base v Hi. rewrite (imap_chart_lookup (withType t)), Hi. simpl.
    now rewrite Nat.eqb_refl.
  - intros base v Hj. rewrite (imap_chart_lookup (withData d)), Hj. simpl.
    now rewrite Nat.eqb_refl.
Qed.

Lemma generatedText_texts (c : string) (bs : list SlideBlock) :
  omap textOf
    (map (fun b =>
            match b with
            | TextBlock base _ editable => TextBlock base c editable
            | VisualBlockContainer _ _ => b
            end) bs)
  = replicate (length (omap textOf bs)) c.
Proof.
  induction bs as [|[base t e | base v] bs IH]; simpl; [reflexivity | | exact IH].
  f_equal. exact IH.
Qed.

Lemma stripParagraph_wrapper_kept (inner : string) :
  Js.includes "<p>" inner || Js.includes "</p>" inner = true ->
  stripParagraph ("<p>" +:+ inner +:+ "</p>") = "<p>" +:+ inner +:+ "</p>".
Proof. intros H. now rewrite stripParagraph_wrapper, H. Qed.

Lemma stripParagraph_clean (inner : string) :
  Js.includes "<p>" inner = false -> stripParagraph inner = inner.
Proof.
  intros Hc. apply stripParagraph_other. intros x ->.
  exfalso. revert Hc.
  change ("<p>" +:+ x +:+ "</p>") with (String "<" (String "p" (String ">" (x +:+ "</p>")))).
  simpl. now rewrite prefix_empty.
Qed.

(** X6.  The paragraph normalization, which the text editor applies to
    every update and the save handler to every text block, is idempotent:
    a text that went through it once is left as it is by a second pass. *)
Theorem stripParagraph_idempotent (html : string) :
  stripParagraph (stripParagraph html) = stripParagraph html.
Proof.
  destruct (Js.startsWith "<p>" html && Js.endsWith "</p>" html) eqn:Hw.
  - apply andb_prop in Hw as [Hs He].
    destruct (wrapper_shape html Hs He) as [inner ->].
    rewrite stripParagraph_wrapper.
    destruct (Js.includes "<p>" inner) eqn:H1; simpl.
    + apply stripParagraph_wrapper_kept. now rewrite H1.
    + destruct (Js.includes "</p>" inner) eqn:H2.
      * apply stripParagraph_wrapper_kept. now rewrite H1, H2.
      * now apply stripParagraph_clean.
  - unfold stripParagraph at 2. rewrite Hw. unfold stripParagraph. now rewrite Hw.
Qed.

End EditorFacts.

(** ** The block editor seen from the page *)

Section EditorRoundTrip.

Lemma omap_textOf_visuals (f : nat -> BaseBlock) (vs : list VisualBlock) :
  omap textOf (imap (fun i v => VisualBlockContainer (f i) v) vs) = [].
Proof.
  revert f. induction vs as [|v vs IH]; intros f; [reflexivity|].
  simpl. apply (IH (f ∘ S)).
Qed.

Lemma omap_visualOf_visuals (f : nat -> BaseBlock) (vs : list VisualBlock) :
  omap visualOf (imap (fun i v => VisualBlockContainer (f i) v) vs) = vs.
Proof.
  revert f. induction vs as [|v vs IH]; intros f; [reflexivity|].
  simpl. f_equal. apply (IH (f ∘ S)).
Qed.

Lemma default_some {X : Type} (d x : X) : default d (Some x) = x.
Proof. reflexivity. Qed.

Lemma orStr_self (t : string) : Js.orStr (Some t) t = t.
Proof. unfold Js.orStr. now destruct (String.eqb t ""). Qed.

Lemma truthy_false (x : string) : Js.truthy x = false -> x = "".
Proof. unfold Js.truthy. now destruct (String.eqb_spec x ""). Qed.

(** The texts and the payloads of the blocks the page hands to the editor. *)
Lemma editorSlide_blocks (r1 r2 : string) (old : Slide) :
  exists bs,
    blocks (editorSlide r1 r2 old) = Some bs
    /\ omap textOf bs
       = title old :: (if Js.truthy (content old) then [content old] else [])
    /\ omap visualOf bs = default [] (visuals old).
Proof.
  unfold editorSlide. eexists. split; [reflexivity|].
  rewrite !omap_app, omap_textOf_visuals, omap_visualOf_visuals.
  destruct (Js.truthy (content old)); split; reflexivity.
Qed.

Lemma block_editor_blocks_stored (r1 r2 : string) (old : Slide) :
  exists bs,
    blocks (storeEditedSlide old
              (editorSave (editorSlide r1 r2 old)
                 (openEditor (blocks (editorSlide r1 r2 old)))
                 (initialTheme (editorSlide r1 r2 old)))) = Some bs
    /\ omap textOf bs
       = title old :: (if Js.truthy (content old) then [content old] else []).
Proof.
  destruct (editorSlide_blocks r1 r2 old) as (bs & Hb & Ht & _).
  exists bs. split; [|exact Ht].
  unfold storeEditedSlide, editorSave, openEditor. rewrite Hb. reflexivity.
Qed.

Lemma block_editor_title_stored (r1 r2 : string) (old : Slide) :
  title (storeEditedSlide old
           (editorSave (editorSlide r1 r2 old)
              (openEditor (blocks (editorSlide r1 r2 old)))
              (initialTheme (editorSlide r1 r2 old)))) = title old.
Proof.
  destruct (editorSlide_blocks r1 r2 old) as (bs & Hb & Ht & _).
  unfold storeEditedSlide, editorSave, openEditor. rewrite Hb.
  cbn [title blocks withTheme withBlocks eBlocks].
  rewrite !default_some.
  rewrite Ht. simpl. apply orStr_self.
Qed.


(** X8.  The generated text of the AI text actions of the editor goes into
    every text block, the one that holds the title included, and into no
    other field: ids, order, charts and layout are kept, and applying the
    same text twice is applying it once.  Saving after a non-empty
    generated text therefore stores it as the slide's title, and as its
    content if the slide had content. *)
Theorem generated_text_overwrites_title (r1 r2 c th : string) (old : Slide)
    (ed : Editor) :
  c <> "" ->
  blockId <$> eBlocks (applyGeneratedText c ed) = blockId <$> eBlocks ed
  /\ omap visualOf (eBlocks (applyGeneratedText c ed)) = omap visualOf (eBlocks ed)
  /\ omap textOf (eBlocks (applyGeneratedText c ed))
     = replicate (length (omap textOf (eBlocks ed))) c
  /\ applyGeneratedText c (applyGeneratedText c ed) = applyGeneratedText c ed
  /\ (let shown := editorSlide r1 r2 old in
      let saved :=
        storeEditedSlide old
          (editorSave shown (applyGeneratedText c (openEditor (blocks shown))) th) in
      title saved = c
      /\ content saved = (if Js.truthy (content old) then c else "")
      /\ visuals saved = Some (default [] (visuals old))).
Proof.
  intros Hc. split; [|split; [|split; [|split]]].
  - unfold applyGeneratedText. simpl. rewrite <- list_fmap_compose.
    apply list_fmap_ext. intros i [base t e | base v] _; reflexivity.
  - unfold applyGeneratedText. simpl.
    induction (eBlocks ed) as [|[base t e | base v] bs IH]; simpl;
      [reflexivity | exact IH | f_equal; exact IH].
  - apply generatedText_texts.
  - unfold applyGeneratedText. simpl. f_equal. rewrite <- list_fmap_compose.
    apply list_fmap_ext. intros i [base t e | base v] _; reflexivity.
  - cbv zeta.
    destruct (editorSlide_blocks r1 r2 old) as (bs & Hb & Ht & Hv).
    unfold storeEditedSlide, editorSave, openEditor. rewrite Hb.
    cbn [title content visuals blocks withTheme withBlocks eBlocks
           applyGeneratedText].
    rewrite !default_some.
    rewrite generatedText_texts, Ht.
    assert (Hvis : omap visualOf
              (map (fun b =>
                      match b with
                      | TextBlock base _ editable => TextBlock base c editable
                      | VisualBlockContainer _ _ => b
                      end) bs) = omap visualOf bs).
    { clear. induction bs as [|[base t e | base v] bs IH]; simpl;
        [reflexivity | exact IH | f_equal; exact IH]. }
    rewrite Hvis, Hv.
    destruct (Js.truthy (content old)); simpl; unfold Js.orStr;
      destruct (String.eqb_spec c ""); try contradiction;
      (split; [reflexivity|]); split; reflexivity.
Qed.

(** X9.  After the block editor has stored a slide, "Save Changes" of the
    edit modal rebuilds the content from all its text blocks, the title
    block included: the content becomes the title and the former content,
    joined by a line feed and trimmed. *)
Theorem title_enters_content_after_editor (r1 r2 : string) (old : Slide) :
  let shown := editorSlide r1 r2 old in
  let stored :=
    storeEditedSlide old
      (editorSave shown (openEditor (blocks shown)) (initialTheme shown)) in
  content (materializeOnSave stored)
  = Js.trim (Js.join nl
               (map stripParagraph
                  (title old :: (if Js.truthy (content old) then [content old] else []))))
  /\ title (materializeOnSave stored) = title old.
Proof.
  cbv zeta.
  destruct (block_editor_blocks_stored r1 r2 old) as (bs & Hb & Ht).
  rewrite (materializeOnSave_blocks _ bs Hb).
  cbn [content title withVisuals withContent]. rewrite Ht. split; [reflexivity|].
  apply block_editor_title_stored.
Qed.

End EditorRoundTrip.

(** ** Saving from the edit modal *)

Section SaveFacts.

Variable net : nat -> Request -> Response.

(** Everything "Save Changes" does for a selected slide of the deck. *)
Lemma run_handleSaveChanges (st : State) (w : World) (sel : nat) (slide : Slide) :
  selectedSlide st = Some sel ->
  slides st !! sel = Some slide ->
  let deck := <[sel := materializeOnSave slide]> (slides st) in
  run net quiet (handleSaveChanges st) w
  = ({| ui := setShowEditModal false (setSlidesModified true (setSlides deck (ui w)));
        issued := S (issued w);
        log := log w ++ [Issued (issued w) (SaveSlides "demo" deck);
                         Settled (issued w) (net (issued w) (SaveSlides "demo" deck))] |},
     match net (issued w) (SaveSlides "demo" deck) with
     | Rejected msg => Thrown msg
     | Resolved _ _ => Returned tt
     end).
Proof.
  intros Hsel Hs. cbv zeta. unfold handleSaveChanges. rewrite Hsel, Hs.
  rewrite run_bind, run_set, run_bind, run_set, run_bind, run_set, run_bind,
    run_awaitFetch.
  unfold fetched, quiet. cbn [onUi ui issued log].
  destruct (net (issued w) _) as [msg | ok body]; reflexivity.
Qed.

Lemma materializeOnSave_idem (slide : Slide) :
  materializeOnSave (materializeOnSave slide) = materializeOnSave slide.
Proof.
  destruct (blocks slide) as [bs|] eqn:Hb.
  - rewrite (materializeOnSave_blocks slide bs Hb).
    rewrite (materializeOnSave_blocks _ bs) by exact Hb. reflexivity.
  - rewrite (materializeOnSave_no_blocks slide Hb).
    rewrite materializeOnSave_no_blocks by exact Hb. reflexivity.
Qed.

Lemma materializeOnSave_typed (slide : Slide) (bs : list SlideBlock) (v : string) :
  blocks slide = Some bs ->
  materializeOnSave (withContent v slide) = materializeOnSave slide.
Proof.
  intros Hb. rewrite (materializeOnSave_blocks slide bs Hb).
  rewrite (materializeOnSave_blocks _ bs) by exact Hb. reflexivity.
Qed.

(** X10.  "Save Changes" is optimistic and never looks at the status of the
    response: for a selected slide of the deck the new deck, the modified
    flag and the closed modal are in the state before the request is sent,
    whatever the backend answers; a rejected request is thrown to the
    caller, every response (also one that is not ok) makes the handler
    return.  Without a selected slide nothing happens, and with a selection
    past the end of the deck the handler throws before it changes the
    state or sends anything. *)
Theorem save_is_optimistic (st : State) (w : World) :
  (selectedSlide st = None ->
     run net quiet (handleSaveChanges st) w = (w, Returned tt))
  /\ (forall sel, selectedSlide st = Some sel -> slides st !! sel = None ->
        exists msg, run net quiet (handleSaveChanges st) w = (w, Thrown msg))
  /\ (forall sel slide,
        selectedSlide st = Some sel -> slides st !! sel = Some slide ->
        let deck := <[sel := materializeOnSave slide]> (slides st) in
        let res := run net quiet (handleSaveChanges st) w in
        slides (ui res.1) = deck
        /\ slidesModified (ui res.1) = true
        /\ showEditModal (ui res.1) = false
        /\ requestsOf (log res.1) = requestsOf (log w) ++ [SaveSlides "demo" deck]
        /\ res.2 = match net (issued w) (SaveSlides "demo" deck) with
                   | Rejected msg => Thrown msg
                   | Resolved _ _ => Returned tt
                   end).
Proof.
  split; [|split].
  - intros H. unfold handleSaveChanges. now rewrite H.
  - intros sel H Hs. unfold handleSaveChanges. rewrite H, Hs. eexists. reflexivity.
  - intros sel slide Hsel Hs. cbv zeta.
    rewrite (run_handleSaveChanges st w sel slide Hsel Hs). cbn [fst snd ui log].
    repeat split. unfold requestsOf. now rewrite omap_app.
Qed.

(** X11.  Clicking "Save Changes" a second time changes nothing: the deck
    after two saves is the deck after one, and the second request carries
    the same deck as the first. *)
Theorem save_twice_is_save_once (w : World) (sel : nat) (slide : Slide) :
  selectedSlide (ui w) = Some sel ->
  slides (ui w) !! sel = Some slide ->
  let once := (run net quiet (handleSaveChanges (ui w)) w).1 in
  let twice := (run net quiet (handleSaveChanges (ui once)) once).1 in
  ui twice = ui once
  /\ requestsOf (log twice)
     = requestsOf (log w)
         ++ [SaveSlides "demo" (slides (ui once)); SaveSlides "demo" (slides (ui once))].
Proof.
  intros Hsel Hs. cbv zeta.
  assert (Hlt : (sel < length (slides (ui w)))%nat) by (eapply lookup_lt_Some; eauto).
  rewrite (run_handleSaveChanges (ui w) w sel slide Hsel Hs). cbn [fst].
  set (deck := <[sel := materializeOnSave slide]> (slides (ui w))).
  set (w1 := {| ui := setShowEditModal false (setSlidesModified true (setSlides deck (ui w)));
                issued := S (issued w); log := _ |}).
  assert (Hs1 : slides (ui w1) !! sel = Some (materializeOnSave slide)).
  { subst w1 deck. cbn. now apply list_lookup_insert_eq. }
  rewrite (run_handleSaveChanges (ui w1) w1 sel (materializeOnSave slide) Hsel Hs1).
  cbn [fst ui log]. subst w1. cbn [ui slides setShowEditModal setSlidesModified setSlides log].
  rewrite materializeOnSave_idem. subst deck. rewrite list_insert_insert_eq.
  split; [reflexivity|].
  unfold requestsOf. rewrite !omap_app. simpl. now rewrite <- app_assoc.
Qed.

(** X12.  Text typed into the content box of the edit modal does not
    survive "Save Changes" when the slide has a blocks array (empty or
    not): the saved deck is the one that would have been saved without
    typing.  Text typed into the design box is saved. *)
Theorem typed_content_is_discarded (st st1 : State) (w : World) (v : string)
    (sel : nat) (slide : Slide) (bs : list SlideBlock) :
  selectedSlide st = Some sel ->
  slides st !! sel = Some slide ->
  blocks slide = Some bs ->
  (handleContentInput v st = Some st1 ->
     content <$> slides st1 !! sel = Some v
     /\ slides (ui (run net quiet (handleSaveChanges st1) w).1)
        = slides (ui (run net quiet (handleSaveChanges st) w).1))
  /\ (handleDesignInput v st = Some st1 ->
      design <$> slides (ui (run net quiet (handleSaveChanges st1) w).1) !! sel
      = Some v).
Proof.
  intros Hsel Hs Hb.
  assert (Hlt : (sel < length (slides st))%nat) by (eapply lookup_lt_Some; eauto).
  split.
  - unfold handleContentInput. rewrite Hsel. simpl. rewrite Hs. simpl.
    intros [= <-]. cbn [slides setSlides].
    split; [now rewrite list_lookup_insert_eq|].
    rewrite (run_handleSaveChanges st w sel slide Hsel Hs).
    rewrite (run_handleSaveChanges _ w sel (withContent v slide)); cbn [selectedSlide slides setSlides];
      [|exact Hsel | now apply list_lookup_insert_eq].
    cbn [fst ui slides setShowEditModal setSlidesModified setSlides].
    now rewrite list_insert_insert_eq, (materializeOnSave_typed slide bs v Hb).
  - unfold handleDesignInput. rewrite Hsel. simpl. rewrite Hs. simpl.
    intros [= <-].
    rewrite (run_handleSaveChanges _ w sel (withDesign v slide)); cbn [selectedSlide slides setSlides];
      [|exact Hsel | now apply list_lookup_insert_eq].
    cbn [fst ui slides setShowEditModal setSlidesModified setSlides].
    rewrite list_insert_insert_eq, list_lookup_insert_eq by exact Hlt.
    rewrite (materializeOnSave_blocks (withDesign v slide) bs Hb). reflexivity.
Qed.

End SaveFacts.

(** ** Analysis, feedback and generation *)

Section AnalysisFacts.

(** [handleShowAIFeedback] when the cache cannot be used. *)
Lemma run_handleShowAIFeedback_fresh net env (st : State) (w : World) :
  negb (hasSlidesChanged st) && Js.truthy (aiFeedback st) = false ->
  run net env (handleShowAIFeedback st) w
  = let w1 := fetched net env (analysisRequest (slides st) true)
                (onUi (setAnalysisLoading true) w) in
    match net (issued w) (analysisRequest (slides st) true) with
    | Resolved true (Json data) =>
        (onUi (fun x => setShowFeedbackModal true (setSlidesModified false
                 (setAnalysisLoading false (recordAnalysis (slides st) true data x)))) w1,
         Returned tt)
    | r =>
        (onUi (fun x => setError (Some (default "" (analysisFailure r)))
                 (setAnalysisLoading false (recordFailure true x))) w1,
         Returned tt)
    end.
Proof.
  intros Hc. unfold handleShowAIFeedback. rewrite Hc.
  rewrite run_catch, run_bind, run_updateAIAnalysis. cbv zeta.
  destruct (net (issued w) (analysisRequest (slides st) true))
    as [m | [|] [data | m]]; reflexivity.
Qed.

Lemma run_handleShowAIFeedback_cached net env (st : State) (w : World) :
  negb (hasSlidesChanged st) && Js.truthy (aiFeedback st) = true ->
  run net env (handleShowAIFeedback st) w
  = (onUi (setShowFeedbackModal true) w, Returned tt).
Proof. intros Hc. unfold handleShowAIFeedback. now rewrite Hc. Qed.

Variable net : nat -> Request -> Response.

(** X13.  [handleShowAIFeedback] never throws: every failure of the
    analysis call is caught.  After such a failure the error message is in
    [error], the feedback modal is not opened, the modified flag and the
    recorded fingerprint are as before, and the metrics and the feedback
    text are the reset values. *)
Theorem feedback_request_never_throws env (st : State) (w : World) :
  (run net env (handleShowAIFeedback st) w).2 = Returned tt
  /\ (forall msg,
        negb (hasSlidesChanged st) && Js.truthy (aiFeedback st) = false ->
        analysisFailure (net (issued w) (analysisRequest (slides st) true)) = Some msg ->
        let res := run net quiet (handleShowAIFeedback st) w in
        error (ui res.1) = Some msg
        /\ showFeedbackModal (ui res.1) = showFeedbackModal (ui w)
        /\ slidesModified (ui res.1) = slidesModified (ui w)
        /\ lastFeedbackSlidesHash (ui res.1) = lastFeedbackSlidesHash (ui w)
        /\ slides (ui res.1) = slides (ui w)
        /\ metrics (ui res.1) = notAnalyzed
        /\ aiFeedback (ui res.1) = "Failed to generate feedback. Please try again."
        /\ analysisLoading (ui res.1) = false).
Proof.
  split.
  - destruct (negb (hasSlidesChanged st) && Js.truthy (aiFeedback st)) eqn:Hc.
    + now rewrite run_handleShowAIFeedback_cached.
    + rewrite (run_handleShowAIFeedback_fresh net env st w Hc). cbv zeta.
      destruct (net (issued w) (analysisRequest (slides st) true))
        as [m | [|] [data | m]]; reflexivity.
  - intros msg Hc Hf. cbv zeta.
    rewrite (run_handleShowAIFeedback_fresh net quiet st w Hc). cbv zeta.
    destruct (net (issued w) (analysisRequest (slides st) true))
      as [m | [|] [data | m]]; try discriminate;
      injection Hf as <-; repeat split.
Qed.

(** X14.  A failed analysis of a deck whose fingerprint is the recorded one
    leaves its failure message where the cached feedback is kept: the next
    click on the feedback button shows that message and sends no request,
    whatever the backend would answer now. *)
Theorem failure_message_is_cached net' (w : World) (msg : string) :
  hasSlidesChanged (ui w) = false ->
  aiFeedback (ui w) = "" ->
  analysisFailure (net (issued w) (analysisRequest (slides (ui w)) true)) = Some msg ->
  let first := (run net quiet (handleShowAIFeedback (ui w)) w).1 in
  let second := run net' quiet (handleShowAIFeedback (ui first)) first in
  log second.1 = log first
  /\ showFeedbackModal (ui second.1) = true
  /\ aiFeedback (ui second.1) = "Failed to generate feedback. Please try again."
  /\ second.2 = Returned tt.
Proof.
  intros Hh Hfb Hf. cbv zeta.
  assert (Hc : negb (hasSlidesChanged (ui w)) && Js.truthy (aiFeedback (ui w)) = false)
    by (rewrite Hfb; apply andb_false_r).
  rewrite (run_handleShowAIFeedback_fresh net quiet (ui w) w Hc). cbv zeta.
  destruct (net (issued w) (analysisRequest (slides (ui w)) true))
    as [m | [|] [data | m]]; try discriminate; injection Hf as <-; cbn [fst];
    (rewrite run_handleShowAIFeedback_cached;
     [repeat split
     | unfold hasSlidesChanged in *; simpl in *; rewrite Hh; reflexivity]).
Qed.

(** X15.  An analysis without feedback request ([getFeedback] false), and
    one whose successful response carries no feedback text, leave the
    feedback text and the recorded fingerprint as they are, whatever the
    backend answers; the deck is never written by [updateAIAnalysis]. *)
Theorem analysis_keeps_feedback (deck : list Slide) (gf : bool) (w : World) :
  let res := run net quiet (updateAIAnalysis deck gf) w in
  slides (ui res.1) = slides (ui w)
  /\ (gf = false ->
      aiFeedback (ui res.1) = aiFeedback (ui w)
      /\ lastFeedbackSlidesHash (ui res.1) = lastFeedbackSlidesHash (ui w))
  /\ (forall data,
        net (issued w) (analysisRequest deck gf) = Resolved true (Json data) ->
        Js.truthy (default "" (r_feedback data)) = false ->
        aiFeedback (ui res.1) = aiFeedback (ui w)
        /\ lastFeedbackSlidesHash (ui res.1) = lastFeedbackSlidesHash (ui w)
        /\ score (metrics (ui res.1)) = default 0%Z (r_score data)).
Proof.
  cbv zeta. rewrite run_updateAIAnalysis. cbv zeta. split; [|split].
  - destruct (net (issued w) (analysisRequest deck gf)) as [m | [|] [data | m]];
      unfold recordAnalysis, recordFailure; destruct gf;
      try destruct (Js.truthy (default "" (r_feedback data))); reflexivity.
  - intros ->.
    destruct (net (issued w) (analysisRequest deck false)) as [m | [|] [data | m]];
      split; reflexivity.
  - intros data -> Hf. unfold recordAnalysis. rewrite Hf, andb_false_r.
    repeat split.
Qed.

(** [handleAIGenerate], by what the response is made of. *)
Lemma run_handleAIGenerate (problem solution : string) (w : World) :
  run net quiet (handleAIGenerate problem solution) w
  = let w1 := fetched net quiet (GenerateSlides problem solution)
                (onUi (fun x => setError None (setLoading true x)) w) in
    (match generateOutcome (net (issued w) (GenerateSlides problem solution)) with
     | inl msg => onUi (fun x => setLoading false (setError (Some msg) x)) w1
     | inr contents =>
         onUi (fun x =>
                 setLoading false
                   (setShowAIModal false
                      (setSlidesModified true
                         (setDeckDescription solution
                            (setDeckTitle problem
                               (setSlides (generatedSlides contents) x)))))) w1
     end, Returned tt).
Proof.
  unfold handleAIGenerate.
  rewrite run_bind, run_set, run_bind, run_set, run_finally, run_catch, run_bind,
    run_awaitFetch.
  cbv zeta. cbn [issued onUi].
  destruct (net (issued w) (GenerateSlides problem solution))
    as [m | [|] [data | m]]; cbn [generateOutcome]; try reflexivity.
  - destruct (r_slides data) as [contents|] eqn:Hsl; simpl; rewrite Hsl; reflexivity.
Qed.

Lemma standard_titles_nonempty (i : nat) (t : string) :
  STANDARD_SLIDES !! i = Some t -> t <> "".
Proof.
  intros H. do 13 (destruct i as [|i]; [injection H as <-; discriminate|]).
  discriminate.
Qed.

(** X16.  "AI Generate" never throws and always clears the loading flag.
    When the call fails (rejected request, status not ok, body that is not
    JSON or has no [slides]), the deck, the deck title and description and
    the modal flag are as before and the message is in [error]; exactly one
    request is sent in every case. *)
Theorem generate_failure_keeps_deck (problem solution : string) (w : World) :
  let res := run net quiet (handleAIGenerate problem solution) w in
  res.2 = Returned tt
  /\ loading (ui res.1) = false
  /\ requestsOf (log res.1) = requestsOf (log w) ++ [GenerateSlides problem solution]
  /\ (forall msg,
        generateOutcome (net (issued w) (GenerateSlides problem solution)) = inl msg ->
        error (ui res.1) = Some msg
        /\ slides (ui res.1) = slides (ui w)
        /\ deckTitle (ui res.1) = deckTitle (ui w)
        /\ deckDescription (ui res.1) = deckDescription (ui w)
        /\ showAIModal (ui res.1) = showAIModal (ui w)
        /\ slidesModified (ui res.1) = slidesModified (ui w)).
Proof.
  cbv zeta. rewrite run_handleAIGenerate. cbv zeta.
  split; [reflexivity|]. split; [|split].
  - now destruct (generateOutcome _).
  - destruct (generateOutcome _); cbn [fst log onUi fetched];
      unfold requestsOf; now rewrite omap_app.
  - intros msg ->. repeat split.
Qed.

(** X17.  When "AI Generate" succeeds, the deck has one slide per text of
    the response, in order: slide [i] has that text as content, the empty
    array as blocks and as visuals, an empty design, and as title the
    standard title number [i], or 'Slide i+1' from the fourteenth on.  The
    problem and solution become deck title and description, the deck is
    marked modified, the modal is closed and the error is cleared; the
    selection and the recorded fingerprint are not touched. *)
Theorem generate_success_builds_deck (problem solution : string) (w : World)
    (contents : list string) :
  generateOutcome (net (issued w) (GenerateSlides problem solution)) = inr contents ->
  let res := run net quiet (handleAIGenerate problem solution) w in
  length (slides (ui res.1)) = length contents
  /\ (forall i c, contents !! i = Some c ->
        exists s, slides (ui res.1) !! i = Some s
          /\ content s = c /\ design s = ""
          /\ blocks s = Some [] /\ visuals s = Some []
          /\ (forall t, STANDARD_SLIDES !! i = Some t -> title s = t)
          /\ ((13 <= i)%nat -> title s = "Slide " +:+ showNat (i + 1)))
  /\ deckTitle (ui res.1) = problem
  /\ deckDescription (ui res.1) = solution
  /\ slidesModified (ui res.1) = true
  /\ showAIModal (ui res.1) = false
  /\ error (ui res.1) = None
  /\ selectedSlide (ui res.1) = selectedSlide (ui w)
  /\ lastFeedbackSlidesHash (ui res.1) = lastFeedbackSlidesHash (ui w).
Proof.
  intros Hok. cbv zeta. rewrite run_handleAIGenerate. cbv zeta. rewrite Hok.
  cbn [fst ui onUi fetched quiet slides setLoading setShowAIModal setSlidesModified
         setDeckDescription setDeckTitle setSlides].
  split; [unfold generatedSlides; apply length_imap|].
  split; [|repeat split].
  intros i c Hi. unfold generatedSlides. rewrite list_lookup_imap, Hi. simpl.
  eexists. split; [reflexivity|]. cbn [content design blocks visuals title].
  repeat split.
  - intros t Ht. rewrite Ht. unfold Js.orStr.
    destruct (String.eqb_spec t ""); [|reflexivity].
    exfalso. eapply standard_titles_nonempty; eauto.
  - intros Hge.
    assert (STANDARD_SLIDES !! i = None) as -> by (apply lookup_ge_None; simpl; lia).
    reflexivity.
Qed.

End AnalysisFacts.

(** ** Suggestions, the editor's save and block edits on the page *)

Section PageFacts.

Variable net : nat -> Request -> Response.

(** X18.  A click on a suggestion of the selected slide applies it before
    the replacement is requested and whatever the request settles to: the
    request already carries the slide with the suggestion applied.  When
    the request fails the error is thrown to the caller and the list of
    suggestions is as before; when it succeeds the list keeps its length,
    the clicked slot holds the new suggestion, of the same type, and every
    other slot is as before. *)
Theorem suggestion_click_replaces_one_slot (w : World) (sel idx : nat)
    (slide : Slide) (sugg : Suggestion) :
  selectedSlide (ui w) = Some sel ->
  slides (ui w) !! sel = Some slide ->
  let res := run net quiet (handleSuggestionClick (ui w) sugg idx) w in
  let rq := suggestionRequest (stype sugg) (applySuggestion sugg slide) in
  let reply := suggestionReply (stype sugg) (net (issued w) rq) in
  requestsOf (log res.1) = requestsOf (log w) ++ [rq]
  /\ slides (ui res.1) = <[sel := applySuggestion sugg slide]> (slides (ui w))
  /\ slidesModified (ui res.1) = true
  /\ (forall msg, reply = Thrown msg ->
        aiSuggestions (ui res.1) = aiSuggestions (ui w) /\ res.2 = Thrown msg)
  /\ (forall n, reply = Returned n ->
        res.2 = Returned tt
        /\ stype n = stype sugg
        /\ length (aiSuggestions (ui res.1)) = length (aiSuggestions (ui w))
        /\ (forall j, j <> idx ->
              aiSuggestions (ui res.1) !! j = aiSuggestions (ui w) !! j)
        /\ ((idx < length (aiSuggestions (ui w)))%nat ->
            aiSuggestions (ui res.1) !! idx = Some n)).
Proof.
  intros Hsel Hs. cbv zeta. unfold handleSuggestionClick. rewrite Hsel, Hs.
  rewrite run_bind, run_set, run_bind, run_set, run_bind, run_fetchAISuggestion.
  cbn [issued onUi].
  fold (suggestionRequest (stype sugg) (applySuggestion sugg slide)).
  destruct (suggestionReply (stype sugg) _) as [n | msg] eqn:Hr;
    cbn [run bind set fst snd ui log onUi fetched quiet slides slidesModified
           aiSuggestions setAiSuggestions setSlides setSlidesModified];
    (split; [unfold requestsOf; now rewrite omap_app|]);
    (split; [reflexivity|]); (split; [reflexivity|]);
    (split; [intros m [= <-] || (intros m Hm; discriminate Hm)
            | intros n' Hn; try discriminate Hn]).
  - injection Hn as <-. split; [reflexivity|]. split.
    + unfold suggestionReply in Hr.
      destruct (net (issued w) _) as [m | [|] [d | m]]; try discriminate.
      now injection Hr as <-.
    + split; [apply length_imap|]. split.
      * intros j Hj. rewrite list_lookup_imap.
        destruct (aiSuggestions (ui w) !! j); simpl; [|reflexivity].
        destruct (Nat.eqb_spec j idx); [contradiction | reflexivity].
      * intros Hlt. rewrite list_lookup_imap.
        destruct (lookup_lt_is_Some_2 _ _ Hlt) as [x ->]. simpl.
        now rewrite Nat.eqb_refl.
  - split; reflexivity.
Qed.

(** The [onSave] of the block editor, by what the two requests settle to. *)
Lemma run_handleManualSave (st : State) (sel : nat) (old upd : Slide) (w : World) :
  let deck := <[sel := storeEditedSlide old upd]> (slides st) in
  run net quiet (handleManualSave st sel old upd) w
  = let w1 := fetched net quiet (SaveSlides "demo" deck)
                (onUi (fun x => setSlidesModified true (setSlides deck x)) w) in
    match net (issued w) (SaveSlides "demo" deck) with
    | Rejected msg => (w1, Thrown msg)
    | Resolved _ _ =>
        match run net quiet (updateAIAnalysis deck true) w1 with
        | (w2, Returned _) => (w2, Returned tt)
        | (w2, Thrown msg) => (w2, Thrown msg)
        end
    end.
Proof.
  cbv zeta. unfold handleManualSave.
  rewrite run_bind, run_set, run_bind, run_set, run_bind, run_awaitFetch.
  cbn [issued onUi].
  destruct (net (issued w) _) as [msg | ok body]; [reflexivity|].
  rewrite run_bind.
  destruct (run net quiet (updateAIAnalysis _ true) _) as [w2 [d | msg]]; reflexivity.
Qed.

(** X19.  Saving from the block editor, opened on a slide of the deck,
    stores the deck at once, then sends
    it to the backend, then has it analysed.  When the save request is
    rejected no analysis is requested and the metrics stay.  When the
    analysis succeeds with feedback, the fingerprint of the saved deck is
    recorded, so that a click on the feedback button right after shows the
    new feedback without another request. *)
Theorem editor_save_primes_feedback (st : State) (sel : nat) (old upd : Slide)
    (w : World) :
  slides st !! sel = Some old ->
  let deck := <[sel := storeEditedSlide old upd]> (slides st) in
  let res := run net quiet (handleManualSave st sel old upd) w in
  slides (ui res.1) = deck
  /\ slidesModified (ui res.1) = true
  /\ (forall msg, net (issued w) (SaveSlides "demo" deck) = Rejected msg ->
        res.2 = Thrown msg
        /\ requestsOf (log res.1) = requestsOf (log w) ++ [SaveSlides "demo" deck]
        /\ metrics (ui res.1) = metrics (ui w))
  /\ (forall ok body data fb,
        net (issued w) (SaveSlides "demo" deck) = Resolved ok body ->
        net (S (issued w)) (analysisRequest deck true) = Resolved true (Json data) ->
        r_feedback data = Some fb ->
        fb <> "" ->
        res.2 = Returned tt
        /\ requestsOf (log res.1)
           = requestsOf (log w) ++ [SaveSlides "demo" deck; analysisRequest deck true]
        /\ aiFeedback (ui res.1) = fb
        /\ lastFeedbackSlidesHash (ui res.1) = generateSlidesHash deck
        /\ hasSlidesChanged (ui res.1) = false
        /\ forall net',
             log (run net' quiet (handleShowAIFeedback (ui res.1)) res.1).1
             = log res.1).
Proof.
  intros _. cbv zeta. rewrite run_handleManualSave. cbv zeta.
  set (deck := <[sel := storeEditedSlide old upd]> (slides st)).
  split; [|split; [|split]].
  - destruct (net (issued w) (SaveSlides "demo" deck)) as [m | ok body]; [reflexivity|].
    rewrite run_updateAIAnalysis. cbv zeta.
    destruct (net _ (analysisRequest deck true)) as [m | [|] [data | m]];
      unfold recordAnalysis, recordFailure; cbn [andb];
      try destruct (Js.truthy (default "" (r_feedback data))); reflexivity.
  - destruct (net (issued w) (SaveSlides "demo" deck)) as [m | ok body]; [reflexivity|].
    rewrite run_updateAIAnalysis. cbv zeta.
    destruct (net _ (analysisRequest deck true)) as [m | [|] [data | m]];
      unfold recordAnalysis, recordFailure; cbn [andb];
      try destruct (Js.truthy (default "" (r_feedback data))); reflexivity.
  - intros msg ->. cbn [fst snd]. split; [reflexivity|]. split; [|reflexivity].
    unfold requestsOf, fetched. cbn [log]. now rewrite omap_app.
  - intros ok body data fb -> Ha Hfb Hne.
    rewrite run_updateAIAnalysis. cbv zeta.
    change (issued (fetched net quiet (SaveSlides "demo" deck)
                      (onUi (fun x => setSlidesModified true (setSlides deck x)) w)))
      with (S (issued w)).
    rewrite Ha. unfold recordAnalysis. rewrite Hfb, default_some.
    rewrite (truthy_nonempty _ Hne). cbn [andb fst snd].
    assert (Hh : hasSlidesChanged
              (ui (onUi (fun x => setAnalysisLoading false
                    (setLastFeedbackSlidesHash (generateSlidesHash deck)
                       (setAiFeedback fb
                          (setMetrics
                             {| score := default 0%Z (r_score data);
                                narrative_flow := Js.orStr (r_narrative_flow data) "Not analyzed";
                                visual_design := Js.orStr (r_visual_design data) "Not analyzed";
                                data_credibility := Js.orStr (r_data_credibility data) "Not analyzed" |}
                             x))))
                 (fetched net quiet (analysisRequest deck true)
                    (onUi (setAnalysisLoading true)
                       (fetched net quiet (SaveSlides "demo" deck)
                          (onUi (fun x => setSlidesModified true (setSlides deck x)) w))))))
            = false).
    { apply hasSlidesChanged_false. reflexivity. }
    split; [reflexivity|]. split.
    { unfold requestsOf, fetched. cbn [log onUi]. rewrite !omap_app. simpl.
      now rewrite <- app_assoc. }
    split; [reflexivity|]. split; [reflexivity|]. split; [exact Hh|].
    intros net'. rewrite run_handleShowAIFeedback_cached; [reflexivity|].
    rewrite Hh. cbn. now apply truthy_nonempty.
Qed.

Lemma omap_visualOf_insert_text (bs : list SlideBlock) (j : nat)
    (base : BaseBlock) (t v : string) (e : bool) :
  bs !! j = Some (TextBlock base t e) ->
  omap visualOf (<[j := TextBlock base v e]> bs) = omap visualOf bs.
Proof.
  revert j. induction bs as [|b bs IH]; intros [|j] H; simpl in *;
    try discriminate.
  - injection H as ->. reflexivity.
  - destruct (visualOf b); [f_equal|]; now apply IH.
Qed.

(** X20.  [handleEditBlock] fails exactly when the slide, its blocks array
    or the block is missing.  When it succeeds, the deck keeps its length
    and every other slide; the edited slide keeps its block ids and its
    visuals; and re-entering the text a block already has, on a slide whose
    content is the blank-line join of its text blocks, gives back the same
    deck. *)
Theorem edit_block_is_local (i j : nat) (v : string) (deck : list Slide) :
  (handleEditBlock i j v deck = None <->
     forall slide bs, deck !! i = Some slide -> blocks slide = Some bs ->
       bs !! j = None)
  /\ (forall deck', handleEditBlock i j v deck = Some deck' ->
        length deck' = length deck
        /\ (forall k, k <> i -> deck' !! k = deck !! k)
        /\ exists slide bs slide' bs',
             deck !! i = Some slide /\ blocks slide = Some bs
             /\ deck' !! i = Some slide' /\ blocks slide' = Some bs'
             /\ blockId <$> bs' = blockId <$> bs
             /\ omap visualOf bs' = omap visualOf bs
             /\ title slide' = title slide /\ design slide' = design slide
             /\ visuals slide' = visuals slide)
  /\ (forall slide bs base e,
        deck !! i = Some slide -> blocks slide = Some bs ->
        bs !! j = Some (TextBlock base v e) ->
        content slide = Js.join (nl +:+ nl) (omap textOf bs) ->
        handleEditBlock i j v deck = Some deck).
Proof.
  unfold handleEditBlock. split; [|split].
  - destruct (deck !! i) as [slide|] eqn:Hi; simpl.
    + destruct (blocks slide) as [bs|] eqn:Hb; simpl.
      * destruct (bs !! j) as [b|] eqn:Hj; simpl.
        -- split; [discriminate|]. intros H.
           specialize (H _ _ eq_refl Hb). congruence.
        -- split; [|reflexivity]. intros _ s' bs' [= <-] Hb'. congruence.
      * split; [|reflexivity]. intros _ s' bs' [= <-] Hb'. congruence.
    + split; [|reflexivity]. intros _ s' bs' Hs'. discriminate.
  - intros deck' H.
    destruct (deck !! i) as [slide|] eqn:Hi; [|discriminate]. simpl in H.
    destruct (blocks slide) as [bs|] eqn:Hb; [|discriminate]. simpl in H.
    destruct (bs !! j) as [b|] eqn:Hj; [|discriminate]. simpl in H.
    injection H as <-.
    split; [apply length_insert|]. split.
    + intros k Hk. now apply list_lookup_insert_ne.
    + eexists slide, bs, _, _. split; [reflexivity|]. split; [exact Hb|].
      split; [apply list_lookup_insert_eq; eapply lookup_lt_Some; eauto|].
      split; [reflexivity|].
      destruct b as [base t e | base vis].
      * split.
        { rewrite list_fmap_insert. apply list_insert_id.
          rewrite list_lookup_fmap, Hj. reflexivity. }
        split; [|repeat split].
        now apply omap_visualOf_insert_text with (t := t).
      * repeat split.
  - intros slide bs base e Hi Hb Hj Hc. rewrite Hi. simpl. rewrite Hb. simpl.
    rewrite Hj. simpl. rewrite (list_insert_id bs j _ Hj), <- Hc.
    f_equal. apply list_insert_id. rewrite Hi. f_equal.
    destruct slide. simpl in *. now subst.
Qed.





End PageFacts.

(** ** The deck built from the generated texts *)

Section DeckFacts.

Lemma organizeItem_lookup (m : gmap string (list string)) (item t : string) :
  organizeItem m item !! t
  = (fun cs => cs ++ option_list (entryFor t item)) <$> m !! t.
Proof.
  assert (Hid : forall x : option (list string), x = (fun cs => cs ++ []) <$> x)
    by (intros [cs|]; simpl; [now rewrite app_nil_r | reflexivity]).
  unfold organizeItem, entryFor.
  destruct (classifyItem STANDARD_SLIDES item) as [found|]; [|apply Hid].
  destruct (String.eqb_spec found t) as [-> | Hne].
  - destruct (Js.truthy _); [|apply Hid]. now rewrite lookup_alter_eq.
  - destruct (Js.truthy _); [|apply Hid].
    rewrite lookup_alter_ne by exact Hne. apply Hid.
Qed.

Lemma contentMap_lookup (items : list string) (m : gmap string (list string))
    (t : string) :
  fold_left organizeItem items m !! t
  = (fun cs => cs ++ omap (entryFor t) items) <$> m !! t.
Proof.
  revert m. induction items as [|item items IH]; intros m; simpl.
  - destruct (m !! t); simpl; [now rewrite app_nil_r | reflexivity].
  - rewrite IH, organizeItem_lookup.
    destruct (m !! t) as [cs|]; simpl; [|reflexivity].
    rewrite <- app_assoc. now destruct (entryFor t item).
Qed.

Lemma reduce_lookup (titles : list string) (m : gmap string (list string))
    (t : string) :
  t ∈ titles ->
  fold_left (fun acc slideTitle => <[slideTitle := []]> acc) titles m !! t
  = Some [].
Proof.
  assert (Hkeep : forall l (m' : gmap string (list string)),
             m' !! t = Some [] ->
             fold_left (fun acc slideTitle => <[slideTitle := []]> acc) l m' !! t
             = Some []).
  { induction l as [|x l IH]; intros m' H; simpl; [exact H|].
    apply IH. destruct (decide (x = t)) as [-> | Hne];
      [apply lookup_insert_eq | now rewrite lookup_insert_ne]. }
  revert m. induction titles as [|x l IH]; intros m H; simpl.
  - now apply elem_of_nil in H.
  - apply elem_of_cons in H as [-> | H]; [|now apply IH].
    apply Hkeep, lookup_insert_eq.
Qed.

Lemma omap_textOf_imap_text (mk : nat -> BaseBlock) (cs : list string) :
  omap textOf (imap (fun i c => TextBlock (mk i) c true) cs) = cs.
Proof.
  revert mk. induction cs as [|c cs IH]; intros mk; [reflexivity|].
  simpl. f_equal. apply (IH (mk ∘ S)).
Qed.

Lemma omap_visualOf_imap_text (mk : nat -> BaseBlock) (cs : list string) :
  omap visualOf (imap (fun i c => TextBlock (mk i) c true) cs) = [].
Proof.
  revert mk. induction cs as [|c cs IH]; intros mk; [reflexivity|].
  simpl. apply (IH (mk ∘ S)).
Qed.

Lemma entryFor_nonempty (t : string) (items : list string) :
  "" ∉ omap (entryFor t) items.
Proof.
  intros H. apply list_elem_of_omap in H as (item & _ & H).
  unfold entryFor in H.
  destruct (classifyItem STANDARD_SLIDES item) as [found|]; [|discriminate].
  destruct (String.eqb found t); [|discriminate].
  destruct (Js.truthy (Js.trim (stripTitle found item))) eqn:Ht; [|discriminate].
  injection H as H. rewrite H in Ht. discriminate.
Qed.

(** X22.  The deck [handleGenerateSlides] builds has one slide per
    standard title, in the order of [STANDARD_SLIDES], whatever the backend
    sent; the slide of a title holds, in the order they were sent, the
    texts of the items whose first standard title is this one, and no
    [TypeError] arises from the content map. *)
Theorem generated_deck_by_title (rnd : string -> nat -> string)
    (items : list string) :
  buildSlides rnd items
  = Some ((fun t => buildSlide (rnd t) t (omap (entryFor t) items))
            <$> STANDARD_SLIDES).
Proof.
  unfold buildSlides. apply mapM_Some, Forall2_fmap_r, Forall_Forall2_diag.
  apply Forall_forall. intros t Ht.
  rewrite contentMap_lookup. unfold emptyContentMap.
  rewrite (reduce_lookup _ _ _ Ht). reflexivity.
Qed.

(** The slide built for a title from texts none of which is empty. *)
Lemma buildSlide_shape (rnd : nat -> string) (t : string) (cs : list string) :
  "" ∉ cs ->
  let s := buildSlide rnd t cs in
  title s = t /\ design s = "" /\ visuals s = None
  /\ exists bs,
       blocks s = Some bs /\ bs <> [] /\ omap visualOf bs = []
       /\ content s = Js.join (nl +:+ nl) (omap textOf bs)
       /\ (omap textOf bs = [""] \/ "" ∉ omap textOf bs).
Proof.
  intros Hcs. cbv zeta. unfold buildSlide.
  cbn [title design visuals blocks content].
  split; [reflexivity|]. split; [reflexivity|]. split; [reflexivity|].
  eexists. split; [reflexivity|].
  rewrite length_imap. destruct cs as [|c cs].
  - simpl. split; [discriminate|]. split; [reflexivity|].
    split; [reflexivity|]. now left.
  - change (0 <? length (c :: cs))%nat with true. cbv iota.
    split; [simpl; discriminate|].
    rewrite (omap_textOf_imap_text
               (fun index => {| id := "text-" +:+ rnd index;
                                position := {| pos_x := 50;
                                               pos_y := 50 + Z.of_nat index * 100 |};
                                size := {| width := 500; height := 80 |} |})).
    split; [apply omap_visualOf_imap_text|]. split; [reflexivity|]. now right.
Qed.

(** X23.  Every generated deck has the thirteen standard titles in order,
    and each of its slides has an empty design, no visuals, at least one
    block, only text blocks, and as content the blank-line join of the
    texts of its blocks; a slide without text has a single empty block,
    and no other block is empty. *)
Theorem generated_deck_is_well_formed (rnd : string -> nat -> string)
    (items : list string) :
  exists deck,
    buildSlides rnd items = Some deck
    /\ title <$> deck = STANDARD_SLIDES
    /\ Forall (fun s =>
         design s = "" /\ visuals s = None
         /\ exists bs,
              blocks s = Some bs /\ bs <> [] /\ omap visualOf bs = []
              /\ content s = Js.join (nl +:+ nl) (omap textOf bs)
              /\ (omap textOf bs = [""] \/ "" ∉ omap textOf bs)) deck.
Proof.
  exists ((fun t => buildSlide (rnd t) t (omap (entryFor t) items))
            <$> STANDARD_SLIDES).
  split; [unfold buildSlides; apply mapM_Some, Forall2_fmap_r,
                     Forall_Forall2_diag, Forall_forall; intros t Ht;
                   rewrite contentMap_lookup; unfold emptyContentMap;
                   rewrite (reduce_lookup _ _ _ Ht); reflexivity|].
  split.
  - rewrite <- list_fmap_compose. rewrite <- (list_fmap_id STANDARD_SLIDES) at 2.
    apply list_fmap_ext. intros i t _. reflexivity.
  - apply Forall_fmap, Forall_forall. intros t _.
    destruct (buildSlide_shape (rnd t) t _ (entryFor_nonempty t items))
      as (_ & Hd & Hv & Hb).
    split; [exact Hd|]. split; [exact Hv | exact Hb].
Qed.

(** X24.  A suggestion of type design whose text holds a chart cue of
    [parseDesign] is never stored in the design of the slide: the first
    cue is the visual type [getVisualTypeFromSuggestion] finds, so the click
    appends the text to the content and leaves the design as it is. *)
Theorem chart_cue_goes_to_content (sugg : Suggestion) (slide : Slide)
    (v : VisualType) :
  head (visualCues (parseDesign (Js.toStr (stext sugg)))) = Some v ->
  getVisualTypeFromSuggestion (Js.toStr (stext sugg)) = Some v
  /\ design (applySuggestion sugg slide) = design slide
  /\ content (applySuggestion sugg slide)
     = content slide +:+ nl +:+ Js.toStr (stext sugg).
Proof.
  intros H.
  assert (Hv : getVisualTypeFromSuggestion (Js.toStr (stext sugg)) = Some v).
  { unfold parseDesign in H. unfold getVisualTypeFromSuggestion.
    destruct (negb (Js.truthy (Js.toStr (stext sugg)))); [discriminate|].
    cbn [visualCues] in H.
    destruct (Js.testCI "pie chart" _); [exact H|].
    destruct (Js.testCI "bar chart" _); [|discriminate].
    rewrite orb_true_r. exact H. }
  split; [exact Hv|]. unfold applySuggestion. rewrite Hv.
  split; [reflexivity|]. cbn [content withContent].
  unfold Js.orStr. now destruct (String.eqb_spec (content slide) "") as [-> |].
Qed.

End DeckFacts.

(** ** Opening the block editor from the page *)

Section EditorFromPage.

Variable net : nat -> Request -> Response.




End EditorFromPage.

(** ** The session restored on mount *)

Section SessionFacts.

Lemma restoreSession_fields (s : Session) :
  let st := restoreSession s initialState in
  slides st = default [] (savedSlides s)
  /\ lastFeedbackSlidesHash st = generateSlidesHash (default [] (savedSlides s))
  /\ aiFeedback st = default "" (savedAiFeedback s)
  /\ metrics st = default notAnalyzed (savedMetrics s)
  /\ deckTitle st = default "" (savedDeckTitle s)
  /\ deckDescription st = default "" (savedDeckDescription s)
  /\ slidesModified st = false
  /\ selectedSlide st = None.
Proof.
  cbv zeta. unfold restoreSession.
  destruct s as [[deck|] [m|] [f|] [t|] [d|]]; cbn [savedSlides savedMetrics
    savedAiFeedback savedDeckTitle savedDeckDescription];
    try destruct (Js.truthy f) eqn:Ef; try destruct (Js.truthy t) eqn:Et;
    try destruct (Js.truthy d) eqn:Ed;
    try apply truthy_false in Ef; try apply truthy_false in Et;
    try apply truthy_false in Ed; subst;
    repeat split; reflexivity.
Qed.

(** X26.  On the state the restore effect leaves, the deck counts as
    unchanged whatever the session held: the fingerprint of the restored
    slides is recorded together with them.  A click on the feedback button
    then shows a restored feedback text without any request, also when
    that text was produced for other slides; only without a restored
    feedback text is an analysis requested. *)
Theorem restored_deck_counts_as_analysed (s : Session) :
  let st := restoreSession s initialState in
  slides st = default [] (savedSlides s)
  /\ aiFeedback st = default "" (savedAiFeedback s)
  /\ hasSlidesChanged st = false
  /\ (forall net (w : World),
        aiFeedback st <> "" ->
        run net quiet (handleShowAIFeedback st) w
        = (onUi (setShowFeedbackModal true) w, Returned tt))
  /\ (forall net (w : World),
        aiFeedback st = "" ->
        requestsOf (log (run net quiet (handleShowAIFeedback st) w).1)
        = requestsOf (log w) ++ [analysisRequest (slides st) true]).
Proof.
  cbv zeta.
  destruct (restoreSession_fields s) as (Hs & Hh & Hf & _). cbv zeta in Hs, Hh, Hf.
  assert (Hc : hasSlidesChanged (restoreSession s initialState) = false)
    by (apply hasSlidesChanged_false; now rewrite Hs, Hh).
  split; [exact Hs|]. split; [exact Hf|]. split; [exact Hc|]. split.
  - intros net w Hne. apply run_handleShowAIFeedback_cached.
    rewrite Hc. simpl. now apply truthy_nonempty.
  - intros net w He. rewrite run_handleShowAIFeedback_fresh
      by (rewrite Hc, He; reflexivity).
    cbv zeta.
    destruct (net (issued w) _) as [m | [|] [data | m]]; cbn [fst];
      unfold requestsOf, fetched; cbn [log onUi]; rewrite omap_app; reflexivity.
Qed.

End SessionFacts.

(** ** The further properties on sample data *)

Lemma default_layout_is_a_grid_witness :
  exists a b,
    getDefaultLayout twoTexts !! 0%nat = Some a
    /\ getDefaultLayout twoTexts !! 2%nat = Some b
    /\ cellsDisjoint a b.
Proof.
  eexists. eexists. split; [reflexivity|]. split; [reflexivity|].
  exact (proj2 (proj2 (default_layout_is_a_grid twoTexts)) 0%nat 2%nat _ _
           ltac:(discriminate) eq_refl eq_refl).
Defined.

Lemma add_then_remove_restores_witness :
  handleRemoveBlock "text-k3" (handleAddText "k3" sampleEditor) = sampleEditor
  /\ handleRemoveBlock "visual-k3" (handleAddVisual "k3" sampleEditor) = sampleEditor.
Proof.
  apply (add_then_remove_restores "k3" sampleEditor).
  - reflexivity.
  - apply (bool_decide_unpack _). vm_compute. exact I.
  - apply (bool_decide_unpack _). vm_compute. exact I.
Defined.

Lemma text_change_is_local_witness :
  eBlocks (handleTextChange 0 "new" sampleEditor) !! 0%nat
  = Some (TextBlock (box "text-a") "new" true)
  /\ handleTextChange 0 "a" (handleTextChange 0 "new" sampleEditor) = sampleEditor
  /\ handleTextChange 1 "new" sampleEditor = sampleEditor.
Proof.
  destruct (text_change_is_local 0 "new" "new" sampleEditor)
    as (_ & _ & _ & _ & _ & H).
  destruct (H (box "text-a") "a" true eq_refl) as (H1 & H2).
  split; [exact H1|]. split; [exact H2|].
  apply (proj1 (proj2 (proj2 (proj2 (text_change_is_local 1 "new" "new" sampleEditor))))).
  intros base t e. discriminate.
Defined.

Lemma chart_edits_commute_witness :
  eBlocks (handleVisualTypeChange 1 bar sampleEditor) !! 1%nat
  = Some (VisualBlockContainer (box "visual-0")
            {| vtype := bar; vdata := vdata samplePie; vconfig := None |})
  /\ eBlocks (handleVisualDataChange 1 (JsArr []) sampleEditor) !! 1%nat
     = Some (VisualBlockContainer (box "visual-0")
               {| vtype := pie; vdata := JsArr []; vconfig := None |}).
Proof.
  destruct (chart_edits_commute 1 1 bar (JsArr []) sampleEditor)
    as (_ & _ & _ & _ & _ & H1 & H2).
  split; [exact (H1 (box "visual-0") samplePie eq_refl)
         | exact (H2 (box "visual-0") samplePie eq_refl)].
Defined.

Lemma generated_text_overwrites_title_witness :
  let old := demoSlide "Our Solution" "Smart inventory" "blue background" in
  let shown := editorSlide "r1" "r2" old in
  let saved :=
    storeEditedSlide old
      (editorSave shown
         (applyGeneratedText "Generated" (openEditor (blocks shown))) "Classic") in
  title saved = "Generated" /\ content saved = "Generated".
Proof.
  cbv zeta.
  destruct (generated_text_overwrites_title "r1" "r2" "Generated" "Classic"
              (demoSlide "Our Solution" "Smart inventory" "blue background")
              sampleEditor ltac:(discriminate)) as (_ & _ & _ & _ & H).
  cbv zeta in H. destruct H as (H1 & H2 & _).
  split; [exact H1 | exact H2].
Defined.

Lemma typed_content_is_discarded_witness :
  exists st1 st2,
    handleContentInput "typed" twoTextState = Some st1
    /\ handleDesignInput "dark" twoTextState = Some st2
    /\ slides (ui (run okNet quiet (handleSaveChanges st1) (startWorld st1)).1)
       = slides (ui (run okNet quiet (handleSaveChanges twoTextState)
                       (startWorld st1)).1)
    /\ design <$> slides (ui (run okNet quiet (handleSaveChanges st2)
                                (startWorld st1)).1) !! 0%nat
       = Some "dark".
Proof.
  eexists. eexists. split; [reflexivity|]. split; [reflexivity|].
  split.
  - exact (proj2 (proj1 (typed_content_is_discarded okNet twoTextState _ _ "typed"
                           0 _ twoTexts eq_refl eq_refl eq_refl) eq_refl)).
  - exact (proj2 (typed_content_is_discarded okNet twoTextState _ _ "dark"
                    0 _ twoTexts eq_refl eq_refl eq_refl) eq_refl).
Defined.

Lemma save_is_optimistic_witness :
  let res := run failNet quiet (handleSaveChanges twoTextState)
               (startWorld twoTextState) in
  slidesModified (ui res.1) = true
  /\ showEditModal (ui res.1) = false
  /\ res.2 = Thrown "Failed to fetch".
Proof.
  cbv zeta.
  destruct (save_is_optimistic failNet twoTextState (startWorld twoTextState))
    as (_ & _ & H).
  destruct (H 0%nat _ eq_refl eq_refl) as (_ & H2 & H3 & _ & H5).
  split; [exact H2|]. split; [exact H3 | exact H5].
Defined.

Lemma save_twice_is_save_once_witness :
  let once := (run okNet quiet (handleSaveChanges twoTextState)
                 (startWorld twoTextState)).1 in
  let twice := (run okNet quiet (handleSaveChanges (ui once)) once).1 in
  ui twice = ui once.
Proof.
  exact (proj1 (save_twice_is_save_once okNet (startWorld twoTextState) 0 _
                  eq_refl eq_refl)).
Defined.

Lemma feedback_request_never_throws_witness :
  let st := setSlides demoDeck initialState in
  let res := run failNet quiet (handleShowAIFeedback st) (startWorld st) in
  res.2 = Returned tt
  /\ error (ui res.1) = Some "Failed to fetch"
  /\ showFeedbackModal (ui res.1) = false.
Proof.
  cbv zeta.
  destruct (feedback_request_never_throws failNet quiet
              (setSlides demoDeck initialState)
              (startWorld (setSlides demoDeck initialState))) as (H0 & H).
  destruct (H "Failed to fetch" eq_refl eq_refl) as (H1 & H2 & _).
  split; [exact H0|]. split; [exact H1 | exact H2].
Defined.

Lemma failure_message_is_cached_witness :
  let first := (run failNet quiet (handleShowAIFeedback initialState)
                  (startWorld initialState)).1 in
  let second := run feedbackNet quiet (handleShowAIFeedback (ui first)) first in
  log second.1 = log first
  /\ showFeedbackModal (ui second.1) = true
  /\ aiFeedback (ui second.1) = "Failed to generate feedback. Please try again."
  /\ second.2 = Returned tt.
Proof.
  exact (failure_message_is_cached failNet feedbackNet (startWorld initialState)
           "Failed to fetch" eq_refl eq_refl eq_refl).
Defined.

Lemma analysis_keeps_feedback_witness :
  let res := run okNet quiet (updateAIAnalysis demoDeck true)
               (startWorld analysedState) in
  aiFeedback (ui res.1) = "Looks good"
  /\ lastFeedbackSlidesHash (ui res.1) = generateSlidesHash demoDeck
  /\ score (metrics (ui res.1)) = 0%Z.
Proof.
  cbv zeta.
  destruct (analysis_keeps_feedback okNet demoDeck true (startWorld analysedState))
    as (_ & _ & H).
  exact (H emptyBody eq_refl eq_refl).
Defined.

Lemma generate_failure_keeps_deck_witness :
  let st := setSlides demoDeck initialState in
  let res := run failNet quiet (handleAIGenerate "food waste" "smart inventory")
               (startWorld st) in
  res.2 = Returned tt
  /\ loading (ui res.1) = false
  /\ error (ui res.1) = Some "Failed to fetch"
  /\ slides (ui res.1) = demoDeck.
Proof.
  cbv zeta.
  destruct (generate_failure_keeps_deck failNet "food waste" "smart inventory"
              (startWorld (setSlides demoDeck initialState))) as (H0 & H1 & _ & H).
  destruct (H "Failed to fetch" eq_refl) as (H2 & H3 & _).
  split; [exact H0|]. split; [exact H1|]. split; [exact H2 | exact H3].
Defined.

Lemma generate_success_builds_deck_witness :
  let res := run genNet quiet (handleAIGenerate "food waste" "smart inventory")
               (startWorld initialState) in
  length (slides (ui res.1)) = 1%nat
  /\ deckTitle (ui res.1) = "food waste"
  /\ slidesModified (ui res.1) = true.
Proof.
  cbv zeta.
  destruct (generate_success_builds_deck genNet "food waste" "smart inventory"
              (startWorld initialState) ["Restaurants waste 30% of food"] eq_refl)
    as (H0 & _ & H2 & _ & H4 & _).
  split; [exact H0|]. split; [exact H2 | exact H4].
Defined.

Lemma suggestion_click_replaces_one_slot_witness :
  let sugg := {| stype := Design; stext := Some "Use two columns" |} in
  let res := run secondFails quiet (handleSuggestionClick suggestingState sugg 1)
               (startWorld suggestingState) in
  res.2 = Returned tt
  /\ aiSuggestions (ui res.1) !! 0%nat
     = Some {| stype := Content; stext := Some "Quote a customer" |}
  /\ aiSuggestions (ui res.1) !! 1%nat
     = Some {| stype := Design; stext := Some "Add a metric" |}.
Proof.
  cbv zeta.
  destruct (suggestion_click_replaces_one_slot secondFails
              (startWorld suggestingState) 1 1
              (demoSlide "Our Solution" "Smart inventory" "blue background")
              {| stype := Design; stext := Some "Use two columns" |}
              eq_refl eq_refl) as (_ & _ & _ & _ & H).
  destruct (H _ eq_refl) as (H1 & _ & _ & H4 & H5).
  split; [exact H1|]. split; [exact (H4 0%nat ltac:(discriminate))|].
  exact (H5 ltac:(repeat constructor)).
Defined.

Lemma editor_save_primes_feedback_witness :
  let old := demoSlide "Our Solution" "Smart inventory" "blue background" in
  let res := run feedbackNet quiet (handleManualSave suggestingState 1 old old)
               (startWorld suggestingState) in
  res.2 = Returned tt
  /\ aiFeedback (ui res.1) = "Add traction numbers"
  /\ hasSlidesChanged (ui res.1) = false
  /\ (run failNet quiet (handleManualSave suggestingState 1 old old)
        (startWorld suggestingState)).2 = Thrown "Failed to fetch".
Proof.
  cbv zeta.
  destruct (editor_save_primes_feedback feedbackNet suggestingState 1
              (demoSlide "Our Solution" "Smart inventory" "blue background")
              (demoSlide "Our Solution" "Smart inventory" "blue background")
              (startWorld suggestingState) eq_refl) as (_ & _ & _ & H).
  destruct (H _ _ _ "Add traction numbers" eq_refl eq_refl eq_refl
              ltac:(discriminate)) as (H1 & _ & H3 & _ & H5 & _).
  split; [exact H1|]. split; [exact H3|]. split; [exact H5|].
  destruct (editor_save_primes_feedback failNet suggestingState 1
              (demoSlide "Our Solution" "Smart inventory" "blue background")
              (demoSlide "Our Solution" "Smart inventory" "blue background")
              (startWorld suggestingState) eq_refl) as (_ & _ & Hr & _).
  exact (proj1 (Hr "Failed to fetch" eq_refl)).
Defined.

Lemma edit_block_is_local_witness :
  handleEditBlock 0 2 "<p>b</p>" blockDeck = Some blockDeck
  /\ handleEditBlock 0 3 "c" blockDeck = None
  /\ handleEditBlock 1 0 "c" blockDeck = None.
Proof.
  split; [|split].
  - exact (proj2 (proj2 (edit_block_is_local 0 2 "<p>b</p>" blockDeck))
             _ twoTexts (box "text-b") true eq_refl eq_refl eq_refl eq_refl).
  - apply (proj1 (edit_block_is_local 0 3 "c" blockDeck)).
    intros slide bs [= <-] [= <-]. reflexivity.
  - apply (proj1 (edit_block_is_local 1 0 "c" blockDeck)).
    intros slide bs H. discriminate H.
Defined.


Lemma chart_cue_goes_to_content_witness :
  let slide := demoSlide "Our Solution" "Smart inventory" "blue background" in
  design (applySuggestion chartSuggestion slide) = "blue background"
  /\ content (applySuggestion chartSuggestion slide)
     = "Smart inventory" +:+ nl +:+ "Use a pie chart for the market split".
Proof.
  cbv zeta.
  destruct (chart_cue_goes_to_content chartSuggestion
              (demoSlide "Our Solution" "Smart inventory" "blue background")
              pie eq_refl) as (_ & H1 & H2).
  split; [exact H1 | exact H2].
Defined.


Lemma restored_deck_counts_as_analysed_witness :
  let st := restoreSession staleSession initialState in
  slides st = demoDeck
  /\ run failNet quiet (handleShowAIFeedback st) (startWorld st)
     = (onUi (setShowFeedbackModal true) (startWorld st), Returned tt).
Proof.
  cbv zeta.
  destruct (restored_deck_counts_as_analysed staleSession) as (H1 & _ & _ & H4 & _).
  split; [exact H1|].
  exact (H4 failNet (startWorld (restoreSession staleSession initialState))
           ltac:(discriminate)).
Defined.
